(** * toyxona-backend: venue booking REST backend

    A shallow embedding of the Express controllers, the express-validator
    rule sets, the role middleware and the Mongoose models of the
    repository, followed by the properties of the booking, venue, user,
    auth, image and district services.

    Conventions of the embedding:
    - the document store is a record of lists, one list per collection, in
      insertion order; [_id]s are drawn from a counter kept with the store;
    - a controller is a computation in a small monad that threads the store
      and may stop early with a response ([return next(...)],
      [return res.status(...).json(...)], or an exception caught by the
      surrounding [try]/[catch] and handed to [next]);
    - request bodies are records of optional fields ([None] is JavaScript's
      [undefined]); text fields are strings, numeric fields are integers,
      references are ids;
    - store-maintained timestamps and [populate] joins in responses are left
      out: a response carries the stored document;
    - the libraries behind the code (validator's ISO-8601 and URL tests,
      JavaScript's [Date] and [Number], bcrypt, jsonwebtoken) are parameters
      of the development. *)

From Stdlib Require Import ZArith List String Ascii Bool Lia DecimalString
  Permutation Sorted.
Import ListNotations.
Local Open Scope string_scope.
Local Open Scope Z_scope.

(** ** JavaScript values *)

Definition Id := nat.
Bind Scope nat_scope with Id.

(** Truthiness of an optional string / number, as tested by [if (x)]. *)
Definition truthy (o : option string) : bool :=
  match o with
  | Some s => negb (s =? "")%string
  | None => false
  end.

Definition truthyNum (o : option Z) : bool :=
  match o with
  | Some z => negb (z =? 0)
  | None => false
  end.

(** [a || b] on an optional string with a string default. *)
Definition orDefault (o : option string) (d : string) : string :=
  match o with
  | Some s => if (s =? "")%string then d else s
  | None => d
  end.

(** [a > b] where [a] may be [undefined] (the comparison is then false). *)
Definition gtNum (o : option Z) (b : Z) : bool :=
  match o with
  | Some a => b <? a
  | None => false
  end.

(** Template-literal rendering of an integer: [`${n}`]. *)
Definition numToString (z : Z) : string :=
  NilEmpty.string_of_int (Z.to_int z).

(** [String.prototype.includes]. *)
Fixpoint includes (s sub : string) : bool :=
  String.prefix sub s ||
  match s with
  | EmptyString => false
  | String _ rest => includes rest sub
  end.

(** [String.prototype.trim], on the ASCII white space and line terminators. *)
Definition isWhitespace (c : ascii) : bool :=
  let n := nat_of_ascii c in
  (n =? 32)%nat || ((9 <=? n)%nat && (n <=? 13)%nat).

Fixpoint trimStart (s : string) : string :=
  match s with
  | EmptyString => EmptyString
  | String c rest => if isWhitespace c then trimStart rest else s
  end.

Fixpoint trimEnd (s : string) : string :=
  match s with
  | EmptyString => EmptyString
  | String c rest =>
      match trimEnd rest with
      | EmptyString => if isWhitespace c then EmptyString else String c EmptyString
      | t => String c t
      end
  end.

Definition trim (s : string) : string := trimEnd (trimStart s).

(** [Array.prototype.includes] on strings, also the [isIn] validator and the
    Mongoose [enum] validator. *)
Definition isIn (values : list string) (s : string) : bool :=
  existsb (String.eqb s) values.

(** Writing one document back: the first document selected by [p] (the
    one a query by [_id] finds) is replaced by [x]. *)
Fixpoint replaceFirst {A} (p : A -> bool) (x : A) (l : list A) : list A :=
  match l with
  | [] => []
  | y :: rest => if p y then x :: rest else y :: replaceFirst p x rest
  end.

(** ** Data model (models/*.js) *)

(** models/userModel.js: [userSchema]. [password] holds the bcrypt digest. *)
Record User := mkUser {
  u_id : Id;
  firstname : string;
  lastname : string;
  username : string;
  password : string;
  role : string
}.

Definition roleEnum : list string := ["admin"; "owner"; "user"].

(** models/venueModel.js: [venueSchema]. *)
Record Venue := mkVenue {
  v_id : Id;
  name : string;
  district_id : Id;
  address : string;
  capacity : Z;
  price_seat : Z;
  phone_number : string;
  v_status : string;
  owner_id : Id
}.

Definition venueStatusEnum : list string := ["tasdiqlangan"; "tasdiqlanmagan"].

(** models/bookingModel.js: [bookingSchema]. [reservation_date] is a [Date],
    kept as its time value (milliseconds since the epoch). *)
Record Booking := mkBooking {
  b_id : Id;
  venue_id : Id;
  reservation_date : Z;
  guest_count : Z;
  client_phone : string;
  user_id : Id;
  b_status : string
}.

Definition bookingStatusEnum : list string := ["bo'lib o'tgan"; "endi bo'ladigan"].

(** models/imageModel.js: [imageSchema]. *)
Record Image := mkImage {
  i_id : Id;
  i_venue_id : Id;
  image_url : string
}.

(** The database: one list per collection and the id counter. *)
Record DB := mkDB {
  users : list User;
  venues : list Venue;
  bookings : list Booking;
  images : list Image;
  next_id : Id
}.

Definition set_users (db : DB) (l : list User) : DB :=
  mkDB l (venues db) (bookings db) (images db) (next_id db).
Definition set_venues (db : DB) (l : list Venue) : DB :=
  mkDB (users db) l (bookings db) (images db) (next_id db).
Definition set_bookings (db : DB) (l : list Booking) : DB :=
  mkDB (users db) (venues db) l (images db) (next_id db).
Definition bump_id (db : DB) : DB :=
  mkDB (users db) (venues db) (bookings db) (images db) (S (next_id db)).

(** ** Request bodies *)

Record UserBody := mkUserBody {
  ub_firstname : option string;
  ub_lastname : option string;
  ub_username : option string;
  ub_password : option string;
  ub_role : option string
}.

Record VenueBody := mkVenueBody {
  vb_name : option string;
  vb_district_id : option Id;
  vb_address : option string;
  vb_capacity : option Z;
  vb_price_seat : option Z;
  vb_phone_number : option string;
  vb_status : option string;
  vb_owner_id : option Id
}.

Record BookingBody := mkBookingBody {
  bb_venue_id : option Id;
  bb_reservation_date : option string;
  bb_guest_count : option Z;
  bb_client_phone : option string;
  bb_user_id : option Id;
  bb_status : option string
}.

(** ** Responses and errors *)

(** What reaches [next(error)]: an [AppError(message, statusCode)] built by a
    controller, or an exception raised by Mongoose or by the JavaScript
    runtime inside the [try] block. *)
Inductive Error :=
| AppError (message : string) (statusCode : Z)
| ValidationError (path : string)
| CastError (path : string)
| DuplicateKeyError
| TypeError.

(** One entry of [errors.array()]. *)
Record FieldError := mkFieldError { field : string; msg : string }.

Inductive Payload :=
| Errors (errors : list FieldError)
| UserData (u : User)
| AuthData (_id : Id) (firstname lastname username role token : string)
| ProfileData (_id : Id) (firstname lastname username role : string)
| VenueData (v : option Venue)
| BookingData (b : option Booking).

Inductive Response :=
| Json (status : Z) (data : Payload)
| Next (e : Error).

(** The HTTP status a response carries when it is an [AppError] or a
    [res.status(..).json(..)]; other exceptions are left to the error
    middleware. *)
Definition statusOf (r : Response) : option Z :=
  match r with
  | Json s _ => Some s
  | Next (AppError _ s) => Some s
  | Next _ => None
  end.

Definition messageOf (r : Response) : option string :=
  match r with
  | Next (AppError m _) => Some m
  | _ => None
  end.

(** ** The controller monad: store passing with early response *)

Inductive Step (A : Type) :=
| Continue (a : A)
| Respond (r : Response).
Arguments Continue {A} a.
Arguments Respond {A} r.

Definition Handler (A : Type) := DB -> Step A * DB.

Definition ret {A} (a : A) : Handler A := fun db => (Continue a, db).

Definition bind {A B} (m : Handler A) (k : A -> Handler B) : Handler B :=
  fun db =>
    match m db with
    | (Continue a, db') => k a db'
    | (Respond r, db') => (Respond r, db')
    end.

Notation "x <- m ;; k" := (bind m (fun x => k))
  (at level 61, m at next level, right associativity).
Notation "m ;;; k" := (bind m (fun _ => k))
  (at level 61, right associativity).

(** [return next(e)] / [throw e] inside the [try] block. *)
Definition next {A} (e : Error) : Handler A := fun db => (Respond (Next e), db).

(** [return res.status(s).json(p)]. *)
Definition json {A} (s : Z) (p : Payload) : Handler A :=
  fun db => (Respond (Json s p), db).

(** [if (c) return ...;] *)
Definition when (c : bool) (h : Handler unit) : Handler unit :=
  if c then h else ret tt.

Definition getDB : Handler DB := fun db => (Continue db, db).
Definition putDB (db : DB) : Handler unit := fun _ => (Continue tt, db).

(** Running a controller on a store: the response and the store it leaves. *)
Definition run (h : Handler Response) (db : DB) : Response * DB :=
  match h db with
  | (Continue r, db') => (r, db')
  | (Respond r, db') => (r, db')
  end.

(** ** Requests *)

(** An Express request as the middleware and the controllers see it:
    the [Authorization] header, [req.user] (set by [protect]),
    [req.params.id], [req.body], the names of the uploaded files
    ([req.files]) and the errors collected so far by the express-validator
    chains of the route ([validationResult(req)]). *)
Record Request (B : Type) := mkRequest {
  req_authorization : option string;
  req_user : option User;
  req_params_id : Id;
  req_body : B;
  req_files : list string;
  req_errors : list FieldError
}.
Arguments mkRequest {B}.
Arguments req_authorization {B}.
Arguments req_user {B}.
Arguments req_params_id {B}.
Arguments req_body {B}.
Arguments req_files {B}.
Arguments req_errors {B}.

Definition set_user {B} (req : Request B) (u : User) : Request B :=
  mkRequest (req_authorization req) (Some u) (req_params_id req)
            (req_body req) (req_files req) (req_errors req).

Definition add_errors {B} (req : Request B) (l : list FieldError) : Request B :=
  mkRequest (req_authorization req) (req_user req) (req_params_id req)
            (req_body req) (req_files req) (req_errors req ++ l).

Definition set_body {B C} (req : Request B) (b : C) : Request C :=
  mkRequest (req_authorization req) (req_user req) (req_params_id req)
            b (req_files req) (req_errors req).

(** [req.user], a [TypeError] when a property of [undefined] is read. *)
Definition theUser {B} (req : Request B) : Handler User :=
  match req_user req with
  | Some u => ret u
  | None => next TypeError
  end.

(** The check every controller starts with:
    [if (!errors.isEmpty()) return res.status(400).json({ errors })]. *)
Definition validationResult {B} (req : Request B) : Handler unit :=
  match req_errors req with
  | [] => ret tt
  | errs => json 400 (Errors errs)
  end.

(** ** Domain validators (middleware/validationMiddleware.js) *)

Definition notEmpty (o : option string) : bool := truthy o.

Definition present {A} (o : option A) : bool :=
  match o with Some _ => true | None => false end.

Definition isInt_min (m : Z) (o : option Z) : bool :=
  match o with Some z => m <=? z | None => false end.

Definition isLength_min (m : nat) (o : option string) : bool :=
  match o with
  | Some s => (m <=? String.length s)%nat
  | None => (m <=? 0)%nat
  end.

(** [.optional().isIn(values)]: skipped when the field is [undefined]. *)
Definition optional_isIn (values : list string) (o : option string) : bool :=
  match o with Some s => isIn values s | None => true end.

Definition check (ok : bool) (f m : string) : list FieldError :=
  if ok then [] else [mkFieldError f m].

Definition validateUser (b : UserBody) : list FieldError :=
  check (notEmpty (ub_firstname b)) "firstname" "First name is required" ++
  check (notEmpty (ub_lastname b)) "lastname" "Last name is required" ++
  check (notEmpty (ub_username b)) "username" "Username is required" ++
  check (isLength_min 6 (ub_password b)) "password"
        "Password must be at least 6 characters" ++
  check (optional_isIn roleEnum (ub_role b)) "role"
        "Role must be admin, owner, or user".


Definition validateProfileUpdate (b : UserBody) : list FieldError :=
  check (match ub_password b with
         | Some _ => isLength_min 6 (ub_password b)
         | None => true
         end) "password" "Password must be at least 6 characters".

Definition validateVenue (b : VenueBody) : list FieldError :=
  check (notEmpty (vb_name b)) "name" "Name is required" ++
  check (present (vb_district_id b)) "district_id" "District is required" ++
  check (notEmpty (vb_address b)) "address" "Address is required" ++
  check (isInt_min 1 (vb_capacity b)) "capacity"
        "Capacity must be a positive number" ++
  check (present (vb_capacity b)) "capacity"
        "Capacity must be a positive number" ++
  check (isInt_min 0 (vb_price_seat b)) "price_seat"
        "Price per seat must be a positive number" ++
  check (present (vb_price_seat b)) "price_seat"
        "Price per seat must be a positive number" ++
  check (notEmpty (vb_phone_number b)) "phone_number" "Phone number is required" ++
  check (optional_isIn venueStatusEnum (vb_status b)) "status"
        "Status must be tasdiqlangan or tasdiqlanmagan".

Definition validateBookingStatus (b : BookingBody) : list FieldError :=
  check (notEmpty (bb_status b)) "status" "Status is required" ++
  check (match bb_status b with
         | Some s => isIn bookingStatusEnum s
         | None => false
         end) "status" "Status must be bo'lib o'tgan or endi bo'ladigan".

(** ** Sample collaborators and sample data for the examples *)

(** Small stand-ins for the external libraries, enough to run the
    controllers on concrete requests: a two-entry calendar for [Date],
    a digest that is the four-character salt followed by the plain text,
    and tokens that spell out the user id. *)
Definition sample_isISO8601 (s : string) : bool :=
  isIn ["2025-06-01"; "2025-06-02"] s.

Definition sample_Date_parse (s : string) : option Z :=
  if (s =? "2025-06-01")%string then Some 1748736000000
  else if (s =? "2025-06-02")%string then Some 1748822400000
  else None.

Definition sample_toISOString (d : Z) : string :=
  if d =? 1748736000000 then "2025-06-01T00:00:00.000Z"
  else if d =? 1748822400000 then "2025-06-02T00:00:00.000Z"
  else "".

Definition sample_hash (plain salt : string) : string := salt ++ plain.

Definition sample_compare (entered digest : string) : bool :=
  (substring 4 (String.length digest - 4) digest =? entered)%string.

Definition sample_sign (id : Id) : string :=
  "token-" ++ NilEmpty.string_of_uint (Nat.to_uint id).

Definition sample_verify (t : string) : option Id :=
  if (t =? "token-1")%string then Some 1%nat
  else if (t =? "token-2")%string then Some 2%nat
  else if (t =? "token-3")%string then Some 3%nat
  else if (t =? "token-4")%string then Some 4%nat
  else None.

(** An admin, two venue owners and a customer. *)
Definition aziz : User := mkUser 1 "Aziz" "Karimov" "aziz" "s4ltadmin-pass" "admin".
Definition olim : User := mkUser 2 "Olim" "Valiev" "olim" "s4ltowner-pass" "owner".
Definition bobur : User := mkUser 3 "Bobur" "Saidov" "bobur" "s4ltbobur-pass" "owner".
Definition umida : User := mkUser 4 "Umida" "Rashidova" "umida" "s4ltumida-pass" "user".

(** Two venues of [olim]: one approved, one still pending. *)
Definition hall : Venue :=
  mkVenue 10 "Navruz" 7 "Chilanzar 5" 100 50000 "+998901112233" "tasdiqlangan" 2.
Definition garden : Venue :=
  mkVenue 11 "Bahor" 7 "Chilanzar 9" 100 40000 "+998901112244" "tasdiqlanmagan" 2.

(** [umida]'s booking of the approved venue for 2025-06-01. *)
Definition wedding : Booking :=
  mkBooking 20 10 1748736000000 50 "+998935556677" 4 "endi bo'ladigan".

Definition sample_db : DB :=
  mkDB [aziz; olim; bobur; umida] [hall; garden] [wedding] [] 21.

Definition bearer (t : string) : option string := Some ("Bearer " ++ t).

(** A request as it arrives: bearer token, path id and body; [req.user],
    [req.files] and the validation errors are still empty. *)
Definition arriving {B} (token : string) (id : Id) (body : B) : Request B :=
  mkRequest (bearer token) None id body [] [].

(** The same request as a controller sees it behind [protect]. *)
Definition asUser {B} (u : User) (id : Id) (body : B) : Request B :=
  mkRequest None (Some u) id body [] [].

Definition noVenueBody : VenueBody :=
  mkVenueBody None None None None None None None None.

Definition bookingFor (v : Id) (date : string) (guests : Z) : BookingBody :=
  mkBookingBody (Some v) (Some date) (Some guests) (Some "+998931234567")
                None None.

(** [Number] on the query strings of the sample requests. *)
Definition sample_Number (s : string) : option Z :=
  if (s =? "50")%string then Some 50
  else if (s =? "60000")%string then Some 60000
  else None.

Definition noBookingBody : BookingBody :=
  mkBookingBody None None None None None None.

Definition statusBody (s : string) : BookingBody :=
  mkBookingBody None None None None None (Some s).

Definition noUserBody : UserBody := mkUserBody None None None None None.

Section Backend.

(** *** External collaborators *)

(** validator.js [isISO8601]. *)
Variable isISO8601 : string -> bool.
(** [new Date(s)]; [None] is the Invalid Date. *)
Variable Date_parse : string -> option Z.
(** [Date.prototype.toISOString]. *)
Variable toISOString : Z -> string.
(** [bcrypt.hash(password, salt)] and [bcrypt.compare(entered, digest)]. *)
Variable bcrypt_hash : string -> string -> string.
Variable bcrypt_compare : string -> string -> bool.
(** [jwt.sign({ id }, secret, ...)] and [jwt.verify(token, secret)]
    ([None] when it throws). *)
Variable jwt_sign : Id -> string.
Variable jwt_verify : string -> option Id.

Definition validateBooking (b : BookingBody) : list FieldError :=
  check (present (bb_venue_id b)) "venue_id" "Venue ID is required" ++
  check (notEmpty (bb_reservation_date b)) "reservation_date"
        "Reservation date is required" ++
  check (match bb_reservation_date b with
         | Some s => isISO8601 s
         | None => false
         end) "reservation_date" "Reservation date must be a valid date" ++
  check (isInt_min 1 (bb_guest_count b)) "guest_count"
        "Guest count must be a positive number" ++
  check (present (bb_guest_count b)) "guest_count"
        "Guest count must be a positive number" ++
  check (notEmpty (bb_client_phone b)) "client_phone"
        "Client phone number is required".

(** A validation chain as route middleware. *)
Definition validate {B} (rules : B -> list FieldError) (req : Request B)
  : Handler (Request B) :=
  ret (add_errors req (rules (req_body req))).

(** *** Mongoose models: queries, schema validation, unique indexes *)

(** A [required] string path: absent or empty raises a [ValidationError]. *)
Definition requiredString (path : string) (o : option string) : Handler string :=
  match o with
  | Some s => if (s =? "")%string then next (ValidationError path) else ret s
  | None => next (ValidationError path)
  end.

Definition required {A} (path : string) (o : option A) : Handler A :=
  match o with
  | Some a => ret a
  | None => next (ValidationError path)
  end.

(** [min: [m, ...]] on a number path. *)
Definition minNumber (path : string) (m z : Z) : Handler unit :=
  when (z <? m) (next (ValidationError path)).

(** [enum: [...]] on a string path. *)
Definition enumString (path : string) (values : list string) (s : string)
  : Handler unit :=
  when (negb (isIn values s)) (next (ValidationError path)).

(** A patch leaves a path alone when the body does not mention it. *)
Definition patched {A} (o : option A) (old : A) : A :=
  match o with Some a => a | None => old end.

(** [Model.findById]. *)
Definition User_findById (id : Id) : Handler (option User) :=
  db <- getDB ;; ret (find (fun u => u_id u =? id)%nat (users db)).

Definition Venue_findById (id : Id) : Handler (option Venue) :=
  db <- getDB ;; ret (find (fun v => v_id v =? id)%nat (venues db)).

Definition Booking_findById (id : Id) : Handler (option Booking) :=
  db <- getDB ;; ret (find (fun b => b_id b =? id)%nat (bookings db)).

(** [User.findOne({ username })]; the [trim] setter of the path is applied
    to the query value as it is to stored values. *)
Definition User_findOne (uname : string) : Handler (option User) :=
  db <- getDB ;;
  ret (find (fun u => username u =? trim uname)%string (users db)).

(** [Booking.findOne({ venue_id, reservation_date, _id: { $ne } })];
    [ne] is the excluded [_id], if any. *)
Definition sameSlot (v : Id) (d : Z) (b : Booking) : bool :=
  (venue_id b =? v)%nat && (reservation_date b =? d).

Definition Booking_findOne (v : Id) (d : Z) (ne : option Id)
  : Handler (option Booking) :=
  db <- getDB ;;
  ret (find (fun b => sameSlot v d b &&
                      match ne with
                      | Some i => negb (b_id b =? i)%nat
                      | None => true
                      end) (bookings db)).

(** Casting a string to the [Date] path: the empty string casts to [null]
    (and then fails [required]), an unparsable one is a [CastError]. *)
Definition castDate (path : string) (s : string) : Handler Z :=
  if (s =? "")%string then next (ValidationError path)
  else match Date_parse s with
       | Some d => ret d
       | None => next (CastError path)
       end.

(** [User.create(...)]: setters, validators, the [pre('save')] hook that
    replaces the password by its bcrypt digest, the unique index on
    [username], then the insertion. [salt] is what [bcrypt.genSalt(10)]
    returns. *)
Definition User_create (salt : string)
  (fn ln un pw rl : option string) : Handler User :=
  fn' <- requiredString "firstname" (option_map trim fn) ;;
  ln' <- requiredString "lastname" (option_map trim ln) ;;
  un' <- requiredString "username" (option_map trim un) ;;
  pw' <- requiredString "password" pw ;;
  when (String.length pw' <? 6)%nat (next (ValidationError "password")) ;;;
  let rl' := patched rl "user" in
  enumString "role" roleEnum rl' ;;;
  let digest := bcrypt_hash pw' salt in
  db <- getDB ;;
  when (existsb (fun u => username u =? un')%string (users db))
       (next DuplicateKeyError) ;;;
  let u := mkUser (next_id db) fn' ln' un' digest rl' in
  putDB (bump_id (set_users db (users db ++ [u]))) ;;;
  ret u.

(** [user.save()] on a document loaded by [findById]: validators, the
    [pre('save')] hook (which hashes only when [isModified('password')]),
    the unique index, then the write. [newPassword] is the plain text
    assigned to [user.password] since loading, if any; the stored digest is
    kept otherwise. *)
Definition User_save (salt : string) (doc : User) (newPassword : option string)
  : Handler User :=
  when (firstname doc =? "")%string (next (ValidationError "firstname")) ;;;
  when (lastname doc =? "")%string (next (ValidationError "lastname")) ;;;
  when (username doc =? "")%string (next (ValidationError "username")) ;;;
  when (match newPassword with
        | Some p => (String.length p <? 6)%nat
        | None => false
        end) (next (ValidationError "password")) ;;;
  enumString "role" roleEnum (role doc) ;;;
  let digest := match newPassword with
                | Some p => bcrypt_hash p salt
                | None => password doc
                end in
  db <- getDB ;;
  when (existsb (fun u => (username u =? username doc)%string &&
                          negb (u_id u =? u_id doc)%nat) (users db))
       (next DuplicateKeyError) ;;;
  let doc' := mkUser (u_id doc) (firstname doc) (lastname doc) (username doc)
                     digest (role doc) in
  putDB (set_users db (replaceFirst (fun u => u_id u =? u_id doc)%nat doc'
                                    (users db))) ;;;
  ret doc'.

(** [Venue.create(body)]. *)
Definition Venue_create (b : VenueBody) : Handler Venue :=
  nm <- requiredString "name" (option_map trim (vb_name b)) ;;
  di <- required "district_id" (vb_district_id b) ;;
  ad <- requiredString "address" (vb_address b) ;;
  ca <- required "capacity" (vb_capacity b) ;;
  minNumber "capacity" 1 ca ;;;
  pr <- required "price_seat" (vb_price_seat b) ;;
  minNumber "price_seat" 0 pr ;;;
  ph <- requiredString "phone_number" (vb_phone_number b) ;;
  let st := patched (vb_status b) "tasdiqlanmagan" in
  enumString "status" venueStatusEnum st ;;;
  ow <- required "owner_id" (vb_owner_id b) ;;
  db <- getDB ;;
  let v := mkVenue (next_id db) nm di ad ca pr ph st ow in
  putDB (bump_id (set_venues db (venues db ++ [v]))) ;;;
  ret v.

(** [Venue.findByIdAndUpdate(id, patch, { new: true, runValidators: true })]:
    the paths present in the patch are validated and set; the result is the
    updated document, or [null] when no venue has this id. *)
Definition Venue_findByIdAndUpdate (id : Id) (p : VenueBody)
  : Handler (option Venue) :=
  when (match option_map trim (vb_name p) with
        | Some s => (s =? "")%string | None => false end)
       (next (ValidationError "name")) ;;;
  when (match vb_address p with
        | Some s => (s =? "")%string | None => false end)
       (next (ValidationError "address")) ;;;
  when (match vb_capacity p with Some z => z <? 1 | None => false end)
       (next (ValidationError "capacity")) ;;;
  when (match vb_price_seat p with Some z => z <? 0 | None => false end)
       (next (ValidationError "price_seat")) ;;;
  when (match vb_phone_number p with
        | Some s => (s =? "")%string | None => false end)
       (next (ValidationError "phone_number")) ;;;
  when (match vb_status p with
        | Some s => negb (isIn venueStatusEnum s) | None => false end)
       (next (ValidationError "status")) ;;;
  db <- getDB ;;
  match find (fun v => v_id v =? id)%nat (venues db) with
  | None => ret None
  | Some v =>
      let v' := mkVenue (v_id v)
                        (patched (option_map trim (vb_name p)) (name v))
                        (patched (vb_district_id p) (district_id v))
                        (patched (vb_address p) (address v))
                        (patched (vb_capacity p) (capacity v))
                        (patched (vb_price_seat p) (price_seat v))
                        (patched (vb_phone_number p) (phone_number v))
                        (patched (vb_status p) (v_status v))
                        (patched (vb_owner_id p) (owner_id v)) in
      putDB (set_venues db (replaceFirst (fun x => v_id x =? id)%nat v'
                                         (venues db))) ;;;
      ret (Some v')
  end.

(** The unique index [{ venue_id: 1, reservation_date: 1 }] of
    [bookingSchema]: a write that would give two documents the same pair
    is refused by the store with a duplicate-key error. *)
Definition slotTaken (v : Id) (d : Z) (self : option Id) (l : list Booking)
  : bool :=
  existsb (fun b => sameSlot v d b &&
                    match self with
                    | Some i => negb (b_id b =? i)%nat
                    | None => true
                    end) l.

(** [Booking.create(...)]. *)
Definition Booking_create (vid : option Id) (rd : option string)
  (gc : option Z) (cp : option string) (uid : option Id) (st : option string)
  : Handler Booking :=
  v <- required "venue_id" vid ;;
  s <- requiredString "reservation_date" rd ;;
  d <- castDate "reservation_date" s ;;
  g <- required "guest_count" gc ;;
  minNumber "guest_count" 1 g ;;;
  c <- requiredString "client_phone" cp ;;
  u <- required "user_id" uid ;;
  let st' := patched st "endi bo'ladigan" in
  enumString "status" bookingStatusEnum st' ;;;
  db <- getDB ;;
  when (slotTaken v d None (bookings db)) (next DuplicateKeyError) ;;;
  let b := mkBooking (next_id db) v d g c u st' in
  putDB (bump_id (set_bookings db (bookings db ++ [b]))) ;;;
  ret b.

(** [Booking.findByIdAndUpdate(id, patch, { new: true, runValidators: true })]. *)
Definition Booking_findByIdAndUpdate (id : Id) (p : BookingBody)
  : Handler (option Booking) :=
  d <- match bb_reservation_date p with
       | Some s => x <- castDate "reservation_date" s ;; ret (Some x)
       | None => ret None
       end ;;
  when (match bb_guest_count p with Some z => z <? 1 | None => false end)
       (next (ValidationError "guest_count")) ;;;
  when (match bb_client_phone p with
        | Some s => (s =? "")%string | None => false end)
       (next (ValidationError "client_phone")) ;;;
  when (match bb_status p with
        | Some s => negb (isIn bookingStatusEnum s) | None => false end)
       (next (ValidationError "status")) ;;;
  db <- getDB ;;
  match find (fun b => b_id b =? id)%nat (bookings db) with
  | None => ret None
  | Some b =>
      let b' := mkBooking (b_id b)
                          (patched (bb_venue_id p) (venue_id b))
                          (patched d (reservation_date b))
                          (patched (bb_guest_count p) (guest_count b))
                          (patched (bb_client_phone p) (client_phone b))
                          (patched (bb_user_id p) (user_id b))
                          (patched (bb_status p) (b_status b)) in
      when (slotTaken (venue_id b') (reservation_date b') (Some id) (bookings db))
           (next DuplicateKeyError) ;;;
      putDB (set_bookings db (replaceFirst (fun x => b_id x =? id)%nat b'
                                           (bookings db))) ;;;
      ret (Some b')
  end.

(** [Image.insertMany(docs)]: every document is validated before anything is
    written; [image_url] is a required path. *)
Definition Image_insertMany (docs : list (Id * option string)) : Handler unit :=
  if forallb (fun d => truthy (snd d)) docs then
    db <- getDB ;;
    let fresh := combine (seq (next_id db) (List.length docs)) docs in
    let imgs := map (fun x => mkImage (fst x) (fst (snd x))
                                      (patched (snd (snd x)) "")) fresh in
    putDB (mkDB (users db) (venues db) (bookings db) (images db ++ imgs)
                (next_id db + List.length docs)%nat)
  else next (ValidationError "image_url").

(** *** Authentication and role middleware (middleware/authMiddleware.js) *)

(** [header.split(' ')[1]]: the text between the first and the second
    space, [undefined] when the header has no space. *)
Fixpoint afterSpace (s : string) : option string :=
  match s with
  | EmptyString => None
  | String c rest => if (c =? " ")%char then Some rest else afterSpace rest
  end.

Fixpoint untilSpace (s : string) : string :=
  match s with
  | EmptyString => EmptyString
  | String c rest => if (c =? " ")%char then EmptyString
                     else String c (untilSpace rest)
  end.

Definition bearerToken (authorization : option string) : option string :=
  match authorization with
  | Some h => if truthy (Some h) && String.prefix "Bearer" h
              then option_map untilSpace (afterSpace h)
              else None
  | None => None
  end.

Definition notAuthenticated {A} : Handler A :=
  next (AppError "Not authorized to access this route" 401).

(** [protect]: resolves the bearer token to a stored user and sets
    [req.user]. *)
Definition protect {B} (req : Request B) : Handler (Request B) :=
  let token := bearerToken (req_authorization req) in
  if negb (truthy token) then notAuthenticated
  else match token with
       | None => notAuthenticated
       | Some t =>
           match jwt_verify t with
           | None => notAuthenticated
           | Some id =>
               u <- User_findById id ;;
               match u with
               | None => notAuthenticated
               | Some u' => ret (set_user req u')
               end
           end
       end.

(** [authorize(...roles)]. *)
Definition authorize {B} (roles : list string) (req : Request B)
  : Handler (Request B) :=
  u <- theUser req ;;
  if negb (isIn roles (role u))
  then next (AppError ("Role " ++ role u ++
                       " is not authorized to access this route") 403)
  else ret req.

(** *** controllers/authController.js *)

Definition generateToken (id : Id) : string := jwt_sign id.

Definition authData (u : User) : Payload :=
  AuthData (u_id u) (firstname u) (lastname u) (username u) (role u)
           (generateToken (u_id u)).

Definition register (salt : string) (req : Request UserBody) : Handler Response :=
  validationResult req ;;;
  let b := req_body req in
  userExists <- match ub_username b with
                | Some s => User_findOne s
                | None => ret None
                end ;;
  when (present userExists) (next (AppError "User already exists" 400)) ;;;
  u <- User_create salt (ub_firstname b) (ub_lastname b) (ub_username b)
                   (ub_password b) (Some (orDefault (ub_role b) "user")) ;;
  ret (Json 201 (authData u)).


(** The assignments both profile and admin updates make to the loaded
    document; the [trim] setter runs on assignment. *)
Definition assign (o : option string) (old : string) : string :=
  if truthy o then trim (patched o old) else old.

Definition usernameFree (doc : User) (o : option string) : Handler unit :=
  match o with
  | Some s =>
      if truthy o then
        existing <- User_findOne s ;;
        match existing with
        | Some e => when (negb (u_id e =? u_id doc)%nat)
                         (next (AppError "Username is already taken" 400))
        | None => ret tt
        end
      else ret tt
  | None => ret tt
  end.

Definition updateProfile (salt : string) (req : Request UserBody)
  : Handler Response :=
  validationResult req ;;;
  p <- theUser req ;;
  found <- User_findById (u_id p) ;;
  match found with
  | None => next (AppError "User not found" 404)
  | Some doc =>
      let b := req_body req in
      usernameFree doc (ub_username b) ;;;
      let doc' := mkUser (u_id doc)
                         (assign (ub_firstname b) (firstname doc))
                         (assign (ub_lastname b) (lastname doc))
                         (assign (ub_username b) (username doc))
                         (password doc) (role doc) in
      updated <- User_save salt doc'
                   (if truthy (ub_password b) then ub_password b else None) ;;
      ret (Json 200 (ProfileData (u_id updated) (firstname updated)
                                 (lastname updated) (username updated)
                                 (role updated)))
  end.

(** *** controllers/userController.js *)

(** [updateUser] reads [firstname], [lastname], [username] and [role] from
    the body; it never assigns [user.password]. *)
Definition updateUser (salt : string) (req : Request UserBody)
  : Handler Response :=
  validationResult req ;;;
  found <- User_findById (req_params_id req) ;;
  match found with
  | None => next (AppError "User not found" 404)
  | Some doc =>
      let b := req_body req in
      usernameFree doc (ub_username b) ;;;
      let doc' := mkUser (u_id doc)
                         (assign (ub_firstname b) (firstname doc))
                         (assign (ub_lastname b) (lastname doc))
                         (assign (ub_username b) (username doc))
                         (password doc)
                         (if truthy (ub_role b)
                          then patched (ub_role b) (role doc) else role doc) in
      updated <- User_save salt doc' None ;;
      ret (Json 200 (UserData updated))
  end.

(** *** controllers/venueController.js *)

Definition with_owner (b : VenueBody) (o : Id) : VenueBody :=
  mkVenueBody (vb_name b) (vb_district_id b) (vb_address b) (vb_capacity b)
              (vb_price_seat b) (vb_phone_number b) (vb_status b) (Some o).

(** [delete req.body.status]. *)
Definition delete_status (b : VenueBody) : VenueBody :=
  mkVenueBody (vb_name b) (vb_district_id b) (vb_address b) (vb_capacity b)
              (vb_price_seat b) (vb_phone_number b) None (vb_owner_id b).

(** The patch [{ status: "tasdiqlangan" }]. *)
Definition statusPatch (s : string) : VenueBody :=
  mkVenueBody None None None None None None (Some s) None.

Definition createVenue (req : Request VenueBody) : Handler Response :=
  validationResult req ;;;
  u <- theUser req ;;
  v <- Venue_create (with_owner (req_body req) (u_id u)) ;;
  when (negb (List.length (req_files req) =? 0)%nat)
       (Image_insertMany (map (fun _ : string => (v_id v, @None string))
                              (req_files req))) ;;;
  ret (Json 201 (VenueData (Some v))).

Definition updateVenue (req : Request VenueBody) : Handler Response :=
  validationResult req ;;;
  found <- Venue_findById (req_params_id req) ;;
  match found with
  | None => next (AppError "Venue not found" 404)
  | Some v =>
      u <- theUser req ;;
      when (negb (owner_id v =? u_id u)%nat && negb (role u =? "admin")%string)
           (next (AppError "Not authorized to update this venue" 403)) ;;;
      let b := req_body req in
      let b' := if truthy (vb_status b) && negb (role u =? "admin")%string
                then delete_status b else b in
      v' <- Venue_findByIdAndUpdate (req_params_id req) b' ;;
      ret (Json 200 (VenueData v'))
  end.

Definition approveVenue (req : Request VenueBody) : Handler Response :=
  found <- Venue_findById (req_params_id req) ;;
  match found with
  | None => next (AppError "Venue not found" 404)
  | Some _ =>
      v' <- Venue_findByIdAndUpdate (req_params_id req)
                                    (statusPatch "tasdiqlangan") ;;
      ret (Json 200 (VenueData v'))
  end.

(** *** controllers/bookingController.js *)

Definition capacityMessage (cap : Z) : string :=
  "Guest count exceeds venue capacity of " ++ numToString cap.

Definition alreadyBooked {A} : Handler A :=
  next (AppError "Venue is already booked for this date" 400).

(** [new Date(s)] used as a query value: the Invalid Date does not cast. *)
Definition queryDate (o : option string) : Handler Z :=
  match o with
  | Some s => match Date_parse s with
              | Some d => ret d
              | None => next (CastError "reservation_date")
              end
  | None => next (CastError "reservation_date")
  end.

(** [Venue.findById(undefined)] finds nothing, hence the first [None]
    branch. *)
Definition createBooking (req : Request BookingBody) : Handler Response :=
  validationResult req ;;;
  let b := req_body req in
  match bb_venue_id b with
  | None => next (AppError "Venue not found" 404)
  | Some vid =>
      found <- Venue_findById vid ;;
      match found with
      | None => next (AppError "Venue not found" 404)
      | Some venue =>
          when (negb (v_status venue =? "tasdiqlangan")%string)
               (next (AppError "Venue is not approved for bookings" 400)) ;;;
          when (gtNum (bb_guest_count b) (capacity venue))
               (next (AppError (capacityMessage (capacity venue)) 400)) ;;;
          d <- queryDate (bb_reservation_date b) ;;
          existingBooking <- Booking_findOne vid d None ;;
          when (present existingBooking) alreadyBooked ;;;
          u <- theUser req ;;
          booking <- Booking_create (Some vid) (bb_reservation_date b)
                                    (bb_guest_count b) (bb_client_phone b)
                                    (Some (u_id u)) (Some "endi bo'ladigan") ;;
          ret (Json 201 (BookingData (Some booking)))
      end
  end.

Definition updateBooking (req : Request BookingBody) : Handler Response :=
  validationResult req ;;;
  found <- Booking_findById (req_params_id req) ;;
  match found with
  | None => next (AppError "Booking not found" 404)
  | Some booking =>
      u <- theUser req ;;
      when (negb (user_id booking =? u_id u)%nat && negb (role u =? "admin")%string)
           (next (AppError "Not authorized to update this booking" 403)) ;;;
      let b := req_body req in
      when (truthy (bb_reservation_date b) &&
            negb (patched (bb_reservation_date b) "" =?
                  toISOString (reservation_date booking))%string)
           (d <- queryDate (bb_reservation_date b) ;;
            existingBooking <- Booking_findOne (venue_id booking) d
                                               (Some (b_id booking)) ;;
            when (present existingBooking) alreadyBooked) ;;;
      when (truthyNum (bb_guest_count b))
           (venue <- Venue_findById (venue_id booking) ;;
            match venue with
            | None => next TypeError
            | Some v =>
                when (gtNum (bb_guest_count b) (capacity v))
                     (next (AppError (capacityMessage (capacity v)) 400))
            end) ;;;
      booking' <- Booking_findByIdAndUpdate (req_params_id req) b ;;
      ret (Json 200 (BookingData booking'))
  end.

(** The patch [{ status }]. *)
Definition bookingStatusPatch (s : option string) : BookingBody :=
  mkBookingBody None None None None None s.

Definition changeBookingStatus (req : Request BookingBody) : Handler Response :=
  validationResult req ;;;
  let status := bb_status (req_body req) in
  found <- Booking_findById (req_params_id req) ;;
  match found with
  | None => next (AppError "Booking not found" 404)
  | Some booking =>
      venue <- Venue_findById (venue_id booking) ;;
      u <- theUser req ;;
      (if negb (role u =? "admin")%string then
         match venue with
         | None => next TypeError
         | Some v =>
             when (negb (owner_id v =? u_id u)%nat)
                  (next (AppError "Not authorized to change booking status" 403))
         end
       else ret tt) ;;;
      booking' <- Booking_findByIdAndUpdate (req_params_id req)
                                            (bookingStatusPatch status) ;;
      ret (Json 200 (BookingData booking'))
  end.

(** *** Routes (routes/*.js) *)

Fixpoint chain {B} (mws : list (Request B -> Handler (Request B)))
  (req : Request B) : Handler (Request B) :=
  match mws with
  | [] => ret req
  | m :: rest => r <- m req ;; chain rest r
  end.

Definition route {B} (mws : list (Request B -> Handler (Request B)))
  (controller : Request B -> Handler Response) (req : Request B) (db : DB)
  : Response * DB :=
  run (r <- chain mws req ;; controller r) db.



(** [router.put('/profile', protect, validateProfileUpdate,
    authController.updateProfile)] *)
Definition PUT_auth_profile (salt : string) :=
  route [protect; validate validateProfileUpdate] (updateProfile salt).

(** [router.put('/:id', protect, authorize('admin'),
    userController.updateUser)] *)
Definition PUT_users_id (salt : string) :=
  route [protect; authorize ["admin"]] (updateUser salt).

(** [router.post("/", protect, authorize("owner", "admin"), validateVenue,
    venueController.createVenue)] *)
Definition POST_venues :=
  route [protect; authorize ["owner"; "admin"]; validate validateVenue]
        createVenue.

(** [router.put("/:id", protect, validateVenue, venueController.updateVenue)] *)
Definition PUT_venues_id :=
  route [protect; validate validateVenue] updateVenue.

(** [router.put("/:id/approve", protect, authorize("admin"),
    venueController.approveVenue)] *)
Definition PUT_venues_id_approve :=
  route [protect; authorize ["admin"]] approveVenue.

(** [router.post('/', protect, validateBooking, bookingController.createBooking)] *)
Definition POST_bookings :=
  route [protect; validate validateBooking] createBooking.

(** [router.put('/:id', protect, bookingController.updateBooking)] *)
Definition PUT_bookings_id :=
  route [protect] updateBooking.

(** [router.put('/:id/status', protect, validateBookingStatus,
    bookingController.changeBookingStatus)] *)
Definition PUT_bookings_id_status :=
  route [protect; validate validateBookingStatus] changeBookingStatus.

(** *** The invariant of the booking collection *)

(** How many bookings hold venue [v] on date [d]. *)
Definition slotCount (v : Id) (d : Z) (l : list Booking) : nat :=
  List.length (filter (sameSlot v d) l).

(** At most one booking per (venue_id, reservation_date) pair. *)
Definition uniqueSlots (l : list Booking) : Prop :=
  forall v d, (slotCount v d l <= 1)%nat.

(** *** Vocabulary of the statements below *)

(** [protect] resolves the request's bearer token to the stored user [u]. *)
Definition authenticated {B} (req : Request B) (db : DB) (u : User) : Prop :=
  protect req db = (Continue (set_user req u), db).

(** The reservation date of an update body raises no conflict: it is absent
    or empty, or spells the stored date, or parses to a date on which no
    other booking holds the venue. *)
Definition noDateConflict (b : BookingBody) (booking : Booking) (db : DB)
  : Prop :=
  match bb_reservation_date b with
  | None => True
  | Some s =>
      s = "" \/ s = toISOString (reservation_date booking) \/
      exists d, Date_parse s = Some d /\
                find (fun x => sameSlot (venue_id booking) d x &&
                               negb (b_id x =? b_id booking)%nat)
                     (bookings db) = None
  end.

(** The same body without its [password] field. *)
Definition without_password (b : UserBody) : UserBody :=
  mkUserBody (ub_firstname b) (ub_lastname b) (ub_username b) None (ub_role b).

(** The venue with its status set to "tasdiqlangan". *)
Definition approved (v : Venue) : Venue :=
  mkVenue (v_id v) (name v) (district_id v) (address v) (capacity v)
          (price_seat v) (phone_number v) "tasdiqlangan" (owner_id v).

(** ** The rest of the controllers *)

(** A controller that ends with [res.json({ success: true, ..., data })]
    and whose data is a list, a joined view or a message is a computation of
    that data: [Continue d] is the 200 answer carrying [d]; the early exits
    are responses as before. *)

(** [doc.deleteOne()]: the document a query by [_id] finds leaves the
    collection. *)
Fixpoint removeFirst {A} (p : A -> bool) (l : list A) : list A :=
  match l with
  | [] => []
  | y :: rest => if p y then rest else y :: removeFirst p rest
  end.

(** [.sort({ reservation_date: -1 })]: latest first. *)
Fixpoint insertByDate (b : Booking) (l : list Booking) : list Booking :=
  match l with
  | [] => [b]
  | x :: rest =>
      if reservation_date x <=? reservation_date b then b :: l
      else x :: insertByDate b rest
  end.

Fixpoint sortByDateDesc (l : list Booking) : list Booking :=
  match l with
  | [] => []
  | b :: rest => insertByDate b (sortByDateDesc rest)
  end.

(** *** controllers/bookingController.js, continued *)

(** [Booking.find({})]; the joins are left out. *)
Definition getBookings (req : Request BookingBody) : Handler (list Booking) :=
  db <- getDB ;; ret (bookings db).

(** [populate('user_id', ...)] leaves [null] when the user is gone, and
    [booking.user_id._id] then raises a [TypeError]; the venue is looked up
    only for a principal who is neither the creator nor an admin. *)
Definition getBookingById (req : Request BookingBody) : Handler Booking :=
  found <- Booking_findById (req_params_id req) ;;
  match found with
  | None => next (AppError "Booking not found" 404)
  | Some booking =>
      creator <- User_findById (user_id booking) ;;
      match creator with
      | None => next TypeError
      | Some c =>
          u <- theUser req ;;
          (if negb (u_id c =? u_id u)%nat && negb (role u =? "admin")%string
           then
             venue <- Venue_findById (venue_id booking) ;;
             match venue with
             | None => next (AppError "Not authorized to view this booking" 403)
             | Some v =>
                 when (negb (owner_id v =? u_id u)%nat)
                      (next (AppError "Not authorized to view this booking" 403))
             end
           else ret tt) ;;;
          ret booking
      end
  end.

Definition deleteBooking (req : Request BookingBody) : Handler string :=
  found <- Booking_findById (req_params_id req) ;;
  match found with
  | None => next (AppError "Booking not found" 404)
  | Some booking =>
      u <- theUser req ;;
      when (negb (user_id booking =? u_id u)%nat && negb (role u =? "admin")%string)
           (next (AppError "Not authorized to delete this booking" 403)) ;;;
      db <- getDB ;;
      putDB (set_bookings db (removeFirst (fun x => b_id x =? b_id booking)%nat
                                          (bookings db))) ;;;
      ret "Booking removed"
  end.

Definition getUserBookings (req : Request BookingBody) : Handler (list Booking) :=
  u <- theUser req ;;
  db <- getDB ;;
  ret (sortByDateDesc (filter (fun b => user_id b =? u_id u)%nat (bookings db))).

Definition getVenueBookings (req : Request BookingBody) : Handler (list Booking) :=
  let venueId := req_params_id req in
  found <- Venue_findById venueId ;;
  match found with
  | None => next (AppError "Venue not found" 404)
  | Some venue =>
      u <- theUser req ;;
      when (negb (owner_id venue =? u_id u)%nat && negb (role u =? "admin")%string)
           (next (AppError "Not authorized to view bookings for this venue" 403)) ;;;
      db <- getDB ;;
      ret (sortByDateDesc (filter (fun b => venue_id b =? venueId)%nat
                                  (bookings db)))
  end.

(** *** controllers/venueController.js, continued *)

(** [req.query] of GET /api/venues. The numeric bounds arrive as strings. *)
Record VenueQuery := mkVenueQuery {
  q_district : option Id;
  q_status : option string;
  q_minCapacity : option string;
  q_maxCapacity : option string;
  q_minPrice : option string;
  q_maxPrice : option string
}.

(** [Number(s)] on the bounds of the query, taken to be integers as the
    stored capacities and prices are; [None] is [NaN], which does not cast
    to a number path. *)
Variable Number : string -> option Z.

(** One bound of the filter: absent (or the empty string) it does not
    constrain, [NaN] is a [CastError], a number is the bound. *)
Definition bound (path : string) (o : option string) : Handler (option Z) :=
  if truthy o then
    match Number (patched o "") with
    | Some z => ret (Some z)
    | None => next (CastError path)
    end
  else ret None.

Definition atLeast (lo : option Z) (z : Z) : bool :=
  match lo with Some m => m <=? z | None => true end.

Definition atMost (hi : option Z) (z : Z) : bool :=
  match hi with Some m => z <=? m | None => true end.

Definition matchesQuery (q : VenueQuery) (lo hi plo phi : option Z) (v : Venue)
  : bool :=
  match q_district q with Some d => (district_id v =? d)%nat | None => true end &&
  (if truthy (q_status q) then (v_status v =? patched (q_status q) "")%string
   else true) &&
  atLeast lo (capacity v) && atMost hi (capacity v) &&
  atLeast plo (price_seat v) && atMost phi (price_seat v).

Definition getVenues (q : VenueQuery) : Handler (list Venue) :=
  lo <- bound "capacity" (q_minCapacity q) ;;
  hi <- bound "capacity" (q_maxCapacity q) ;;
  plo <- bound "price_seat" (q_minPrice q) ;;
  phi <- bound "price_seat" (q_maxPrice q) ;;
  db <- getDB ;;
  ret (filter (matchesQuery q lo hi plo phi) (venues db)).

(** A venue with its virtuals populated: [images], and [bookings] with
    [match: { status: "endi bo'ladigan" }]. *)
Record VenueView := mkVenueView {
  view_venue : Venue;
  view_images : list Image;
  view_bookings : list Booking
}.

Definition getVenueById (req : Request VenueBody) : Handler VenueView :=
  found <- Venue_findById (req_params_id req) ;;
  match found with
  | None => next (AppError "Venue not found" 404)
  | Some v =>
      db <- getDB ;;
      ret (mkVenueView v
             (filter (fun i => i_venue_id i =? v_id v)%nat (images db))
             (filter (fun b => (venue_id b =? v_id v)%nat &&
                               (b_status b =? "endi bo'ladigan")%string)
                     (bookings db)))
  end.

Definition deleteVenue (req : Request VenueBody) : Handler string :=
  found <- Venue_findById (req_params_id req) ;;
  match found with
  | None => next (AppError "Venue not found" 404)
  | Some venue =>
      u <- theUser req ;;
      when (negb (owner_id venue =? u_id u)%nat && negb (role u =? "admin")%string)
           (next (AppError "Not authorized to delete this venue" 403)) ;;;
      db <- getDB ;;
      let db1 := mkDB (users db) (venues db) (bookings db)
                      (filter (fun i => negb (i_venue_id i =? v_id venue)%nat)
                              (images db))
                      (next_id db) in
      putDB (set_venues db1 (removeFirst (fun x => v_id x =? v_id venue)%nat
                                         (venues db1))) ;;;
      ret "Venue removed"
  end.

Definition getVenuesByOwner (req : Request VenueBody) : Handler (list Venue) :=
  u <- theUser req ;;
  db <- getDB ;;
  ret (filter (fun v => owner_id v =? u_id u)%nat (venues db)).

(** *** controllers/userController.js and authController.js, continued *)

Definition getUsers (req : Request UserBody) : Handler (list User) :=
  db <- getDB ;; ret (users db).

Definition getUserById (req : Request UserBody) : Handler Response :=
  found <- User_findById (req_params_id req) ;;
  match found with
  | None => next (AppError "User not found" 404)
  | Some u => ret (Json 200 (UserData u))
  end.

(** [createUser] hands the body's [role] to the model as it is; the schema
    default applies when it is absent. *)
Definition createUser (salt : string) (req : Request UserBody)
  : Handler Response :=
  validationResult req ;;;
  let b := req_body req in
  userExists <- match ub_username b with
                | Some s => User_findOne s
                | None => ret None
                end ;;
  when (present userExists) (next (AppError "User already exists" 400)) ;;;
  u <- User_create salt (ub_firstname b) (ub_lastname b) (ub_username b)
                   (ub_password b) (ub_role b) ;;
  ret (Json 201 (UserData u)).

Definition deleteUser (req : Request UserBody) : Handler string :=
  found <- User_findById (req_params_id req) ;;
  match found with
  | None => next (AppError "User not found" 404)
  | Some doc =>
      db <- getDB ;;
      putDB (set_users db (removeFirst (fun x => u_id x =? u_id doc)%nat
                                       (users db))) ;;;
      ret "User removed"
  end.

Definition getProfile (req : Request UserBody) : Handler Response :=
  p <- theUser req ;;
  found <- User_findById (u_id p) ;;
  match found with
  | None => next (AppError "User not found" 404)
  | Some u => ret (Json 200 (ProfileData (u_id u) (firstname u) (lastname u)
                                         (username u) (role u)))
  end.

(** *** Routes, continued *)

(** A route whose controller answers with data. *)
Definition serve {B A} (mws : list (Request B -> Handler (Request B)))
  (controller : Request B -> Handler A) (req : Request B) (db : DB)
  : Step A * DB :=
  (r <- chain mws req ;; controller r) db.

(** [router.get('/', protect, authorize('admin'), bookingController.getBookings)] *)
Definition GET_bookings := serve [protect; authorize ["admin"]] getBookings.
(** [router.get('/user', protect, bookingController.getUserBookings)] *)
Definition GET_bookings_user := serve [protect] getUserBookings.
(** [router.get('/venue/:id', protect, bookingController.getVenueBookings)] *)
Definition GET_bookings_venue_id := serve [protect] getVenueBookings.
(** [router.get('/:id', protect, bookingController.getBookingById)] *)
Definition GET_bookings_id := serve [protect] getBookingById.
(** [router.delete('/:id', protect, bookingController.deleteBooking)] *)
Definition DELETE_bookings_id := serve [protect] deleteBooking.
(** [router.delete("/:id", protect, venueController.deleteVenue)] *)
Definition DELETE_venues_id := serve [protect] deleteVenue.
(** [router.get("/owner", protect, venueController.getVenuesByOwner)] *)
Definition GET_venues_owner := serve [protect] getVenuesByOwner.
(** [router.post('/', protect, authorize('admin'), validateUser,
    userController.createUser)] *)
Definition POST_users (salt : string) :=
  route [protect; authorize ["admin"]; validate validateUser] (createUser salt).
(** [router.delete('/:id', protect, authorize('admin'), userController.deleteUser)] *)
Definition DELETE_users_id := serve [protect; authorize ["admin"]] deleteUser.
(** [router.get('/profile', protect, authController.getProfile)] *)
Definition GET_auth_profile := route [protect] getProfile.

(** The answer of [authorize] to a role that is not on its list. *)
Definition roleRefused (u : User) : Response :=
  Next (AppError ("Role " ++ role u ++ " is not authorized to access this route")
                 403).

(** The order of a list sorted by [reservation_date] descending. *)
Definition latestFirst (a b : Booking) : Prop :=
  reservation_date b <= reservation_date a.

(** The invariant of the user collection: ids are unique and below the
    counter, usernames are unique. *)
Definition usersWellFormed (db : DB) : Prop :=
  NoDup (map u_id (users db)) /\
  NoDup (map username (users db)) /\
  Forall (fun u => (u_id u < next_id db)%nat) (users db).

(** *** controllers/imageController.js *)

Record ImageBody := mkImageBody {
  ib_venue_id : option Id;
  ib_image_url : option string
}.

(** validator.js [isURL]. *)
Variable isURL : string -> bool.

Definition validateImage (b : ImageBody) : list FieldError :=
  check (present (ib_venue_id b)) "venue_id" "Venue ID is required" ++
  check (notEmpty (ib_image_url b)) "image_url" "Image URL is required" ++
  check (match ib_image_url b with
         | Some s => isURL s
         | None => false
         end) "image_url" "Must be a valid URL".

Definition set_images (db : DB) (l : list Image) : DB :=
  mkDB (users db) (venues db) (bookings db) l (next_id db).

(** [Image.create({ venue_id, image_url })]. *)
Definition Image_create (vid : option Id) (url : option string) : Handler Image :=
  v <- required "venue_id" vid ;;
  s <- requiredString "image_url" url ;;
  db <- getDB ;;
  let i := mkImage (next_id db) v s in
  putDB (bump_id (set_images db (images db ++ [i]))) ;;;
  ret i.

Definition Image_findById (id : Id) : Handler (option Image) :=
  db <- getDB ;; ret (find (fun i => i_id i =? id)%nat (images db)).

Definition getImages (req : Request ImageBody) : Handler (list Image) :=
  db <- getDB ;; ret (images db).

Definition getImageById (req : Request ImageBody) : Handler Image :=
  found <- Image_findById (req_params_id req) ;;
  match found with
  | None => next (AppError "Image not found" 404)
  | Some i => ret i
  end.

(** The answer is 201 with the stored image. *)
Definition createImage (req : Request ImageBody) : Handler Image :=
  validationResult req ;;;
  let b := req_body req in
  match ib_venue_id b with
  | None => next (AppError "Venue not found" 404)
  | Some vid =>
      found <- Venue_findById vid ;;
      match found with
      | None => next (AppError "Venue not found" 404)
      | Some venue =>
          u <- theUser req ;;
          when (negb (owner_id venue =? u_id u)%nat &&
                negb (role u =? "admin")%string)
               (next (AppError "Not authorized to add images to this venue" 403)) ;;;
          Image_create (Some vid) (ib_image_url b)
      end
  end.

(** [venue.owner_id] is read before anything else: an image whose venue is
    gone ends in a [TypeError]. *)
Definition deleteImage (req : Request ImageBody) : Handler string :=
  found <- Image_findById (req_params_id req) ;;
  match found with
  | None => next (AppError "Image not found" 404)
  | Some image =>
      venue <- Venue_findById (i_venue_id image) ;;
      match venue with
      | None => next TypeError
      | Some v =>
          u <- theUser req ;;
          when (negb (owner_id v =? u_id u)%nat && negb (role u =? "admin")%string)
               (next (AppError "Not authorized to delete this image" 403)) ;;;
          db <- getDB ;;
          putDB (set_images db (removeFirst (fun x => i_id x =? i_id image)%nat
                                            (images db))) ;;;
          ret "Image removed"
      end
  end.

Definition getImagesByVenue (req : Request ImageBody) : Handler (list Image) :=
  let venueId := req_params_id req in
  found <- Venue_findById venueId ;;
  match found with
  | None => next (AppError "Venue not found" 404)
  | Some _ =>
      db <- getDB ;;
      ret (filter (fun i => i_venue_id i =? venueId)%nat (images db))
  end.

(** [router.post('/', protect, validateImage, imageController.createImage)] *)
Definition POST_images := serve [protect; validate validateImage] createImage.
(** [router.delete('/:id', protect, imageController.deleteImage)] *)
Definition DELETE_images_id := serve [protect] deleteImage.
(** [router.get('/venue/:id', imageController.getImagesByVenue)] *)
Definition GET_images_venue_id := serve [] getImagesByVenue.

(** *** models/districtModel.js and controllers/districtController.js *)

(** [districtSchema]: a unique, trimmed name. *)
Record District := mkDistrict {
  d_id : Id;
  d_name : string
}.

(** The district collection sits beside the collections above; the district
    controllers pass the whole store along explicitly. *)
Record Store := mkStore {
  core : DB;
  districts : list District
}.

Record DistrictBody := mkDistrictBody { db_name : option string }.

Definition validateDistrict (b : DistrictBody) : list FieldError :=
  check (notEmpty (db_name b)) "name" "Name is required".

Definition Answer (A : Type) : Type := Step A * Store.

Definition fail {A} (e : Error) (st : Store) : Answer A := (Respond (Next e), st).

(** Middleware and queries on the other collections, run on the store. *)
Definition onCore {A} (h : Handler A) (st : Store) : Answer A :=
  match h (core st) with
  | (r, db') => (r, mkStore db' (districts st))
  end.

(** [District.findOne({ name, _id: { $ne } })], the query value trimmed. *)
Definition District_findOne (nm : string) (ne : option Id) (st : Store)
  : option District :=
  find (fun d => (d_name d =? trim nm)%string &&
                 match ne with
                 | Some i => negb (d_id d =? i)%nat
                 | None => true
                 end) (districts st).

Definition District_findById (id : Id) (st : Store) : option District :=
  find (fun d => d_id d =? id)%nat (districts st).

(** [District.create({ name })]: trimmed, required, unique. *)
Definition District_create (nm : option string) (st : Store) : Answer District :=
  match option_map trim nm with
  | None => fail (ValidationError "name") st
  | Some s =>
      if (s =? "")%string then fail (ValidationError "name") st
      else if existsb (fun d => d_name d =? s)%string (districts st)
      then fail DuplicateKeyError st
      else
        let d := mkDistrict (next_id (core st)) s in
        (Continue d, mkStore (bump_id (core st)) (districts st ++ [d]))
  end.

(** [District.findByIdAndUpdate(id, { name }, { new: true,
    runValidators: true })]: the validators run before the query. *)
Definition District_findByIdAndUpdate (id : Id) (nm : option string) (st : Store)
  : Answer (option District) :=
  match option_map trim nm with
  | Some s =>
      if (s =? "")%string then fail (ValidationError "name") st
      else
        match District_findById id st with
        | None => (Continue None, st)
        | Some d =>
            if existsb (fun x => (d_name x =? s)%string && negb (d_id x =? id)%nat)
                       (districts st)
            then fail DuplicateKeyError st
            else
              let d' := mkDistrict (d_id d) s in
              (Continue (Some d'),
               mkStore (core st)
                       (replaceFirst (fun x => d_id x =? id)%nat d' (districts st)))
        end
  | None =>
      match District_findById id st with
      | None => (Continue None, st)
      | Some d => (Continue (Some d), st)
      end
  end.

Definition invalid {A} (req : Request DistrictBody) (st : Store) : Answer A :=
  (Respond (Json 400 (Errors (req_errors req))), st).

Definition getDistricts (req : Request DistrictBody) (st : Store)
  : Answer (list District) :=
  (Continue (districts st), st).

Definition getDistrictById (req : Request DistrictBody) (st : Store)
  : Answer District :=
  match District_findById (req_params_id req) st with
  | None => fail (AppError "District not found" 404) st
  | Some d => (Continue d, st)
  end.

(** The answer is 201 with the stored district. *)
Definition createDistrict (req : Request DistrictBody) (st : Store)
  : Answer District :=
  match req_errors req with
  | _ :: _ => invalid req st
  | [] =>
      let name := db_name (req_body req) in
      match match name with
            | Some s => District_findOne s None st
            | None => None
            end with
      | Some _ => fail (AppError "District already exists" 400) st
      | None => District_create name st
      end
  end.

Definition updateDistrict (req : Request DistrictBody) (st : Store)
  : Answer District :=
  match req_errors req with
  | _ :: _ => invalid req st
  | [] =>
      let name := db_name (req_body req) in
      match match name with
            | Some s => District_findOne s (Some (req_params_id req)) st
            | None => None
            end with
      | Some _ => fail (AppError "District with this name already exists" 400) st
      | None =>
          match District_findByIdAndUpdate (req_params_id req) name st with
          | (Continue (Some d), st') => (Continue d, st')
          | (Continue None, st') => fail (AppError "District not found" 404) st'
          | (Respond r, st') => (Respond r, st')
          end
      end
  end.

Definition deleteDistrict (req : Request DistrictBody) (st : Store)
  : Answer string :=
  match District_findById (req_params_id req) st with
  | None => fail (AppError "District not found" 404) st
  | Some d =>
      (Continue "District removed",
       mkStore (core st)
               (removeFirst (fun x => d_id x =? d_id d)%nat (districts st)))
  end.

(** [district.populate({ path: 'venues', match: { status: 'tasdiqlangan' },
    populate: { path: 'images' } })]: the approved venues of the district,
    each with its images. *)
Definition getDistrictVenues (req : Request DistrictBody) (st : Store)
  : Answer (list (Venue * list Image)) :=
  match District_findById (req_params_id req) st with
  | None => fail (AppError "District not found" 404) st
  | Some d =>
      (Continue
         (map (fun v => (v, filter (fun i => i_venue_id i =? v_id v)%nat
                                   (images (core st))))
              (filter (fun v => (district_id v =? d_id d)%nat &&
                                (v_status v =? "tasdiqlangan")%string)
                      (venues (core st)))),
       st)
  end.

(** The admin-only district routes: [protect, authorize('admin'),
    validateDistrict] (the last one not on DELETE), then the controller. *)
Definition behind {A} (mws : list (Request DistrictBody -> Handler (Request DistrictBody)))
  (controller : Request DistrictBody -> Store -> Answer A)
  (req : Request DistrictBody) (st : Store) : Answer A :=
  match onCore (chain mws req) st with
  | (Continue r, st') => controller r st'
  | (Respond x, st') => (Respond x, st')
  end.

Definition POST_districts :=
  behind [protect; authorize ["admin"]; validate validateDistrict] createDistrict.
Definition PUT_districts_id :=
  behind [protect; authorize ["admin"]; validate validateDistrict] updateDistrict.
Definition DELETE_districts_id :=
  behind [protect; authorize ["admin"]] deleteDistrict.

(** District names are unique, and so are district ids, which stay below
    the id counter. *)
Definition districtsWellFormed (st : Store) : Prop :=
  NoDup (map d_id (districts st)) /\
  NoDup (map d_name (districts st)) /\
  Forall (fun d => (d_id d < next_id (core st))%nat) (districts st).

(** ** Properties *)

(** *** Proof automation *)

(** Case analysis on the innermost test a computation is stuck on. *)
Ltac stuck_in t :=
  lazymatch t with
  | context [match ?x with _ => _ end] => stuck_in x
  | _ => t
  end.

Ltac case_stuck :=
  match goal with
  | |- context [match ?x with _ => _ end] =>
      let y := stuck_in x in destruct y eqn:?
  end.

(** Unfolding the monad, the model operations and the middleware. *)
Ltac unfold_model :=
  unfold route, chain, validate in *;
  unfold run, validationResult, theUser,
    User_findById, Venue_findById, Booking_findById, User_findOne,
    Booking_findOne, queryDate, alreadyBooked, authorize,
    required, requiredString, castDate, minNumber, enumString, when,
    bind, ret, next, json, getDB, putDB in *.

(** Evaluation, using the equations at hand wherever their left-hand side
    shows up. *)
Ltac eval_with_hyps :=
  repeat (cbn;
          match goal with
          | H : ?x = _ |- context [?x] => rewrite H
          end);
  cbn.

(** *** Lists and strings *)

Lemma prefix_refl (s : string) : String.prefix s s = true.
Proof.
  induction s as [|c s IH]; simpl; [reflexivity|].
  destruct (ascii_dec c c) as [_|n]; [exact IH | contradiction n; reflexivity].
Qed.

Lemma includes_app_r (p s : string) : includes (p ++ s) s = true.
Proof.
  induction p as [|c p IH]; simpl.
  - destruct s; simpl; [reflexivity|].
    rewrite prefix_refl.
    destruct (ascii_dec a a) as [_|n]; [reflexivity | contradiction n; reflexivity].
  - rewrite IH. apply orb_true_r.
Qed.

Lemma find_id_venue (id : Id) (l : list Venue) (v : Venue) :
  find (fun x => v_id x =? id)%nat l = Some v -> v_id v = id.
Proof.
  intros H. apply find_some in H. destruct H as [_ H].
  apply Nat.eqb_eq in H. exact H.
Qed.

(** *** Venue approval gate of createBooking *)

(** C5. A createBooking request that references an existing venue whose
    status is not "tasdiqlangan" is answered with status 400, and the store
    is left as it was: no booking is created. *)
Theorem createBooking_unapproved_venue
  (req : Request BookingBody) (db : DB) (vid : Id) (venue : Venue) :
  bb_venue_id (req_body req) = Some vid ->
  find (fun v => v_id v =? vid)%nat (venues db) = Some venue ->
  v_status venue <> "tasdiqlangan" ->
  statusOf (fst (run (createBooking req) db)) = Some 400 /\
  snd (run (createBooking req) db) = db.
Proof.
  intros Hid Hfind Hst.
  unfold createBooking, validationResult.
  destruct (req_errors req) as [|e errs].
  - unfold run, bind, ret, Venue_findById, getDB. cbn.
    rewrite Hid. cbn. rewrite Hfind. cbn.
    destruct (String.eqb_spec (v_status venue) "tasdiqlangan") as [E|_];
      [contradiction|].
    cbn. split; reflexivity.
  - cbn. split; reflexivity.
Qed.

(** *** Date conflicts in createBooking *)

Lemma slotTaken_none_count (v : Id) (d : Z) (l : list Booking) :
  slotTaken v d None l = false -> slotCount v d l = 0%nat.
Proof.
  unfold slotTaken, slotCount.
  induction l as [|b l IH]; simpl; [reflexivity|].
  rewrite andb_true_r. destruct (sameSlot v d b); simpl; [discriminate|exact IH].
Qed.

Lemma slotCount_app (v : Id) (d : Z) (l1 l2 : list Booking) :
  slotCount v d (l1 ++ l2) = (slotCount v d l1 + slotCount v d l2)%nat.
Proof.
  unfold slotCount. rewrite filter_app, length_app. reflexivity.
Qed.

Lemma sameSlot_eq (v v' : Id) (d d' : Z) (b : Booking) :
  sameSlot v d b = true -> sameSlot v' d' b = true -> v = v' /\ d = d'.
Proof.
  unfold sameSlot. rewrite !andb_true_iff, !Nat.eqb_eq, !Z.eqb_eq.
  intros [<- <-] [<- <-]. split; reflexivity.
Qed.

Lemma uniqueSlots_insert (l : list Booking) (b : Booking) :
  uniqueSlots l ->
  slotTaken (venue_id b) (reservation_date b) None l = false ->
  uniqueSlots (l ++ [b]).
Proof.
  intros U T v d. rewrite slotCount_app.
  unfold slotCount at 2. simpl.
  destruct (sameSlot v d b) eqn:E; simpl.
  - assert (S : sameSlot (venue_id b) (reservation_date b) b = true).
    { unfold sameSlot. rewrite Nat.eqb_refl, Z.eqb_refl. reflexivity. }
    destruct (sameSlot_eq _ _ _ _ _ E S) as [-> ->].
    rewrite (slotTaken_none_count _ _ _ T). simpl. lia.
  - specialize (U v d). lia.
Qed.

(** What [Booking.create] leaves in the store: nothing when it throws, one
    more booking on a free slot when it returns. *)
Lemma Booking_create_store vid rd gc cp uid st (db : DB) :
  match Booking_create vid rd gc cp uid st db with
  | (Continue b, db') =>
      db' = bump_id (set_bookings db (bookings db ++ [b])) /\
      slotTaken (venue_id b) (reservation_date b) None (bookings db) = false
  | (Respond _, db') => db' = db
  end.
Proof.
  unfold Booking_create, required, requiredString, castDate, minNumber,
    enumString, when, bind, ret, next, getDB, putDB.
  destruct vid as [v|]; cbn; [|reflexivity].
  destruct rd as [s|]; cbn; [|reflexivity].
  destruct (s =? "")%string eqn:E; cbn; [reflexivity|].
  rewrite E.
  destruct (Date_parse s) as [d|]; cbn; [|reflexivity].
  destruct gc as [g|]; cbn; [|reflexivity].
  destruct (g <? 1); cbn; [reflexivity|].
  destruct cp as [c|]; cbn; [|reflexivity].
  destruct (c =? "")%string; cbn; [reflexivity|].
  destruct uid as [u|]; cbn; [|reflexivity].
  match goal with
  | |- context [if negb ?c then _ else _] => destruct c
  end; cbn; [|reflexivity].
  destruct (slotTaken v d None (bookings db)) eqn:T; cbn; [reflexivity|].
  split; [reflexivity | exact T].
Qed.

(** The store after [createBooking]: unchanged, or one booking added on a
    slot that was free. *)
Lemma createBooking_store (req : Request BookingBody) (db : DB) :
  snd (run (createBooking req) db) = db \/
  exists b, snd (run (createBooking req) db)
            = bump_id (set_bookings db (bookings db ++ [b])) /\
            slotTaken (venue_id b) (reservation_date b) None (bookings db) = false.
Proof.
  unfold createBooking, run, validationResult, Venue_findById, queryDate,
    Booking_findOne, theUser, alreadyBooked, Booking_create, required,
    requiredString, castDate, minNumber, enumString, when, bind, ret, next,
    json, getDB, putDB.
  repeat (cbn; case_stuck); cbn;
    try (left; reflexivity); try congruence.
  all: right; eexists; split; [reflexivity | cbn].
  all: repeat match goal with
              | H : Some _ = Some _ |- _ => inversion H; clear H; subst
              end; assumption.
Qed.

Lemma find_present {A} (p : A -> bool) (l : list A) (x : A) :
  In x l -> p x = true -> present (find p l) = true.
Proof.
  intros I P. destruct (find p l) eqn:F; [reflexivity|].
  rewrite (find_none _ _ F x I) in P. discriminate.
Qed.

(** C1 (amended). (1) When a booking already holds the venue on the parsed
    date, a request that passes validation and the venue-status and capacity
    checks is refused with the 400 error "Venue is already booked for this
    date"; (2) when such a booking exists, whatever check refuses the
    request, the store is left as it was: no new booking is stored; and
    (3) for every request, createBooking keeps at most one booking per
    (venue_id, reservation_date) pair. *)
Theorem createBooking_conflict (req : Request BookingBody) (db : DB) :
  (forall vid s d existing venue,
      bb_venue_id (req_body req) = Some vid ->
      bb_reservation_date (req_body req) = Some s ->
      Date_parse s = Some d ->
      In existing (bookings db) ->
      sameSlot vid d existing = true ->
      req_errors req = [] ->
      find (fun v => v_id v =? vid)%nat (venues db) = Some venue ->
      v_status venue = "tasdiqlangan" ->
      gtNum (bb_guest_count (req_body req)) (capacity venue) = false ->
      run (createBooking req) db
      = (Next (AppError "Venue is already booked for this date" 400), db)) /\
  (forall vid s d existing,
      bb_venue_id (req_body req) = Some vid ->
      bb_reservation_date (req_body req) = Some s ->
      Date_parse s = Some d ->
      In existing (bookings db) ->
      sameSlot vid d existing = true ->
      snd (run (createBooking req) db) = db) /\
  (uniqueSlots (bookings db) ->
   uniqueSlots (bookings (snd (run (createBooking req) db)))).
Proof.
  assert (P : forall vid d existing,
             In existing (bookings db) -> sameSlot vid d existing = true ->
             present (find (fun b => sameSlot vid d b && true) (bookings db))
             = true).
  { intros vid d existing Hin Hslot.
    apply (find_present _ _ existing Hin). rewrite Hslot. reflexivity. }
  split; [|split].
  - intros vid s d existing venue Hid Hrd Hparse Hin Hslot Herr F St Cap.
    unfold createBooking, run, validationResult. rewrite Herr.
    unfold bind, ret, Venue_findById, getDB. cbn.
    rewrite Hid. cbn. rewrite F. cbn.
    rewrite St. cbn. rewrite Cap. cbn.
    rewrite Hrd. cbn. rewrite Hparse. cbn.
    unfold Booking_findOne, bind, getDB, ret. cbn.
    rewrite (P _ _ _ Hin Hslot). cbn. reflexivity.
  - intros vid s d existing Hid Hrd Hparse Hin Hslot.
    unfold createBooking, run, validationResult.
    destruct (req_errors req); cbn; [|reflexivity].
    unfold bind, ret, Venue_findById, getDB. cbn.
    rewrite Hid. cbn.
    destruct (find (fun v => v_id v =? vid)%nat (venues db)) as [venue|] eqn:F;
      cbn; [|reflexivity].
    destruct (negb (v_status venue =? "tasdiqlangan")%string); cbn;
      [reflexivity|].
    destruct (gtNum _ _); cbn; [reflexivity|].
    rewrite Hrd. cbn. rewrite Hparse. cbn.
    unfold Booking_findOne, bind, getDB, ret. cbn.
    rewrite (P _ _ _ Hin Hslot). cbn. reflexivity.
  - intros U.
    destruct (createBooking_store req db) as [-> | [b [-> T]]]; [exact U|].
    cbn. apply uniqueSlots_insert; assumption.
Qed.

(** *** Capacity checks *)

Arguments capacityMessage : simpl never.

Lemma capacityMessage_cites (cap : Z) :
  includes (capacityMessage cap) (numToString cap) = true.
Proof. unfold capacityMessage. apply includes_app_r. Qed.

(** C6 (amended). createBooking, for a request that passes validation and
    references an existing approved venue, fails with a 400 error whose
    message cites the venue's capacity whenever guest_count exceeds it;
    updateBooking, called by the booking's creator or an admin with a body
    whose reservation date raises no conflict, re-fetches the venue and
    rejects the same way when the body's guest_count exceeds the capacity.
    Both leave the store as it was. *)
Theorem capacity_exceeded (req : Request BookingBody) (db : DB) :
  (forall vid venue,
      req_errors req = [] ->
      bb_venue_id (req_body req) = Some vid ->
      find (fun v => v_id v =? vid)%nat (venues db) = Some venue ->
      v_status venue = "tasdiqlangan" ->
      gtNum (bb_guest_count (req_body req)) (capacity venue) = true ->
      run (createBooking req) db
      = (Next (AppError (capacityMessage (capacity venue)) 400), db) /\
      includes (capacityMessage (capacity venue))
               (numToString (capacity venue)) = true) /\
  (forall booking u venue g,
      req_errors req = [] ->
      find (fun b => b_id b =? req_params_id req)%nat (bookings db)
      = Some booking ->
      req_user req = Some u ->
      user_id booking = u_id u \/ role u = "admin" ->
      noDateConflict (req_body req) booking db ->
      find (fun v => v_id v =? venue_id booking)%nat (venues db) = Some venue ->
      bb_guest_count (req_body req) = Some g ->
      1 <= capacity venue < g ->
      run (updateBooking req) db
      = (Next (AppError (capacityMessage (capacity venue)) 400), db) /\
      includes (capacityMessage (capacity venue))
               (numToString (capacity venue)) = true).
Proof.
  split.
  - intros vid venue Herr Hid F St Cap.
    split; [|apply capacityMessage_cites].
    unfold createBooking, run, validationResult. rewrite Herr.
    unfold bind, ret, Venue_findById, getDB. cbn.
    rewrite Hid. cbn. rewrite F. cbn.
    rewrite St. cbn. rewrite Cap. cbn. reflexivity.
  - intros booking u venue g Herr Fb Hu Auth Date Fv Hg [Hcap Hgt].
    split; [|apply capacityMessage_cites].
    assert (A : (negb (user_id booking =? u_id u)%nat &&
                 negb (role u =? "admin")%string) = false).
    { destruct Auth as [E|E]; rewrite E.
      - rewrite Nat.eqb_refl. reflexivity.
      - rewrite andb_false_r. reflexivity. }
    assert (T : (g =? 0) = false) by (apply Z.eqb_neq; lia).
    assert (G : (capacity venue <? g) = true) by (apply Z.ltb_lt; lia).
    unfold noDateConflict in Date.
    unfold updateBooking. unfold_model.
    destruct (bb_reservation_date (req_body req)) as [s|].
    + destruct Date as [-> | [-> | [d [Pd Fd]]]].
      * eval_with_hyps. reflexivity.
      * eval_with_hyps. rewrite String.eqb_refl, andb_false_r.
        eval_with_hyps. reflexivity.
      * eval_with_hyps. case_stuck; eval_with_hyps; reflexivity.
    + eval_with_hyps. reflexivity.
Qed.

(** *** Authorization of venue updates *)

(** A route that starts with [protect], for an authenticated request,
    continues with [req.user] set. *)
Lemma route_protect {B} (mws : list (Request B -> Handler (Request B)))
  (controller : Request B -> Handler Response) (req : Request B) (db : DB)
  (u : User) :
  authenticated req db u ->
  route (protect :: mws) controller req db
  = route mws controller (set_user req u) db.
Proof.
  intros Auth. unfold authenticated in Auth.
  unfold route, run. cbn [chain]. unfold bind. rewrite Auth. reflexivity.
Qed.

(** C4 (amended). On the route PUT /api/venues/:id, for an existing venue
    and an authenticated principal who is neither its owner nor an admin, the
    request fails with 403 when the body passes the venue validation rules,
    and with 400 and the list of violations when it does not; an admin
    principal is never answered 403 for the same request. The store is left
    as it was in both failures. *)
Theorem updateVenue_guard
  (req : Request VenueBody) (db : DB) (u : User) (v : Venue) :
  authenticated req db u ->
  req_errors req = [] ->
  find (fun x => v_id x =? req_params_id req)%nat (venues db) = Some v ->
  (role u <> "admin" -> owner_id v <> u_id u ->
   PUT_venues_id req db
   = (match validateVenue (req_body req) with
      | [] => Next (AppError "Not authorized to update this venue" 403)
      | errs => Json 400 (Errors errs)
      end, db)) /\
  (role u = "admin" -> statusOf (fst (PUT_venues_id req db)) <> Some 403).
Proof.
  intros Auth Herr F.
  unfold PUT_venues_id. rewrite (route_protect _ _ _ _ _ Auth).
  split.
  - intros Hrole Howner.
    apply String.eqb_neq in Hrole. apply Nat.eqb_neq in Howner.
    unfold updateVenue. unfold_model. cbn. rewrite Herr. cbn.
    destruct (validateVenue (req_body req)); eval_with_hyps; reflexivity.
  - intros Hrole.
    unfold updateVenue, Venue_findByIdAndUpdate. unfold_model. cbn.
    rewrite Herr. cbn.
    destruct (validateVenue (req_body req)); eval_with_hyps;
      [|discriminate].
    rewrite andb_false_r. cbn.
    repeat (case_stuck; cbn); discriminate.
Qed.

(** *** Authorization of booking status changes *)

(** changeBookingStatus refuses, with 403, a principal who is neither an
    admin nor the owner of the booking's venue; the booking's creator has
    no special standing there. *)
Lemma changeBookingStatus_guard
  (req : Request BookingBody) (db : DB) (booking : Booking) (venue : Venue)
  (u : User) :
  req_errors req = [] ->
  find (fun b => b_id b =? req_params_id req)%nat (bookings db) = Some booking ->
  find (fun v => v_id v =? venue_id booking)%nat (venues db) = Some venue ->
  req_user req = Some u ->
  role u <> "admin" -> owner_id venue <> u_id u ->
  run (changeBookingStatus req) db
  = (Next (AppError "Not authorized to change booking status" 403), db).
Proof.
  intros Herr Fb Fv Hu Hrole Howner.
  apply String.eqb_neq in Hrole. apply Nat.eqb_neq in Howner.
  unfold changeBookingStatus. unfold_model. eval_with_hyps. reflexivity.
Qed.

(** *** Status of a created venue *)

(** Whoever the principal is, a venue that createVenue stores carries the
    status the body supplied, and the default "tasdiqlanmagan" only when
    the body has none; the controller has no admin test on this path. *)
Lemma createVenue_status_from_body
  (req : Request VenueBody) (db db' : DB) (v : Venue) :
  run (createVenue req) db = (Json 201 (VenueData (Some v)), db') ->
  v_status v = patched (vb_status (req_body req)) "tasdiqlanmagan".
Proof.
  unfold createVenue, Venue_create, Image_insertMany, with_owner.
  unfold_model.
  repeat (cbn; case_stuck); cbn; intros H; inversion H; subst;
    try reflexivity; congruence.
Qed.

(** *** Venue approval *)

Lemma find_replaceFirst {A} (p : A -> bool) (x y : A) (l : list A) :
  find p l = Some y -> p x = true -> find p (replaceFirst p x l) = Some x.
Proof.
  intros F P. induction l as [|z l IH]; simpl in *; [discriminate|].
  destruct (p z) eqn:E; simpl.
  - rewrite P. reflexivity.
  - rewrite E. apply IH. exact F.
Qed.

Lemma replaceFirst_idem {A} (p : A -> bool) (x : A) (l : list A) :
  p x = true -> replaceFirst p x (replaceFirst p x l) = replaceFirst p x l.
Proof.
  intros P. induction l as [|z l IH]; simpl; [reflexivity|].
  destruct (p z) eqn:E; simpl.
  - rewrite P. reflexivity.
  - rewrite E, IH. reflexivity.
Qed.

(** [protect] reads the user collection only. *)
Lemma authenticated_users {B} (req : Request B) (db db' : DB) (u : User) :
  users db' = users db -> authenticated req db u -> authenticated req db' u.
Proof.
  unfold authenticated, protect, notAuthenticated. unfold_model.
  intros E.
  repeat (case_stuck; cbn); cbn; rewrite ?E;
    repeat (case_stuck; cbn); intros H; inversion H; subst;
    try reflexivity; congruence.
Qed.

(** What the approval writes, for a venue the route finds. *)
Lemma approveVenue_found (req : Request VenueBody) (db : DB) (v : Venue) :
  find (fun x => v_id x =? req_params_id req)%nat (venues db) = Some v ->
  run (approveVenue req) db
  = (Json 200 (VenueData (Some (approved v))),
     set_venues db (replaceFirst (fun x => v_id x =? req_params_id req)%nat
                                 (approved v) (venues db))).
Proof.
  intros F. unfold approveVenue, Venue_findByIdAndUpdate. unfold_model.
  eval_with_hyps. reflexivity.
Qed.

(** C8. On the route PUT /api/venues/:id/approve, an admin's request for an
    existing venue answers 200 and leaves the venue stored with status
    "tasdiqlangan" whatever its status was, every other field as it was; the
    same request on the resulting store gives the same answer and the same
    store. *)
Theorem approveVenue_idempotent
  (req : Request VenueBody) (db : DB) (u : User) (v : Venue) :
  authenticated req db u ->
  role u = "admin" ->
  find (fun x => v_id x =? req_params_id req)%nat (venues db) = Some v ->
  let r := fst (PUT_venues_id_approve req db) in
  let db' := snd (PUT_venues_id_approve req db) in
  r = Json 200 (VenueData (Some (approved v))) /\
  find (fun x => v_id x =? req_params_id req)%nat (venues db')
  = Some (approved v) /\
  v_status (approved v) = "tasdiqlangan" /\
  PUT_venues_id_approve req db' = (r, db').
Proof.
  intros Auth Hrole F.
  assert (Pid : (v_id (approved v) =? req_params_id req)%nat = true).
  { cbn. apply Nat.eqb_eq. apply (find_id_venue _ _ _ F). }
  assert (Step : forall db0 v0,
             authenticated req db0 u ->
             find (fun x => v_id x =? req_params_id req)%nat (venues db0)
             = Some v0 ->
             PUT_venues_id_approve req db0
             = run (approveVenue (set_user req u)) db0).
  { intros db0 v0 A0 F0. unfold PUT_venues_id_approve.
    rewrite (route_protect _ _ _ _ _ A0).
    unfold_model. cbn. rewrite Hrole. cbn. reflexivity. }
  intros r db'. subst r db'.
  rewrite (Step db v Auth F).
  rewrite (approveVenue_found (set_user req u) db v F). cbn [fst snd].
  split; [reflexivity|].
  pose proof (find_replaceFirst _ (approved v) v (venues db) F Pid) as F'.
  split; [exact F'|]. split; [reflexivity|].
  set (db' := set_venues db _) in *.
  assert (A' : authenticated req db' u).
  { apply (authenticated_users req db db'); [reflexivity | exact Auth]. }
  rewrite (Step db' (approved v) A' F').
  rewrite (approveVenue_found (set_user req u) db' (approved v) F').
  change (approved (approved v)) with (approved v).
  f_equal. unfold db', set_venues. cbn [users venues bookings images next_id].
  f_equal.
  exact (replaceFirst_idem (fun x => v_id x =? req_params_id req)%nat
           (approved v) (venues db) Pid).
Qed.

(** *** Login failures *)


(** *** Registration *)



#[local] Arguments Nat.leb : simpl never.
#[local] Arguments Nat.ltb : simpl never.


(** *** Passwords in the admin's user update *)

Lemma map_password_replaceFirst (p : User -> bool) (x y : User) (l : list User) :
  find p l = Some y -> password x = password y ->
  map password (replaceFirst p x l) = map password l.
Proof.
  intros F E. induction l as [|z l IH]; simpl in *; [reflexivity|].
  destruct (p z); simpl.
  - inversion F; subst. rewrite E. reflexivity.
  - rewrite (IH F). reflexivity.
Qed.

Lemma find_id_user (id : Id) (l : list User) (u : User) :
  find (fun x => u_id x =? id)%nat l = Some u -> u_id u = id.
Proof.
  intros H. apply find_some in H. destruct H as [_ H].
  apply Nat.eqb_eq in H. exact H.
Qed.

(** C7 (amended). A password field in the body of the admin's user update
    is ignored: the answer and the resulting store are those of the same
    request without the field, and every stored password digest is left as
    it was. *)
Theorem updateUser_ignores_password
  (salt : string) (req : Request UserBody) (db : DB) :
  run (updateUser salt req) db
  = run (updateUser salt (set_body req (without_password (req_body req)))) db /\
  map password (users (snd (run (updateUser salt req) db)))
  = map password (users db).
Proof.
  split; [reflexivity|].
  unfold updateUser, usernameFree, User_save. unfold_model. cbn.
  destruct (req_errors req); cbn; [|reflexivity].
  destruct (find (fun u => u_id u =? req_params_id req)%nat (users db))
    as [doc|] eqn:F; cbn; [|reflexivity].
  pose proof (find_id_user _ _ _ F) as Hid.
  repeat (case_stuck; cbn); try reflexivity.
  all: apply (map_password_replaceFirst _ _ doc); [|reflexivity].
  all: rewrite Hid; exact F.
Qed.

(** *** The unique index on the update path *)

Lemma slotCount_zero_replaceFirst (p : Booking -> bool) (v : Id) (d : Z)
  (b' : Booking) (l : list Booking) :
  slotCount v d l = 0%nat -> sameSlot v d b' = false ->
  slotCount v d (replaceFirst p b' l) = 0%nat.
Proof.
  unfold slotCount. induction l as [|y l IH]; simpl; [reflexivity|].
  destruct (sameSlot v d y) eqn:E; simpl; [discriminate|].
  intros Z N. destruct (p y); simpl.
  - rewrite N. exact Z.
  - rewrite E. exact (IH Z N).
Qed.

(** Writing [b'] over the booking with id [id] keeps the slots unique when
    ids are unique and no other booking holds the slot of [b']. *)
Lemma uniqueSlots_replace (id : Id) (b' : Booking) (l : list Booking) :
  NoDup (map b_id l) ->
  uniqueSlots l ->
  slotTaken (venue_id b') (reservation_date b') (Some id) l = false ->
  uniqueSlots (replaceFirst (fun x => b_id x =? id)%nat b' l).
Proof.
  intros ND U T v d.
  assert (Own : sameSlot (venue_id b') (reservation_date b') b' = true).
  { unfold sameSlot. rewrite Nat.eqb_refl, Z.eqb_refl. reflexivity. }
  induction l as [|x l IH]; simpl; [unfold slotCount; simpl; lia|].
  inversion ND as [|? ? Hnotin ND']; subst.
  assert (Ul : uniqueSlots l).
  { intros v0 d0. specialize (U v0 d0). unfold slotCount in *. simpl in U.
    destruct (sameSlot v0 d0 x); simpl in U; lia. }
  simpl in T. apply orb_false_iff in T. destruct T as [Tx Tl].
  destruct (b_id x =? id)%nat eqn:E.
  - (* the booking being written *)
    apply Nat.eqb_eq in E.
    unfold slotCount. simpl.
    destruct (sameSlot v d b') eqn:S; simpl.
    + destruct (sameSlot_eq _ _ _ _ _ S Own) as [-> ->].
      assert (Z0 : slotCount (venue_id b') (reservation_date b') l = 0%nat).
      { unfold slotCount.
        assert (F : forall y, In y l ->
                      sameSlot (venue_id b') (reservation_date b') y = false).
        { intros y Hy.
          assert (negb (b_id y =? id)%nat = true).
          { apply negb_true_iff, Nat.eqb_neq. intros Ey.
            apply Hnotin. rewrite E, <- Ey. apply in_map. exact Hy. }
          unfold slotTaken in Tl.
          destruct (sameSlot (venue_id b') (reservation_date b') y) eqn:Sy;
            [|reflexivity].
          pose proof (existsb_exists
                        (fun b => sameSlot (venue_id b') (reservation_date b') b
                                  && negb (b_id b =? id)%nat) l) as [_ Ex].
          rewrite Ex in Tl; [discriminate|].
          exists y. split; [exact Hy|]. rewrite Sy, H. reflexivity. }
        clear -F. induction l as [|y l IHl]; simpl; [reflexivity|].
        rewrite (F y (or_introl eq_refl)). apply IHl.
        intros z Hz. apply F. right. exact Hz. }
      unfold slotCount in Z0. rewrite Z0. lia.
    + specialize (Ul v d). unfold slotCount in Ul. exact Ul.
  - (* another booking comes first *)
    unfold slotCount. simpl.
    destruct (sameSlot v d x) eqn:S; simpl.
    + assert (Z0 : slotCount v d l = 0%nat).
      { specialize (U v d). unfold slotCount in *. simpl in U.
        rewrite S in U. simpl in U. lia. }
      assert (N : sameSlot v d b' = false).
      { destruct (sameSlot v d b') eqn:S'; [|reflexivity].
        destruct (sameSlot_eq _ _ _ _ _ S' Own) as [-> ->].
        rewrite S in Tx. simpl in Tx. discriminate. }
      pose proof (slotCount_zero_replaceFirst
                    (fun y => b_id y =? id)%nat v d b' l Z0 N) as R.
      unfold slotCount in R. rewrite R. lia.
    + apply (IH ND' Ul Tl).
Qed.

#[local] Arguments slotTaken : simpl never.
#[local] Arguments replaceFirst : simpl never.

(** The store after [findByIdAndUpdate] on bookings: unchanged, or one
    booking rewritten onto a slot no other booking holds. *)
Lemma Booking_findByIdAndUpdate_store (id : Id) (p : BookingBody) (db : DB) :
  snd (Booking_findByIdAndUpdate id p db) = db \/
  exists b',
    snd (Booking_findByIdAndUpdate id p db)
    = set_bookings db (replaceFirst (fun x => b_id x =? id)%nat b' (bookings db)) /\
    slotTaken (venue_id b') (reservation_date b') (Some id) (bookings db) = false.
Proof.
  unfold Booking_findByIdAndUpdate. unfold_model.
  repeat (cbn; case_stuck); cbn; try (left; reflexivity); try congruence.
  all: right; eexists; split; [reflexivity | cbn; assumption].
Qed.

(** Updates keep at most one booking per (venue_id, reservation_date) pair:
    a patch that would put a booking on a slot another one holds, for
    instance by changing [venue_id], which the controller's own conflict
    check does not look at, is refused by the unique index. *)
Lemma updateBooking_keeps_uniqueSlots (req : Request BookingBody) (db : DB) :
  NoDup (map b_id (bookings db)) ->
  uniqueSlots (bookings db) ->
  uniqueSlots (bookings (snd (run (updateBooking req) db))).
Proof.
  intros ND U.
  assert (K : forall p, uniqueSlots (bookings
                (snd (Booking_findByIdAndUpdate (req_params_id req) p db)))).
  { intros p.
    destruct (Booking_findByIdAndUpdate_store (req_params_id req) p db)
      as [-> | [b' [-> T]]]; [exact U|].
    cbn. apply uniqueSlots_replace; assumption. }
  unfold updateBooking. unfold_model.
  repeat (cbn; case_stuck); cbn; try exact U.
  all: match goal with
       | H : Booking_findByIdAndUpdate _ ?p _ = (_, _) |- _ =>
           specialize (K p); rewrite H in K; exact K
       end.
Qed.

(** ** Properties of the rest of the code *)

Ltac unfold_rest :=
  unfold serve in *; unfold_model.

(** *** Removing and sorting *)

Lemma removeFirst_keeps {A} (p : A -> bool) (l : list A) (x : A) :
  In x l -> p x = false -> In x (removeFirst p l).
Proof.
  induction l as [|y l IH]; simpl; [contradiction|].
  intros [<- | I] P.
  - rewrite P. left; reflexivity.
  - destruct (p y); [exact I | right; exact (IH I P)].
Qed.

Lemma removeFirst_incl {A} (p : A -> bool) (l : list A) (x : A) :
  In x (removeFirst p l) -> In x l.
Proof.
  induction l as [|y l IH]; simpl; [contradiction|].
  destruct (p y); simpl; [intros I; right; exact I|].
  intros [E | I]; [left; exact E | right; exact (IH I)].
Qed.

(** With unique keys, nothing with the removed key is left. *)
Lemma removeFirst_key {A} (key : A -> nat) (id : nat) (l : list A) (x : A) :
  NoDup (map key l) ->
  In x (removeFirst (fun y => key y =? id)%nat l) -> key x <> id.
Proof.
  induction l as [|y l IH]; simpl; [contradiction|].
  intros ND. inversion ND as [|? ? Hnotin ND']; subst.
  destruct (key y =? id)%nat eqn:E.
  - apply Nat.eqb_eq in E. intros I K. apply Hnotin.
    rewrite E, <- K. apply in_map. exact I.
  - simpl. intros [<- | I]; [apply Nat.eqb_neq; exact E | exact (IH ND' I)].
Qed.

Lemma find_removeFirst {A} (key : A -> nat) (id : nat) (l : list A) :
  NoDup (map key l) ->
  find (fun y => key y =? id)%nat (removeFirst (fun y => key y =? id)%nat l)
  = None.
Proof.
  intros ND.
  destruct (find _ (removeFirst _ l)) as [x|] eqn:F; [|reflexivity].
  apply find_some in F. destruct F as [I K]. apply Nat.eqb_eq in K.
  exfalso. exact (removeFirst_key key id l x ND I K).
Qed.

Lemma slotCount_removeFirst (p : Booking -> bool) (v : Id) (d : Z)
  (l : list Booking) (b : Booking) :
  find p l = Some b ->
  slotCount v d l
  = (slotCount v d (removeFirst p l) + if sameSlot v d b then 1 else 0)%nat.
Proof.
  unfold slotCount. induction l as [|y l IH]; simpl; [discriminate|].
  destruct (p y) eqn:P.
  - intros H; inversion H; subst. destruct (sameSlot v d b); simpl; lia.
  - intros H. simpl. destruct (sameSlot v d y); simpl; rewrite (IH H); lia.
Qed.

Lemma uniqueSlots_removeFirst (p : Booking -> bool) (l : list Booking) :
  uniqueSlots l -> uniqueSlots (removeFirst p l).
Proof.
  intros U v d. destruct (find p l) as [b|] eqn:F.
  - specialize (U v d). rewrite (slotCount_removeFirst p v d l b F) in U. lia.
  - assert (E : removeFirst p l = l).
    { clear U. induction l as [|y l IH]; simpl in *; [reflexivity|].
      destruct (p y); [discriminate | rewrite (IH F); reflexivity]. }
    rewrite E. apply U.
Qed.

Lemma insertByDate_perm (b : Booking) (l : list Booking) :
  Permutation (b :: l) (insertByDate b l).
Proof.
  induction l as [|x l IH]; simpl; [apply Permutation_refl|].
  destruct (reservation_date x <=? reservation_date b).
  - apply Permutation_refl.
  - apply perm_trans with (x :: b :: l); [apply perm_swap|].
    apply perm_skip. exact IH.
Qed.

Lemma sortByDateDesc_perm (l : list Booking) :
  Permutation l (sortByDateDesc l).
Proof.
  induction l as [|b l IH]; simpl; [apply perm_nil|].
  apply perm_trans with (b :: sortByDateDesc l);
    [apply perm_skip; exact IH | apply insertByDate_perm].
Qed.

Lemma insertByDate_sorted (b : Booking) (l : list Booking) :
  StronglySorted latestFirst l -> StronglySorted latestFirst (insertByDate b l).
Proof.
  induction l as [|x l IH]; simpl; intros S.
  - constructor; [constructor | constructor].
  - inversion S as [|? ? S' F]; subst.
    destruct (Z.leb_spec (reservation_date x) (reservation_date b)) as [L|G].
    + constructor; [exact S|].
      constructor; [exact L|].
      apply Forall_impl with (P := latestFirst x); [|exact F].
      unfold latestFirst. intros a Ha. lia.
    + constructor; [exact (IH S')|].
      apply Forall_forall. intros a Ia.
      apply (Permutation_in _ (Permutation_sym (insertByDate_perm b l))) in Ia.
      destruct Ia as [<- | Ia].
      * unfold latestFirst. lia.
      * apply (proj1 (Forall_forall _ _) F a Ia).
Qed.

Lemma sortByDateDesc_sorted (l : list Booking) :
  StronglySorted latestFirst (sortByDateDesc l).
Proof.
  induction l as [|b l IH]; simpl; [constructor|].
  apply insertByDate_sorted. exact IH.
Qed.

Lemma find_booking_id (id : Id) (l : list Booking) (b : Booking) :
  find (fun x => b_id x =? id)%nat l = Some b -> b_id b = id.
Proof.
  intros H. apply find_some in H. destruct H as [_ H].
  apply Nat.eqb_eq in H. exact H.
Qed.

(** *** Deleting a booking *)

(** X1. deleteBooking, for a stored booking and a principal who is neither
    its creator nor an admin, answers 403 and leaves the store as it was;
    the venue's owner has no right to delete. *)
Theorem deleteBooking_guard
  (req : Request BookingBody) (db : DB) (booking : Booking) (u : User) :
  find (fun b => b_id b =? req_params_id req)%nat (bookings db) = Some booking ->
  req_user req = Some u ->
  user_id booking <> u_id u -> role u <> "admin" ->
  deleteBooking req db
  = (Respond (Next (AppError "Not authorized to delete this booking" 403)), db).
Proof.
  intros F Hu Hc Hr.
  apply Nat.eqb_neq in Hc. apply String.eqb_neq in Hr.
  unfold deleteBooking. unfold_rest. eval_with_hyps. reflexivity.
Qed.

(** X2. deleteBooking by the creator or an admin answers "Booking removed";
    with unique ids the booking can no longer be found, exactly the other
    bookings remain, and users, venues and images are untouched. *)
Theorem deleteBooking_removes
  (req : Request BookingBody) (db : DB) (booking : Booking) (u : User) :
  find (fun b => b_id b =? req_params_id req)%nat (bookings db) = Some booking ->
  req_user req = Some u ->
  user_id booking = u_id u \/ role u = "admin" ->
  NoDup (map b_id (bookings db)) ->
  let db' := snd (deleteBooking req db) in
  fst (deleteBooking req db) = Continue "Booking removed" /\
  find (fun b => b_id b =? req_params_id req)%nat (bookings db') = None /\
  (forall b, In b (bookings db') <->
             In b (bookings db) /\ b_id b <> req_params_id req) /\
  users db' = users db /\ venues db' = venues db /\ images db' = images db.
Proof.
  intros F Hu Auth ND db'.
  pose proof (find_booking_id _ _ _ F) as Hid.
  assert (A : (negb (user_id booking =? u_id u)%nat &&
               negb (role u =? "admin")%string) = false).
  { destruct Auth as [E|E]; rewrite E.
    - rewrite Nat.eqb_refl. reflexivity.
    - rewrite andb_false_r. reflexivity. }
  assert (R : deleteBooking req db
              = (Continue "Booking removed",
                 set_bookings db (removeFirst
                                    (fun x => b_id x =? req_params_id req)%nat
                                    (bookings db)))).
  { unfold deleteBooking. unfold_rest. eval_with_hyps. reflexivity. }
  subst db'. rewrite R. cbn [fst snd set_bookings bookings users venues images].
  split; [reflexivity|]. split; [apply (find_removeFirst b_id); exact ND|].
  split; [|repeat split].
  intros b. split.
  - intros I. split; [exact (removeFirst_incl _ _ _ I)|].
    exact (removeFirst_key b_id _ _ _ ND I).
  - intros [I N]. apply removeFirst_keeps; [exact I|].
    apply Nat.eqb_neq. exact N.
Qed.

Lemma sameSlot_own (b : Booking) :
  sameSlot (venue_id b) (reservation_date b) b = true.
Proof. unfold sameSlot. rewrite Nat.eqb_refl, Z.eqb_refl. reflexivity. Qed.

Lemma slotCount_zero_find (v : Id) (d : Z) (l : list Booking) :
  slotCount v d l = 0%nat ->
  find (fun b => sameSlot v d b && true) l = None /\
  slotTaken v d None l = false.
Proof.
  unfold slotCount, slotTaken. induction l as [|x l IH]; simpl; [split; reflexivity|].
  destruct (sameSlot v d x); simpl; [discriminate | exact IH].
Qed.

(** X3. Deleting a booking frees its slot: a complete request for the
    venue and date of a stored booking is refused as "already booked", and
    once the booking has been deleted by its creator or an admin the same
    request is answered 201 and stored as an upcoming booking of the
    requesting principal. *)
Theorem deleteBooking_frees_slot
  (reqD reqC : Request BookingBody) (db : DB) (booking : Booking)
  (u u' : User) (venue : Venue) (s c : string) (g : Z)
  (o1 : option Id) (o2 : option string) :
  uniqueSlots (bookings db) ->
  find (fun b => b_id b =? req_params_id reqD)%nat (bookings db) = Some booking ->
  req_user reqD = Some u ->
  user_id booking = u_id u \/ role u = "admin" ->
  req_errors reqC = [] -> req_user reqC = Some u' ->
  req_body reqC
  = mkBookingBody (Some (venue_id booking)) (Some s) (Some g) (Some c) o1 o2 ->
  s <> "" -> Date_parse s = Some (reservation_date booking) -> c <> "" ->
  find (fun v => v_id v =? venue_id booking)%nat (venues db) = Some venue ->
  v_status venue = "tasdiqlangan" ->
  1 <= g <= capacity venue ->
  let db1 := snd (deleteBooking reqD db) in
  let b := mkBooking (next_id db) (venue_id booking) (reservation_date booking)
                     g c (u_id u') "endi bo'ladigan" in
  run (createBooking reqC) db
  = (Next (AppError "Venue is already booked for this date" 400), db) /\
  run (createBooking reqC) db1
  = (Json 201 (BookingData (Some b)),
     bump_id (set_bookings db1 (bookings db1 ++ [b]))).
Proof.
  intros U F Hu Auth Herr Hu' Hbody Hs Hparse Hc Fv St [Hg1 Hg2] db1 b.
  pose proof (find_booking_id _ _ _ F) as Hid.
  apply String.eqb_neq in Hs, Hc.
  assert (G1 : (g <? 1) = false) by (apply Z.ltb_ge; lia).
  assert (G2 : (capacity venue <? g) = false) by (apply Z.ltb_ge; lia).
  assert (A : (negb (user_id booking =? u_id u)%nat &&
               negb (role u =? "admin")%string) = false).
  { destruct Auth as [E|E]; rewrite E.
    - rewrite Nat.eqb_refl. reflexivity.
    - rewrite andb_false_r. reflexivity. }
  assert (In1 : In booking (bookings db)) by exact (proj1 (find_some _ _ F)).
  assert (P : present (find (fun x => sameSlot (venue_id booking)
                                          (reservation_date booking) x && true)
                            (bookings db)) = true).
  { apply (find_present _ _ booking In1). rewrite sameSlot_own. reflexivity. }
  assert (R : deleteBooking reqD db
              = (Continue "Booking removed",
                 set_bookings db (removeFirst
                                    (fun x => b_id x =? req_params_id reqD)%nat
                                    (bookings db)))).
  { unfold deleteBooking. unfold_rest. eval_with_hyps. reflexivity. }
  assert (Z0 : slotCount (venue_id booking) (reservation_date booking)
                 (removeFirst (fun x => b_id x =? req_params_id reqD)%nat
                              (bookings db)) = 0%nat).
  { pose proof (slotCount_removeFirst
                  (fun x => b_id x =? req_params_id reqD)%nat
                  (venue_id booking) (reservation_date booking)
                  (bookings db) booking F) as C.
    rewrite sameSlot_own in C. specialize (U (venue_id booking)
                                             (reservation_date booking)). lia. }
  destruct (slotCount_zero_find _ _ _ Z0) as [N1 N2].
  split.
  - unfold createBooking. unfold_rest. rewrite Herr, Hbody.
    eval_with_hyps. reflexivity.
  - subst db1 b. rewrite R. cbn [snd].
    unfold createBooking, Booking_create. unfold_rest. rewrite Herr, Hbody.
    cbn. rewrite Fv. cbn. rewrite St. cbn. rewrite G2. cbn.
    rewrite Hparse. cbn. rewrite N1. cbn. rewrite Hu'. cbn.
    rewrite Hs. cbn. rewrite Hs. cbn. rewrite Hparse. cbn.
    rewrite G1. cbn. rewrite Hc. cbn. rewrite N2. cbn. reflexivity.
Qed.

(** *** Reading one booking *)

(** X4. getBookingById shows a stored booking to its creator, to an admin
    and to the owner of its venue, and answers 403 to everybody else; when
    the creator's user document is gone the answer is a TypeError for every
    principal, admins included. The store is never changed. *)
Theorem getBookingById_visibility
  (req : Request BookingBody) (db : DB) (booking : Booking) (u : User) :
  find (fun b => b_id b =? req_params_id req)%nat (bookings db) = Some booking ->
  req_user req = Some u ->
  let allowed :=
    (user_id booking =? u_id u)%nat || (role u =? "admin")%string ||
    match find (fun v => v_id v =? venue_id booking)%nat (venues db) with
    | Some v => (owner_id v =? u_id u)%nat
    | None => false
    end in
  getBookingById req db
  = (match find (fun x => u_id x =? user_id booking)%nat (users db) with
     | None => Respond (Next TypeError)
     | Some _ =>
         if allowed then Continue booking
         else Respond (Next (AppError "Not authorized to view this booking" 403))
     end, db).
Proof.
  intros F Hu allowed. subst allowed.
  unfold getBookingById. unfold_rest. eval_with_hyps.
  destruct (find (fun x => u_id x =? user_id booking)%nat (users db))
    as [c|] eqn:Fc; cbn; [|reflexivity].
  rewrite (find_id_user _ _ _ Fc).
  destruct (user_id booking =? u_id u)%nat; cbn; [reflexivity|].
  destruct (role u =? "admin")%string; cbn; [reflexivity|].
  destruct (find (fun v => v_id v =? venue_id booking)%nat (venues db))
    as [v|]; cbn; [|reflexivity].
  destruct (owner_id v =? u_id u)%nat; cbn; reflexivity.
Qed.

(** *** Listing bookings *)

(** X5. getUserBookings answers with the principal's own bookings and no
    others, each of them once, latest reservation first; the store is not
    changed. *)
Theorem getUserBookings_own_sorted
  (req : Request BookingBody) (db : DB) (u : User) :
  req_user req = Some u ->
  exists l,
    getUserBookings req db = (Continue l, db) /\
    Permutation (filter (fun b => user_id b =? u_id u)%nat (bookings db)) l /\
    (forall b, In b l <-> In b (bookings db) /\ user_id b = u_id u) /\
    StronglySorted latestFirst l.
Proof.
  intros Hu. eexists. split; [|split; [|split]].
  - unfold getUserBookings. unfold_rest. eval_with_hyps. reflexivity.
  - apply sortByDateDesc_perm.
  - intros b. rewrite <- (Nat.eqb_eq (user_id b) (u_id u)).
    rewrite <- (filter_In (fun b => user_id b =? u_id u)%nat).
    split; intros I.
    + exact (Permutation_in _ (Permutation_sym (sortByDateDesc_perm _)) I).
    + exact (Permutation_in _ (sortByDateDesc_perm _) I).
  - apply sortByDateDesc_sorted.
Qed.

(** X6. getVenueBookings answers 404 for an unknown venue and 403 for a
    principal who is neither the venue's owner nor an admin; the owner or an
    admin gets exactly the bookings of that venue, latest reservation
    first. *)
Theorem getVenueBookings_guard_and_listing
  (req : Request BookingBody) (db : DB) (u : User) :
  req_user req = Some u ->
  match find (fun v => v_id v =? req_params_id req)%nat (venues db) with
  | None =>
      getVenueBookings req db
      = (Respond (Next (AppError "Venue not found" 404)), db)
  | Some venue =>
      if (owner_id venue =? u_id u)%nat || (role u =? "admin")%string then
        exists l,
          getVenueBookings req db = (Continue l, db) /\
          (forall b, In b l <->
                     In b (bookings db) /\ venue_id b = req_params_id req) /\
          StronglySorted latestFirst l
      else
        getVenueBookings req db
        = (Respond (Next (AppError
                            "Not authorized to view bookings for this venue"
                            403)), db)
  end.
Proof.
  intros Hu.
  destruct (find (fun v => v_id v =? req_params_id req)%nat (venues db))
    as [venue|] eqn:F.
  - destruct (owner_id venue =? u_id u)%nat eqn:O;
      [|destruct (role u =? "admin")%string eqn:R]; cbn [orb].
    1,2: eexists; split; [|split];
      [ unfold getVenueBookings; unfold_rest; eval_with_hyps;
        rewrite ?andb_false_r; reflexivity
      | intros b; rewrite <- (Nat.eqb_eq (venue_id b) (req_params_id req));
        rewrite <- (filter_In (fun b => venue_id b =? req_params_id req)%nat);
        split; intros I;
        [ exact (Permutation_in _ (Permutation_sym (sortByDateDesc_perm _)) I)
        | exact (Permutation_in _ (sortByDateDesc_perm _) I) ]
      | apply sortByDateDesc_sorted ].
    unfold getVenueBookings. unfold_rest. eval_with_hyps. reflexivity.
  - unfold getVenueBookings. unfold_rest. eval_with_hyps. reflexivity.
Qed.

(** *** Changing a booking's status *)

Lemma filter_has_one {A} (p : A -> bool) (l : list A) (x : A) :
  In x l -> p x = true -> (1 <= List.length (filter p l))%nat.
Proof.
  induction l as [|z l IH]; simpl; [contradiction|].
  intros [<- | I] P.
  - rewrite P. simpl. lia.
  - destruct (p z); simpl; [lia | exact (IH I P)].
Qed.

Lemma filter_has_two {A} (p : A -> bool) (l : list A) (x y : A) :
  In x l -> In y l -> x <> y -> p x = true -> p y = true ->
  (2 <= List.length (filter p l))%nat.
Proof.
  induction l as [|z l IH]; simpl; [contradiction|].
  intros Ix Iy N Px Py.
  destruct Ix as [Ex | Ix], Iy as [Ey | Iy].
  - exfalso. apply N. rewrite <- Ex, <- Ey. reflexivity.
  - subst z. rewrite Px. simpl.
    pose proof (filter_has_one p l y Iy Py). lia.
  - subst z. rewrite Py. simpl.
    pose proof (filter_has_one p l x Ix Px). lia.
  - pose proof (IH Ix Iy N Px Py). destruct (p z); simpl; lia.
Qed.

(** With unique slots, no other booking holds the slot of a stored one. *)
Lemma own_slot_free (id : Id) (l : list Booking) (b : Booking) :
  find (fun x => b_id x =? id)%nat l = Some b ->
  uniqueSlots l ->
  slotTaken (venue_id b) (reservation_date b) (Some id) l = false.
Proof.
  intros F U. unfold slotTaken.
  destruct (existsb _ l) eqn:E; [|reflexivity].
  apply existsb_exists in E. destruct E as [x [Ix Px]].
  apply andb_true_iff in Px. destruct Px as [Sx Nx].
  apply negb_true_iff, Nat.eqb_neq in Nx.
  pose proof (find_booking_id _ _ _ F) as Hid.
  apply find_some in F. destruct F as [Ib _].
  assert (N : x <> b) by (intros ->; contradiction).
  pose proof (filter_has_two _ l x b Ix Ib N Sx (sameSlot_own b)) as T.
  specialize (U (venue_id b) (reservation_date b)). unfold slotCount in U. lia.
Qed.

(** X7. changeBookingStatus, called by an admin or by the owner of the
    booking's venue with a status of the enumeration, stores exactly that
    status on the booking, whatever the status was before (a past booking
    can be set back to upcoming), and changes no other field and no other
    booking. *)
Theorem changeBookingStatus_sets_status
  (req : Request BookingBody) (db : DB) (booking : Booking) (u : User)
  (s : string) :
  req_errors req = [] ->
  find (fun b => b_id b =? req_params_id req)%nat (bookings db) = Some booking ->
  req_user req = Some u ->
  (role u = "admin" \/
   exists venue,
     find (fun v => v_id v =? venue_id booking)%nat (venues db) = Some venue /\
     owner_id venue = u_id u) ->
  bb_status (req_body req) = Some s ->
  In s bookingStatusEnum ->
  uniqueSlots (bookings db) ->
  let b' := mkBooking (b_id booking) (venue_id booking)
                      (reservation_date booking) (guest_count booking)
                      (client_phone booking) (user_id booking) s in
  run (changeBookingStatus req) db
  = (Json 200 (BookingData (Some b')),
     set_bookings db (replaceFirst (fun x => b_id x =? req_params_id req)%nat
                                   b' (bookings db))).
Proof.
  intros Herr F Hu Auth Hs Hin U b'. subst b'.
  pose proof (own_slot_free _ _ _ F U) as Free.
  unfold changeBookingStatus, Booking_findByIdAndUpdate, bookingStatusPatch.
  unfold_rest.
  destruct Auth as [R | [venue [Fv O]]].
  - apply String.eqb_eq in R.
    destruct Hin as [<- | [<- | []]]; eval_with_hyps; reflexivity.
  - apply Nat.eqb_eq in O.
    destruct (role u =? "admin")%string eqn:R;
      destruct Hin as [<- | [<- | []]]; eval_with_hyps; reflexivity.
Qed.

(** *** The slot invariant under the other writes *)

#[local] Arguments Booking_findByIdAndUpdate : simpl never.

(** X8. Given unique booking ids, updateBooking, changeBookingStatus and
    deleteBooking keep at most one booking per (venue_id, reservation_date)
    pair, for every request and principal; in particular an update that
    moves a booking onto a taken slot by changing [venue_id], which the
    controller's own conflict check does not look at, is refused by the
    unique index. *)
Theorem booking_writes_keep_uniqueSlots
  (req : Request BookingBody) (db : DB) :
  NoDup (map b_id (bookings db)) ->
  uniqueSlots (bookings db) ->
  uniqueSlots (bookings (snd (run (updateBooking req) db))) /\
  uniqueSlots (bookings (snd (run (changeBookingStatus req) db))) /\
  uniqueSlots (bookings (snd (deleteBooking req db))).
Proof.
  intros ND U.
  assert (K : forall p, uniqueSlots (bookings
                (snd (Booking_findByIdAndUpdate (req_params_id req) p db)))).
  { intros p.
    destruct (Booking_findByIdAndUpdate_store (req_params_id req) p db)
      as [-> | [b' [-> T]]]; [exact U|].
    cbn. apply uniqueSlots_replace; assumption. }
  split; [exact (updateBooking_keeps_uniqueSlots req db ND U)|]. split.
  - unfold changeBookingStatus. unfold_rest.
    repeat (cbn; case_stuck); cbn; try exact U.
    all: match goal with
         | H : Booking_findByIdAndUpdate _ ?p _ = (_, _) |- _ =>
             specialize (K p); rewrite H in K; exact K
         end.
  - unfold deleteBooking. unfold_rest.
    repeat (cbn; case_stuck); cbn; try exact U.
    all: apply uniqueSlots_removeFirst; exact U.
Qed.

(** *** Creating a venue *)




(** *** Status and ownership in venue updates *)

Lemma map_replaceFirst {A B} (f : A -> B) (p : A -> bool) (x y : A)
  (l : list A) :
  find p l = Some y -> f x = f y -> map f (replaceFirst p x l) = map f l.
Proof.
  intros F E. induction l as [|z l IH]; [reflexivity|].
  unfold replaceFirst; fold (@replaceFirst A). simpl in F. simpl.
  destruct (p z); simpl.
  - inversion F; subst. rewrite E. reflexivity.
  - rewrite (IH F). reflexivity.
Qed.



(** *** Admin-only routes *)

Lemma serve_protect {B A} (mws : list (Request B -> Handler (Request B)))
  (controller : Request B -> Handler A) (req : Request B) (db : DB) (u : User) :
  authenticated req db u ->
  serve (protect :: mws) controller req db
  = serve mws controller (set_user req u) db.
Proof.
  intros Auth. unfold authenticated in Auth.
  unfold serve. cbn [chain]. unfold bind. rewrite Auth. reflexivity.
Qed.

(** X12. The routes guarded by [authorize('admin')] (approve a venue, list
    all bookings, create, update and delete users) answer 403 to every
    authenticated principal whose role is not admin, the venue's owner
    included, before the controller runs: the store is left as it was. *)
Theorem admin_only_routes
  (db : DB) (u : User) (salt : string)
  (reqV : Request VenueBody) (reqB : Request BookingBody)
  (reqU : Request UserBody) :
  role u <> "admin" ->
  (authenticated reqV db u ->
   PUT_venues_id_approve reqV db = (roleRefused u, db)) /\
  (authenticated reqB db u ->
   GET_bookings reqB db = (Respond (roleRefused u), db)) /\
  (authenticated reqU db u ->
   POST_users salt reqU db = (roleRefused u, db) /\
   PUT_users_id salt reqU db = (roleRefused u, db) /\
   DELETE_users_id reqU db = (Respond (roleRefused u), db)).
Proof.
  intros Hr. apply String.eqb_neq in Hr.
  split; [|split].
  - intros Auth.
    unfold PUT_venues_id_approve. rewrite (route_protect _ _ _ _ _ Auth).
    unfold roleRefused. unfold_rest. cbn. rewrite Hr. reflexivity.
  - intros Auth.
    unfold GET_bookings. rewrite (serve_protect _ _ _ _ _ Auth).
    unfold roleRefused. unfold_rest. cbn. rewrite Hr. reflexivity.
  - intros Auth. split; [|split].
    + unfold POST_users. rewrite (route_protect _ _ _ _ _ Auth).
      unfold roleRefused. unfold_rest. cbn. rewrite Hr. reflexivity.
    + unfold PUT_users_id. rewrite (route_protect _ _ _ _ _ Auth).
      unfold roleRefused. unfold_rest. cbn. rewrite Hr. reflexivity.
    + unfold DELETE_users_id. rewrite (serve_protect _ _ _ _ _ Auth).
      unfold roleRefused. unfold_rest. cbn. rewrite Hr. reflexivity.
Qed.

(** *** Deleting a venue *)

Lemma deleteVenue_run (req : Request VenueBody) (db : DB) (venue : Venue)
  (u : User) :
  find (fun v => v_id v =? req_params_id req)%nat (venues db) = Some venue ->
  req_user req = Some u ->
  (owner_id venue =? u_id u)%nat || (role u =? "admin")%string = true ->
  deleteVenue req db
  = (Continue "Venue removed",
     mkDB (users db)
          (removeFirst (fun x => v_id x =? req_params_id req)%nat (venues db))
          (bookings db)
          (filter (fun i => negb (i_venue_id i =? req_params_id req)%nat)
                  (images db))
          (next_id db)).
Proof.
  intros F Hu A.
  pose proof (find_id_venue _ _ _ F) as Hid.
  assert (A' : negb (owner_id venue =? u_id u)%nat &&
               negb (role u =? "admin")%string = false).
  { rewrite <- negb_orb, A. reflexivity. }
  unfold deleteVenue. unfold_rest. eval_with_hyps. reflexivity.
Qed.

(** X13. deleteVenue answers 403 to a principal who is neither the venue's
    owner nor an admin and leaves the store as it was; for the owner or an
    admin it removes the venue (with unique ids the venue can no longer be
    found) and exactly the images that reference it, and it leaves users and
    bookings untouched, so the venue's bookings stay behind. *)
Theorem deleteVenue_cascade
  (req : Request VenueBody) (db : DB) (venue : Venue) (u : User) :
  find (fun v => v_id v =? req_params_id req)%nat (venues db) = Some venue ->
  req_user req = Some u ->
  NoDup (map v_id (venues db)) ->
  let db' := snd (deleteVenue req db) in
  if (owner_id venue =? u_id u)%nat || (role u =? "admin")%string then
    fst (deleteVenue req db) = Continue "Venue removed" /\
    find (fun v => v_id v =? req_params_id req)%nat (venues db') = None /\
    (forall v, In v (venues db') <->
               In v (venues db) /\ v_id v <> req_params_id req) /\
    (forall i, In i (images db') <->
               In i (images db) /\ i_venue_id i <> req_params_id req) /\
    bookings db' = bookings db /\ users db' = users db
  else
    deleteVenue req db
    = (Respond (Next (AppError "Not authorized to delete this venue" 403)), db).
Proof.
  intros F Hu ND db'.
  destruct ((owner_id venue =? u_id u)%nat || (role u =? "admin")%string)
    eqn:A.
  - subst db'. rewrite (deleteVenue_run req db venue u F Hu A).
    cbn [fst snd venues images bookings users].
    split; [reflexivity|].
    split; [apply (find_removeFirst v_id); exact ND|].
    split; [|split; [|split; reflexivity]].
    + intros v. split.
      * intros I. split; [exact (removeFirst_incl _ _ _ I)|].
        exact (removeFirst_key v_id _ _ _ ND I).
      * intros [I N]. apply removeFirst_keeps; [exact I|].
        apply Nat.eqb_neq. exact N.
    + intros i. rewrite filter_In, negb_true_iff, Nat.eqb_neq. tauto.
  - apply orb_false_iff in A. destruct A as [O R].
    unfold deleteVenue. unfold_rest. eval_with_hyps. reflexivity.
Qed.

(** X14. After deleteVenue the bookings of the venue are orphans: with
    unique venue ids, a later createBooking for the deleted venue is answered
    404, and an update of one of its bookings that carries a guest count (and
    no date) ends in a TypeError, because the re-fetched venue is [null];
    neither changes the store. *)
Theorem deleteVenue_orphans_bookings
  (reqV : Request VenueBody) (db : DB) (venue : Venue) (u : User) :
  find (fun v => v_id v =? req_params_id reqV)%nat (venues db) = Some venue ->
  req_user reqV = Some u ->
  owner_id venue = u_id u \/ role u = "admin" ->
  NoDup (map v_id (venues db)) ->
  let db' := snd (deleteVenue reqV db) in
  bookings db' = bookings db /\
  (forall reqC : Request BookingBody,
      req_errors reqC = [] ->
      bb_venue_id (req_body reqC) = Some (req_params_id reqV) ->
      run (createBooking reqC) db'
      = (Next (AppError "Venue not found" 404), db')) /\
  (forall (reqU : Request BookingBody) booking p g,
      req_errors reqU = [] ->
      find (fun b => b_id b =? req_params_id reqU)%nat (bookings db)
      = Some booking ->
      venue_id booking = req_params_id reqV ->
      req_user reqU = Some p ->
      user_id booking = u_id p \/ role p = "admin" ->
      bb_reservation_date (req_body reqU) = None ->
      bb_guest_count (req_body reqU) = Some g -> g <> 0 ->
      run (updateBooking reqU) db' = (Next TypeError, db')).
Proof.
  intros F Hu Auth ND db'.
  assert (A : (owner_id venue =? u_id u)%nat || (role u =? "admin")%string
              = true).
  { destruct Auth as [E|E]; rewrite E.
    - rewrite Nat.eqb_refl. reflexivity.
    - rewrite orb_true_r. reflexivity. }
  subst db'. rewrite (deleteVenue_run reqV db venue u F Hu A). cbn [snd].
  remember (mkDB (users db)
                 (removeFirst (fun x => v_id x =? req_params_id reqV)%nat
                              (venues db))
                 (bookings db)
                 (filter (fun i => negb (i_venue_id i =? req_params_id reqV)%nat)
                         (images db))
                 (next_id db)) as db' eqn:E.
  assert (Eb : bookings db' = bookings db) by (rewrite E; reflexivity).
  assert (Gone : find (fun v => v_id v =? req_params_id reqV)%nat (venues db')
                 = None).
  { rewrite E. cbn [venues]. apply (find_removeFirst v_id). exact ND. }
  clear E.
  split; [exact Eb|]. split.
  - intros reqC Herr Hid.
    unfold createBooking. unfold_rest. eval_with_hyps. reflexivity.
  - intros reqU booking p g Herr Fb Hv Hp AuthB Hd Hg Hg0.
    assert (Fb' : find (fun b => b_id b =? req_params_id reqU)%nat
                       (bookings db') = Some booking)
      by (rewrite Eb; exact Fb).
    rewrite <- Hv in Gone.
    assert (AB : negb (user_id booking =? u_id p)%nat &&
                 negb (role p =? "admin")%string = false).
    { destruct AuthB as [E|E]; rewrite E.
      - rewrite Nat.eqb_refl. reflexivity.
      - rewrite andb_false_r. reflexivity. }
    apply Z.eqb_neq in Hg0.
    unfold updateBooking. unfold_rest. eval_with_hyps. reflexivity.
Qed.

(** *** Filtering venues *)

Lemma bound_ok (path : string) (o : option string) (db : DB) :
  (forall s, o = Some s -> s <> "" -> Number s <> None) ->
  exists r,
    bound path o db = (Continue r, db) /\
    (forall z, atLeast r z = true <->
               forall s m, o = Some s -> s <> "" -> Number s = Some m -> m <= z) /\
    (forall z, atMost r z = true <->
               forall s m, o = Some s -> s <> "" -> Number s = Some m -> z <= m).
Proof.
  intros H. unfold bound. destruct o as [s|]; cbn.
  - destruct (String.eqb_spec s "") as [E|E]; cbn.
    + exists None. split; [reflexivity|].
      split; intros z; cbn; (split; [|reflexivity]);
        intros _ s0 m Hs N; inversion Hs; subst; contradiction.
    + destruct (Number s) as [m|] eqn:N.
      * exists (Some m). split; [reflexivity|].
        split; intros z; cbn; rewrite Z.leb_le; split.
        -- intros L s0 m0 Hs _ N0. inversion Hs; subst.
           rewrite N in N0. inversion N0; subst. exact L.
        -- intros K. exact (K s m eq_refl E N).
        -- intros L s0 m0 Hs _ N0. inversion Hs; subst.
           rewrite N in N0. inversion N0; subst. exact L.
        -- intros K. exact (K s m eq_refl E N).
      * exfalso. exact (H s eq_refl E N).
  - exists None. split; [reflexivity|].
    split; intros z; cbn; (split; [|reflexivity]);
      intros _ s0 m Hs; discriminate.
Qed.

Lemma filter_all {A} (p : A -> bool) (l : list A) :
  (forall x, p x = true) -> filter p l = l.
Proof.
  intros H. induction l as [|x l IH]; simpl; [reflexivity|].
  rewrite (H x), IH. reflexivity.
Qed.

(** X15. getVenues, when every numeric bound of the query is a number,
    answers with exactly the stored venues that meet all the conditions
    present in the query (district, status, capacity between the bounds,
    price between the bounds), in store order; conditions that are absent or
    empty do not constrain, and the empty query returns every venue. The
    store is not changed. *)
Theorem getVenues_filter (q : VenueQuery) (db : DB) :
  (forall s, In (Some s) [q_minCapacity q; q_maxCapacity q;
                          q_minPrice q; q_maxPrice q] ->
             s <> "" -> Number s <> None) ->
  exists l,
    getVenues q db = (Continue l, db) /\
    (forall v,
        In v l <->
        In v (venues db) /\
        (forall d, q_district q = Some d -> district_id v = d) /\
        (forall s, q_status q = Some s -> s <> "" -> v_status v = s) /\
        (forall s m, q_minCapacity q = Some s -> s <> "" ->
                     Number s = Some m -> m <= capacity v) /\
        (forall s m, q_maxCapacity q = Some s -> s <> "" ->
                     Number s = Some m -> capacity v <= m) /\
        (forall s m, q_minPrice q = Some s -> s <> "" ->
                     Number s = Some m -> m <= price_seat v) /\
        (forall s m, q_maxPrice q = Some s -> s <> "" ->
                     Number s = Some m -> price_seat v <= m)) /\
    (q = mkVenueQuery None None None None None None -> l = venues db).
Proof.
  intros H.
  destruct (bound_ok "capacity" (q_minCapacity q) db) as [lo [B1 [L1 _]]].
  { intros s E. apply H. rewrite <- E. simpl. auto. }
  destruct (bound_ok "capacity" (q_maxCapacity q) db) as [hi [B2 [_ L2]]].
  { intros s E. apply H. rewrite <- E. simpl. auto. }
  destruct (bound_ok "price_seat" (q_minPrice q) db) as [plo [B3 [L3 _]]].
  { intros s E. apply H. rewrite <- E. simpl. auto. }
  destruct (bound_ok "price_seat" (q_maxPrice q) db) as [phi [B4 [_ L4]]].
  { intros s E. apply H. rewrite <- E. simpl. auto. }
  exists (filter (matchesQuery q lo hi plo phi) (venues db)).
  split; [|split].
  - unfold getVenues, bind. rewrite B1, B2, B3, B4. reflexivity.
  - intros v. rewrite filter_In. unfold matchesQuery.
    rewrite !andb_true_iff, L1, L2, L3, L4.
    assert (D : match q_district q with
                | Some d => (district_id v =? d)%nat
                | None => true
                end = true <->
                forall d, q_district q = Some d -> district_id v = d).
    { destruct (q_district q) as [d|].
      - rewrite Nat.eqb_eq. split.
        + intros E d0 E0. inversion E0; subst. reflexivity.
        + intros K. exact (K d eq_refl).
      - split; [intros _ d E; discriminate | reflexivity]. }
    assert (S : (if truthy (q_status q)
                 then (v_status v =? patched (q_status q) "")%string
                 else true) = true <->
                forall s, q_status q = Some s -> s <> "" -> v_status v = s).
    { destruct (q_status q) as [s|]; cbn.
      - destruct (String.eqb_spec s "") as [E|E]; cbn.
        + split; [|reflexivity]. intros _ s0 E0 N. inversion E0; subst.
          contradiction.
        + rewrite String.eqb_eq. split.
          * intros K s0 E0 _. inversion E0; subst. reflexivity.
          * intros K. exact (K s eq_refl E).
      - split; [intros _ s E; discriminate | reflexivity]. }
    rewrite D, S.
    clear -v. tauto.
  - intros ->. unfold bound in B1, B2, B3, B4. cbn in B1, B2, B3, B4.
    inversion B1; inversion B2; inversion B3; inversion B4; subst.
    apply filter_all. intros x. reflexivity.
Qed.

(** *** Past bookings and the venue page *)

Lemma replaceFirst_in {A} (key : A -> nat) (id : nat) (x : A) (l : list A)
  (b : A) :
  NoDup (map key l) ->
  In b (replaceFirst (fun y => key y =? id)%nat x l) ->
  b = x \/ (In b l /\ key b <> id).
Proof.
  induction l as [|y l IH]; [contradiction|].
  unfold replaceFirst; fold (@replaceFirst A).
  intros ND. inversion ND as [|? ? Hnotin ND']; subst.
  destruct (key y =? id)%nat eqn:E.
  - apply Nat.eqb_eq in E. intros [<- | I]; [left; reflexivity|].
    right. split; [right; exact I|].
    intros K. apply Hnotin. rewrite E, <- K. apply in_map. exact I.
  - apply Nat.eqb_neq in E. intros [<- | I].
    + right. split; [left; reflexivity | exact E].
    + destruct (IH ND' I) as [-> | [I' K]];
        [left; reflexivity | right; split; [right; exact I' | exact K]].
Qed.

(** The status patch on a stored booking, given unique slots. *)
Lemma status_patch_run (id : Id) (s : string) (db : DB) (booking : Booking) :
  find (fun b => b_id b =? id)%nat (bookings db) = Some booking ->
  In s bookingStatusEnum ->
  uniqueSlots (bookings db) ->
  let b' := mkBooking (b_id booking) (venue_id booking)
                      (reservation_date booking) (guest_count booking)
                      (client_phone booking) (user_id booking) s in
  Booking_findByIdAndUpdate id (bookingStatusPatch (Some s)) db
  = (Continue (Some b'),
     set_bookings db (replaceFirst (fun x => b_id x =? id)%nat b'
                                   (bookings db))).
Proof.
  intros F Hin U b'. subst b'.
  pose proof (own_slot_free _ _ _ F U) as Free.
  unfold Booking_findByIdAndUpdate, bookingStatusPatch. unfold_rest.
  destruct Hin as [<- | [<- | []]]; eval_with_hyps; reflexivity.
Qed.

(** X16. Once an admin or the venue's owner has set a booking to
    "bo'lib o'tgan", the venue page no longer shows it: getVenueById lists
    the booking while it is upcoming and, with unique booking ids, lists no
    booking with that id after the status change. *)
Theorem past_booking_leaves_venue_page
  (reqS : Request BookingBody) (reqG : Request VenueBody) (db : DB)
  (booking : Booking) (venue : Venue) (u : User) :
  req_errors reqS = [] ->
  find (fun b => b_id b =? req_params_id reqS)%nat (bookings db) = Some booking ->
  req_user reqS = Some u ->
  find (fun v => v_id v =? venue_id booking)%nat (venues db) = Some venue ->
  role u = "admin" \/ owner_id venue = u_id u ->
  bb_status (req_body reqS) = Some "bo'lib o'tgan" ->
  uniqueSlots (bookings db) ->
  NoDup (map b_id (bookings db)) ->
  b_status booking = "endi bo'ladigan" ->
  req_params_id reqG = venue_id booking ->
  let db' := snd (run (changeBookingStatus reqS) db) in
  exists view view',
    getVenueById reqG db = (Continue view, db) /\
    In booking (view_bookings view) /\
    fst (run (changeBookingStatus reqS) db)
    = Json 200 (BookingData (Some (mkBooking
        (b_id booking) (venue_id booking) (reservation_date booking)
        (guest_count booking) (client_phone booking) (user_id booking)
        "bo'lib o'tgan"))) /\
    getVenueById reqG db' = (Continue view', db') /\
    forall b, In b (view_bookings view') -> b_id b <> b_id booking.
Proof.
  intros Herr F Hu Fv Auth Hs U ND St Hg db'.
  pose proof (find_booking_id _ _ _ F) as Hid.
  pose proof (find_id_venue _ _ _ Fv) as Hvid.
  pose proof (status_patch_run (req_params_id reqS) "bo'lib o'tgan" db booking
                F (or_introl eq_refl) U) as P.
  cbv zeta in P.
  assert (A : (if negb (role u =? "admin")%string
               then negb (owner_id venue =? u_id u)%nat else false) = false).
  { destruct Auth as [E|E]; rewrite E.
    - reflexivity.
    - rewrite Nat.eqb_refl. destruct (negb _); reflexivity. }
  assert (R : run (changeBookingStatus reqS) db
              = (Json 200 (BookingData (Some (mkBooking
                   (b_id booking) (venue_id booking) (reservation_date booking)
                   (guest_count booking) (client_phone booking)
                   (user_id booking) "bo'lib o'tgan"))),
                 set_bookings db
                   (replaceFirst (fun x => b_id x =? req_params_id reqS)%nat
                      (mkBooking
                         (b_id booking) (venue_id booking)
                         (reservation_date booking) (guest_count booking)
                         (client_phone booking) (user_id booking)
                         "bo'lib o'tgan") (bookings db)))).
  { unfold changeBookingStatus, run, bind, validationResult, theUser, when,
      ret, next, Booking_findById, Venue_findById, getDB.
    rewrite Herr. cbn. rewrite F. cbn. rewrite Fv, Hu. cbn.
    destruct (negb (role u =? "admin")%string) eqn:Ra; cbn.
    - cbn in A. rewrite A. cbn. rewrite Hs, P. reflexivity.
    - rewrite Hs, P. reflexivity. }
  subst db'. rewrite R. cbn [fst snd].
  eexists. eexists. split; [|split; [|split; [reflexivity|split]]].
  - unfold getVenueById. unfold_rest. rewrite Hg. eval_with_hyps. reflexivity.
  - cbn [view_bookings]. apply filter_In. split.
    + apply find_some in F. tauto.
    + rewrite ?Hvid, Nat.eqb_refl, St. reflexivity.
  - unfold getVenueById. unfold_rest. rewrite Hg. cbn. rewrite Fv. cbn.
    reflexivity.
  - cbn [view_bookings]. intros b I. apply filter_In in I.
    destruct I as [I C]. apply andb_true_iff in C. destruct C as [_ C].
    apply String.eqb_eq in C.
    destruct (replaceFirst_in b_id _ _ _ _ ND I) as [-> | [_ K]].
    + cbn in C. discriminate.
    + rewrite Hid. exact K.
Qed.

(** *** The user collection stays well formed *)

#[local] Arguments removeFirst : simpl never.

Lemma NoDup_snoc {A} (l : list A) (x : A) :
  NoDup l -> ~ In x l -> NoDup (l ++ [x]).
Proof.
  induction l as [|y l IH]; simpl; intros ND N.
  - constructor; [intros [] | constructor].
  - inversion ND as [|? ? Hy ND']; subst. constructor.
    + intros I. apply in_app_or in I. destruct I as [I | [E | []]].
      * exact (Hy I).
      * apply N. left. symmetry. exact E.
    + apply IH; [exact ND' | intros I; apply N; right; exact I].
Qed.

Lemma replaceFirst_incl {A} (p : A -> bool) (x : A) (l : list A) (b : A) :
  In b (replaceFirst p x l) -> b = x \/ In b l.
Proof.
  induction l as [|y l IH]; [contradiction|].
  unfold replaceFirst; fold (@replaceFirst A).
  destruct (p y); intros [E | I].
  - left. symmetry. exact E.
  - right. right. exact I.
  - right. left. exact E.
  - destruct (IH I) as [-> | I']; [left; reflexivity | right; right; exact I'].
Qed.

Lemma replaceFirst_others {A} (p : A -> bool) (x : A) (l : list A) (b : A) :
  In b l -> p b = false -> In b (replaceFirst p x l).
Proof.
  induction l as [|y l IH]; [contradiction|].
  unfold replaceFirst; fold (@replaceFirst A).
  intros [<- | I] P.
  - rewrite P. left. reflexivity.
  - destruct (p y); right; [exact I | exact (IH I P)].
Qed.

Lemma map_id_replaceFirst (id : Id) (x : User) (l : list User) :
  u_id x = id ->
  map u_id (replaceFirst (fun u => u_id u =? id)%nat x l) = map u_id l.
Proof.
  intros E. induction l as [|y l IH]; [reflexivity|].
  unfold replaceFirst; fold (@replaceFirst User).
  destruct (u_id y =? id)%nat eqn:P; simpl.
  - apply Nat.eqb_eq in P. rewrite E, P. reflexivity.
  - rewrite IH. reflexivity.
Qed.

Lemma usernames_replaceFirst (id : Id) (x : User) (l : list User) :
  NoDup (map u_id l) -> NoDup (map username l) ->
  (forall y, In y l -> username y = username x -> u_id y = id) ->
  NoDup (map username (replaceFirst (fun u => u_id u =? id)%nat x l)).
Proof.
  induction l as [|z l IH]; [intros; constructor|].
  unfold replaceFirst; fold (@replaceFirst User).
  intros NI NU K. simpl in NI, NU.
  inversion NI as [|? ? Hi NI']; inversion NU as [|? ? Hu NU']; subst.
  destruct (u_id z =? id)%nat eqn:P; simpl.
  - apply Nat.eqb_eq in P. constructor; [|exact NU'].
    intros I. apply in_map_iff in I. destruct I as [y [Ey Iy]].
    apply Hi. rewrite P, <- (K y (or_intror Iy) Ey). apply in_map. exact Iy.
  - apply Nat.eqb_neq in P. constructor.
    + intros I. apply in_map_iff in I. destruct I as [y [Ey Iy]].
      destruct (replaceFirst_incl _ _ _ _ Iy) as [-> | Iy'].
      * apply P. apply (K z (or_introl eq_refl)). symmetry. exact Ey.
      * apply Hu. rewrite <- Ey. apply in_map. exact Iy'.
    + apply (IH NI' NU'). intros y Iy. apply K. right. exact Iy.
Qed.

Lemma removeFirst_NoDup_map {A B} (f : A -> B) (p : A -> bool) (l : list A) :
  NoDup (map f l) -> NoDup (map f (removeFirst p l)).
Proof.
  induction l as [|y l IH]; [intros; constructor|].
  unfold removeFirst; fold (@removeFirst A).
  simpl. intros ND. inversion ND as [|? ? Hy ND']; subst.
  destruct (p y); [exact ND'|]. simpl. constructor; [|exact (IH ND')].
  intros I. apply Hy. apply in_map_iff in I. destruct I as [x [E Ix]].
  rewrite <- E. apply in_map. exact (removeFirst_incl _ _ _ Ix).
Qed.

Lemma wf_append (db : DB) (u : User) :
  usersWellFormed db ->
  u_id u = next_id db ->
  existsb (fun x => username x =? username u)%string (users db) = false ->
  usersWellFormed (bump_id (set_users db (users db ++ [u]))).
Proof.
  intros [NI [NU F]] Hid Hex. unfold usersWellFormed. cbn.
  rewrite !map_app. cbn. split; [|split].
  - apply NoDup_snoc; [exact NI|]. intros I.
    apply in_map_iff in I. destruct I as [x [E Ix]].
    pose proof (proj1 (Forall_forall _ _) F x Ix) as L. cbn in L. lia.
  - apply NoDup_snoc; [exact NU|]. intros I.
    apply in_map_iff in I. destruct I as [x [E Ix]].
    assert (T : existsb (fun x => username x =? username u)%string (users db)
                = true).
    { apply existsb_exists. exists x. split; [exact Ix|].
      apply String.eqb_eq. exact E. }
    rewrite T in Hex. discriminate.
  - apply Forall_app. split.
    + apply Forall_impl with (P := fun u => (u_id u < next_id db)%nat);
        [intros a Ha; lia | exact F].
    + constructor; [lia | constructor].
Qed.

Lemma wf_replace (db : DB) (id : Id) (x : User) :
  usersWellFormed db ->
  u_id x = id ->
  existsb (fun u => (username u =? username x)%string && negb (u_id u =? id)%nat)
          (users db) = false ->
  usersWellFormed
    (set_users db (replaceFirst (fun u => u_id u =? id)%nat x (users db))).
Proof.
  intros [NI [NU F]] Hid Hex. unfold usersWellFormed. cbn.
  rewrite (map_id_replaceFirst id x (users db) Hid).
  split; [exact NI|]. split.
  - apply usernames_replaceFirst; [exact NI | exact NU|].
    intros y Iy Ey. destruct (Nat.eq_dec (u_id y) id) as [E|N]; [exact E|].
    exfalso.
    assert (T : existsb (fun u => (username u =? username x)%string &&
                                  negb (u_id u =? id)%nat) (users db) = true).
    { apply existsb_exists. exists y. split; [exact Iy|].
      rewrite Ey, String.eqb_refl. apply negb_true_iff, Nat.eqb_neq. exact N. }
    rewrite T in Hex. discriminate.
  - apply Forall_map with (f := u_id) (P := fun n => (n < next_id db)%nat).
    rewrite (map_id_replaceFirst id x (users db) Hid).
    apply Forall_map. exact F.
Qed.

Lemma wf_remove (db : DB) (p : User -> bool) :
  usersWellFormed db ->
  usersWellFormed (set_users db (removeFirst p (users db))).
Proof.
  intros [NI [NU F]]. unfold usersWellFormed. cbn.
  split; [apply removeFirst_NoDup_map; exact NI|].
  split; [apply removeFirst_NoDup_map; exact NU|].
  apply Forall_forall. intros x Ix.
  exact (proj1 (Forall_forall _ _) F x (removeFirst_incl _ _ _ Ix)).
Qed.

Lemma User_create_store salt fn ln un pw rl (db : DB) :
  snd (User_create salt fn ln un pw rl db) = db \/
  exists u,
    User_create salt fn ln un pw rl db
    = (Continue u, bump_id (set_users db (users db ++ [u]))) /\
    u_id u = next_id db /\
    existsb (fun x => username x =? username u)%string (users db) = false.
Proof.
  unfold User_create. unfold_rest.
  repeat (cbn; case_stuck); cbn; try (left; reflexivity); try congruence.
  all: right; eexists; split; [reflexivity|]; split; [reflexivity|];
    cbn; assumption.
Qed.

Lemma User_save_store salt (doc : User) np (db : DB) :
  snd (User_save salt doc np db) = db \/
  exists doc',
    snd (User_save salt doc np db)
    = set_users db (replaceFirst (fun u => u_id u =? u_id doc)%nat doc'
                                 (users db)) /\
    u_id doc' = u_id doc /\ username doc' = username doc /\
    role doc' = role doc /\
    existsb (fun u => (username u =? username doc)%string &&
                      negb (u_id u =? u_id doc)%nat) (users db) = false.
Proof.
  unfold User_save. unfold_rest.
  repeat (cbn; case_stuck); cbn; try (left; reflexivity); try congruence.
  all: right; eexists; split; [reflexivity|]; repeat split; assumption.
Qed.

#[local] Arguments User_create : simpl never.
#[local] Arguments User_save : simpl never.

(** X17. Every operation that writes users (register, createUser,
    updateUser, updateProfile, deleteUser) keeps the user collection well
    formed: usernames stay unique, and so do ids, for every request. *)
Theorem user_writes_keep_usernames_unique
  (salt : string) (req : Request UserBody) (db : DB) :
  usersWellFormed db ->
  usersWellFormed (snd (run (register salt req) db)) /\
  usersWellFormed (snd (run (createUser salt req) db)) /\
  usersWellFormed (snd (run (updateUser salt req) db)) /\
  usersWellFormed (snd (run (updateProfile salt req) db)) /\
  usersWellFormed (snd (deleteUser req db)).
Proof.
  intros W.
  assert (C : forall fn ln un pw rl,
             usersWellFormed (snd (User_create salt fn ln un pw rl db))).
  { intros fn ln un pw rl.
    destruct (User_create_store salt fn ln un pw rl db)
      as [-> | [u [-> [Hid Hex]]]]; [exact W|].
    cbn [snd]. apply wf_append; assumption. }
  assert (S : forall doc np, usersWellFormed (snd (User_save salt doc np db))).
  { intros doc np.
    destruct (User_save_store salt doc np db)
      as [-> | [doc' [-> [Hid [Hun [_ Hex]]]]]]; [exact W|].
    apply wf_replace; [exact W | exact Hid|].
    rewrite Hun. exact Hex. }
  split; [|split; [|split; [|split]]].
  - unfold register. unfold_rest.
    repeat (cbn; case_stuck); cbn; try exact W.
    all: match goal with
         | H : User_create _ ?a ?b ?c ?d ?e _ = (_, _) |- _ =>
             specialize (C a b c d e); rewrite H in C; exact C
         end.
  - unfold createUser. unfold_rest.
    repeat (cbn; case_stuck); cbn; try exact W.
    all: match goal with
         | H : User_create _ ?a ?b ?c ?d ?e _ = (_, _) |- _ =>
             specialize (C a b c d e); rewrite H in C; exact C
         end.
  - unfold updateUser, usernameFree. unfold_rest.
    repeat (cbn; case_stuck); cbn; try exact W.
    all: match goal with
         | H : User_save _ ?a ?b _ = (_, _) |- _ =>
             specialize (S a b); rewrite H in S; exact S
         end.
  - unfold updateProfile, usernameFree. unfold_rest.
    repeat (cbn; case_stuck); cbn; try exact W.
    all: match goal with
         | H : User_save _ ?a ?b _ = (_, _) |- _ =>
             specialize (S a b); rewrite H in S; exact S
         end.
  - unfold deleteUser. unfold_rest.
    repeat (cbn; case_stuck); cbn; try exact W.
    all: apply wf_remove; exact W.
Qed.

(** *** Registration, then login *)




(** *** What a profile update can touch *)

(** X19. updateProfile writes at most the principal's own document: for
    every body, every stored role and id stays as it was (nobody changes a
    role, their own included, through the profile route) and every other
    user's document is left in place. *)
Theorem updateProfile_only_self
  (salt : string) (req : Request UserBody) (db : DB) (u : User) :
  req_user req = Some u ->
  let db' := snd (run (updateProfile salt req) db) in
  map role (users db') = map role (users db) /\
  map u_id (users db') = map u_id (users db) /\
  (forall x, In x (users db) -> u_id x <> u_id u -> In x (users db')) /\
  venues db' = venues db /\ bookings db' = bookings db.
Proof.
  intros Hu db'. subst db'.
  assert (S : forall doc np,
             find (fun x => u_id x =? u_id u)%nat (users db) = Some doc ->
             let d := snd (User_save salt
                             (mkUser (u_id doc)
                                (assign (ub_firstname (req_body req)) (firstname doc))
                                (assign (ub_lastname (req_body req)) (lastname doc))
                                (assign (ub_username (req_body req)) (username doc))
                                (password doc) (role doc)) np db) in
             map role (users d) = map role (users db) /\
             map u_id (users d) = map u_id (users db) /\
             (forall x, In x (users db) -> u_id x <> u_id u -> In x (users d)) /\
             venues d = venues db /\ bookings d = bookings db).
  { intros doc np F d. subst d.
    pose proof (find_id_user _ _ _ F) as Hid.
    destruct (User_save_store salt
                (mkUser (u_id doc)
                   (assign (ub_firstname (req_body req)) (firstname doc))
                   (assign (ub_lastname (req_body req)) (lastname doc))
                   (assign (ub_username (req_body req)) (username doc))
                   (password doc) (role doc)) np db)
      as [-> | [doc' [-> [Hi [_ [Hr _]]]]]].
    - repeat split; try reflexivity. intros x I _. exact I.
    - cbn [u_id role] in Hi, Hr. cbn [users set_users venues bookings].
      rewrite Hid. rewrite Hid in Hi.
      split; [|split; [|split; [|split; reflexivity]]].
      + apply (map_replaceFirst role _ _ doc); [exact F | exact Hr].
      + apply map_id_replaceFirst. exact Hi.
      + intros x I N. apply replaceFirst_others; [exact I|].
        apply Nat.eqb_neq. exact N. }
  unfold updateProfile, usernameFree. unfold_rest. rewrite Hu.
  destruct (req_errors req); cbn;
    [|repeat split; try reflexivity; intros x I _; exact I].
  destruct (find (fun x => u_id x =? u_id u)%nat (users db)) as [doc|] eqn:F;
    cbn; [|repeat split; try reflexivity; intros x I _; exact I].
  specialize (S doc). cbv zeta in S.
  repeat (case_stuck; cbn);
    try (repeat split; try reflexivity; intros x I _; exact I).
  all: match goal with
       | H : User_save _ _ ?np _ = (_, _) |- _ =>
           specialize (S np eq_refl); cbn in S; cbn in H;
           rewrite H in S; exact S
       end.
Qed.

(** *** Authentication *)

(** X20. protect lets a request through only when its Authorization header
    carries a bearer token that verifies to the id of a stored user, and
    [req.user] is then that stored user, whatever the request carried there
    before; every failure (no header, no token, a token that does not verify,
    a user that no longer exists) is the same 401 answer. protect never
    changes the store. *)
Theorem protect_sound {B} (req : Request B) (db : DB) :
  match protect req db with
  | (Continue req', db') =>
      db' = db /\
      exists t u,
        bearerToken (req_authorization req) = Some t /\ t <> "" /\
        jwt_verify t = Some (u_id u) /\
        find (fun x => u_id x =? u_id u)%nat (users db) = Some u /\
        req' = set_user req u
  | (Respond r, db') =>
      db' = db /\
      r = Next (AppError "Not authorized to access this route" 401)
  end.
Proof.
  unfold protect, notAuthenticated. unfold_rest.
  destruct (bearerToken (req_authorization req)) as [t|]; cbn;
    [|split; reflexivity].
  destruct (String.eqb_spec t "") as [E|E]; cbn; [split; reflexivity|].
  destruct (jwt_verify t) as [id|] eqn:V; cbn; [|split; reflexivity].
  destruct (find (fun u => u_id u =? id)%nat (users db)) as [u|] eqn:F; cbn;
    [|split; reflexivity].
  split; [reflexivity|]. exists t, u.
  pose proof (find_id_user _ _ _ F) as Hid. rewrite Hid.
  repeat split; assumption.
Qed.

(** X21. deleteUser removes the user and nothing else: venues and bookings
    of the user stay as they are; and with unique user ids a token of the
    deleted user no longer passes protect, so every protected route answers
    it 401. *)
Theorem deleted_user_locked_out
  (reqD : Request UserBody) (db : DB) (doc : User) :
  find (fun x => u_id x =? req_params_id reqD)%nat (users db) = Some doc ->
  NoDup (map u_id (users db)) ->
  let db' := snd (deleteUser reqD db) in
  fst (deleteUser reqD db) = Continue "User removed" /\
  (forall x, In x (users db') <->
             In x (users db) /\ u_id x <> req_params_id reqD) /\
  venues db' = venues db /\ bookings db' = bookings db /\
  forall (B : Type) (req : Request B) t,
    bearerToken (req_authorization req) = Some t ->
    jwt_verify t = Some (req_params_id reqD) ->
    protect req db'
    = (Respond (Next (AppError "Not authorized to access this route" 401)),
       db').
Proof.
  intros F ND db'.
  pose proof (find_id_user _ _ _ F) as Hid.
  assert (R : deleteUser reqD db
              = (Continue "User removed",
                 set_users db (removeFirst
                                 (fun x => u_id x =? req_params_id reqD)%nat
                                 (users db)))).
  { unfold deleteUser. unfold_rest. eval_with_hyps. reflexivity. }
  subst db'. rewrite R. cbn [fst snd].
  remember (set_users db _) as db' eqn:E.
  assert (Eu : users db' = removeFirst (fun x => u_id x =? req_params_id reqD)%nat
                                       (users db)) by (rewrite E; reflexivity).
  split; [reflexivity|]. split; [|split; [|split]].
  - intros x. rewrite Eu. split.
    + intros I. split; [exact (removeFirst_incl _ _ _ I)|].
      exact (removeFirst_key u_id _ _ _ ND I).
    + intros [I N]. apply removeFirst_keeps; [exact I|].
      apply Nat.eqb_neq. exact N.
  - rewrite E. reflexivity.
  - rewrite E. reflexivity.
  - intros B req t Ht Hv.
    assert (Gone : find (fun x => u_id x =? req_params_id reqD)%nat (users db')
                   = None).
    { rewrite Eu. apply (find_removeFirst u_id). exact ND. }
    clear E Eu.
    unfold protect, notAuthenticated. unfold_rest. rewrite Ht. cbn.
    destruct (negb (t =? "")%string); cbn; [|reflexivity].
    rewrite Hv. cbn. rewrite Gone. reflexivity.
Qed.

(** *** Images *)

(** X22. Images are written only by the venue's owner or an admin:
    createImage with a complete body for a stored venue, and deleteImage for
    a stored image of a stored venue, answer 403 to anybody else and leave
    the store as it was; for the owner or an admin createImage stores the
    image under a fresh id and deleteImage removes exactly that image. *)
Theorem image_writes_guarded (req : Request ImageBody) (db : DB) (u : User) :
  req_user req = Some u ->
  (forall vid venue url,
      req_errors req = [] ->
      req_body req = mkImageBody (Some vid) (Some url) -> url <> "" ->
      find (fun v => v_id v =? vid)%nat (venues db) = Some venue ->
      createImage req db
      = if (owner_id venue =? u_id u)%nat || (role u =? "admin")%string
        then (Continue (mkImage (next_id db) vid url),
              bump_id (set_images db (images db ++
                                      [mkImage (next_id db) vid url])))
        else (Respond (Next (AppError
                               "Not authorized to add images to this venue"
                               403)), db)) /\
  (forall image venue,
      find (fun i => i_id i =? req_params_id req)%nat (images db) = Some image ->
      find (fun v => v_id v =? i_venue_id image)%nat (venues db) = Some venue ->
      deleteImage req db
      = if (owner_id venue =? u_id u)%nat || (role u =? "admin")%string
        then (Continue "Image removed",
              set_images db (removeFirst
                               (fun x => i_id x =? req_params_id req)%nat
                               (images db)))
        else (Respond (Next (AppError "Not authorized to delete this image"
                                      403)), db)).
Proof.
  intros Hu. split.
  - intros vid venue url Herr Hbody Hurl F.
    apply String.eqb_neq in Hurl.
    unfold createImage, Image_create. unfold_rest. rewrite Herr, Hbody.
    cbn. rewrite F. cbn. rewrite Hu. cbn.
    destruct (owner_id venue =? u_id u)%nat; cbn;
      [rewrite Hurl; reflexivity|].
    destruct (role u =? "admin")%string; cbn;
      [rewrite Hurl; reflexivity | reflexivity].
  - intros image venue Fi Fv.
    assert (Hid : i_id image = req_params_id req).
    { apply find_some in Fi. destruct Fi as [_ E]. apply Nat.eqb_eq. exact E. }
    unfold deleteImage, Image_findById. unfold_rest.
    cbn. rewrite Fi. cbn. rewrite Fv. cbn. rewrite Hu. cbn. rewrite Hid.
    destruct (owner_id venue =? u_id u)%nat; cbn; [reflexivity|].
    destruct (role u =? "admin")%string; cbn; reflexivity.
Qed.

(** X23. An image stored by createImage is listed by getImagesByVenue for
    its venue, after the images the venue already had; once the venue has
    been deleted by its owner or an admin (venue ids being unique), the
    listing answers 404. *)
Theorem image_listing_round_trip
  (reqI : Request ImageBody) (reqV : Request VenueBody) (db : DB)
  (u : User) (venue : Venue) (url : string) :
  req_errors reqI = [] -> req_user reqI = Some u -> req_user reqV = Some u ->
  req_body reqI = mkImageBody (Some (req_params_id reqV)) (Some url) ->
  url <> "" ->
  find (fun v => v_id v =? req_params_id reqV)%nat (venues db) = Some venue ->
  owner_id venue = u_id u \/ role u = "admin" ->
  NoDup (map v_id (venues db)) ->
  let db1 := snd (createImage reqI db) in
  let db2 := snd (deleteVenue reqV db1) in
  forall reqL : Request ImageBody,
    req_params_id reqL = req_params_id reqV ->
    getImagesByVenue reqL db1
    = (Continue (filter (fun i => i_venue_id i =? req_params_id reqV)%nat
                        (images db)
                 ++ [mkImage (next_id db) (req_params_id reqV) url])%list,
       db1) /\
    getImagesByVenue reqL db2
    = (Respond (Next (AppError "Venue not found" 404)), db2).
Proof.
  intros Herr Hu Hu' Hbody Hurl F Auth ND db1 db2 reqL Hl.
  assert (A : (owner_id venue =? u_id u)%nat || (role u =? "admin")%string
              = true).
  { destruct Auth as [E|E]; rewrite E.
    - rewrite Nat.eqb_refl. reflexivity.
    - rewrite orb_true_r. reflexivity. }
  assert (A' : negb (owner_id venue =? u_id u)%nat &&
               negb (role u =? "admin")%string = false).
  { rewrite <- negb_orb, A. reflexivity. }
  apply String.eqb_neq in Hurl.
  assert (R1 : createImage reqI db
               = (Continue (mkImage (next_id db) (req_params_id reqV) url),
                  bump_id (set_images db
                             (images db ++
                              [mkImage (next_id db) (req_params_id reqV) url])))).
  { unfold createImage, Image_create. unfold_rest. rewrite Herr, Hbody.
    cbn. rewrite F. cbn. rewrite Hu. cbn. rewrite A'. cbn. rewrite Hurl.
    reflexivity. }
  subst db2 db1. rewrite R1. cbn [snd].
  remember (bump_id (set_images db _)) as db1 eqn:E1.
  assert (Ev : venues db1 = venues db) by (rewrite E1; reflexivity).
  assert (Ei : images db1
               = (images db ++ [mkImage (next_id db) (req_params_id reqV) url])%list)
    by (rewrite E1; reflexivity).
  assert (F1 : find (fun v => v_id v =? req_params_id reqV)%nat (venues db1)
               = Some venue) by (rewrite Ev; exact F).
  assert (ND1 : NoDup (map v_id (venues db1))) by (rewrite Ev; exact ND).
  clear E1. split.
  - unfold getImagesByVenue. unfold_rest. rewrite Hl. cbn. rewrite F1. cbn.
    rewrite Ei, filter_app. cbn. rewrite Nat.eqb_refl. reflexivity.
  - rewrite (deleteVenue_run reqV db1 venue u F1 Hu' A). cbn [snd].
    unfold getImagesByVenue. unfold_rest. rewrite Hl. cbn.
    rewrite (find_removeFirst v_id _ _ ND1). reflexivity.
Qed.

(** *** Districts *)

Lemma map_key_replaceFirst {A} (key : A -> Id) (id : Id) (x : A) (l : list A) :
  key x = id ->
  map key (replaceFirst (fun y => key y =? id)%nat x l) = map key l.
Proof.
  intros E. induction l as [|y l IH]; [reflexivity|].
  unfold replaceFirst; fold (@replaceFirst A).
  destruct (key y =? id)%nat eqn:P; simpl.
  - apply Nat.eqb_eq in P. rewrite E, P. reflexivity.
  - rewrite IH. reflexivity.
Qed.

Lemma names_replaceFirst {A} (key : A -> Id) (nm : A -> string) (id : Id)
  (x : A) (l : list A) :
  NoDup (map key l) -> NoDup (map nm l) ->
  (forall y, In y l -> nm y = nm x -> key y = id) ->
  NoDup (map nm (replaceFirst (fun y => key y =? id)%nat x l)).
Proof.
  induction l as [|z l IH]; [intros; constructor|].
  unfold replaceFirst; fold (@replaceFirst A).
  intros NI NU K. simpl in NI, NU.
  inversion NI as [|? ? Hi NI']; inversion NU as [|? ? Hu NU']; subst.
  destruct (key z =? id)%nat eqn:P; simpl.
  - apply Nat.eqb_eq in P. constructor; [|exact NU'].
    intros I. apply in_map_iff in I. destruct I as [y [Ey Iy]].
    apply Hi. rewrite P, <- (K y (or_intror Iy) Ey). apply in_map. exact Iy.
  - apply Nat.eqb_neq in P. constructor.
    + intros I. apply in_map_iff in I. destruct I as [y [Ey Iy]].
      destruct (replaceFirst_incl _ _ _ _ Iy) as [-> | Iy'].
      * apply P. apply (K z (or_introl eq_refl)). symmetry. exact Ey.
      * apply Hu. rewrite <- Ey. apply in_map. exact Iy'.
    + apply (IH NI' NU'). intros y Iy. apply K. right. exact Iy.
Qed.


Lemma District_create_store (nm : option string) (st : Store) :
  snd (District_create nm st) = st \/
  exists d,
    District_create nm st
    = (Continue d, mkStore (bump_id (core st)) (districts st ++ [d])) /\
    d_id d = next_id (core st) /\
    existsb (fun x => d_name x =? d_name d)%string (districts st) = false.
Proof.
  unfold District_create, fail.
  destruct (option_map trim nm) as [s|]; [|left; reflexivity].
  destruct (s =? "")%string; [left; reflexivity|].
  destruct (existsb _ (districts st)) eqn:E; [left; reflexivity|].
  right. eexists. split; [reflexivity|]. split; [reflexivity | exact E].
Qed.

Lemma District_update_store (id : Id) (nm : option string) (st : Store) :
  snd (District_findByIdAndUpdate id nm st) = st \/
  exists d',
    snd (District_findByIdAndUpdate id nm st)
    = mkStore (core st)
              (replaceFirst (fun x => d_id x =? id)%nat d' (districts st)) /\
    d_id d' = id /\
    existsb (fun x => (d_name x =? d_name d')%string && negb (d_id x =? id)%nat)
            (districts st) = false.
Proof.
  unfold District_findByIdAndUpdate, District_findById, fail.
  destruct (option_map trim nm) as [s|].
  - destruct (s =? "")%string; [left; reflexivity|].
    destruct (find _ (districts st)) as [d|] eqn:F; [|left; reflexivity].
    destruct (existsb _ (districts st)) eqn:E; [left; reflexivity|].
    right. eexists. split; [reflexivity|]. split; [|exact E].
    apply find_some in F. destruct F as [_ F]. apply Nat.eqb_eq. exact F.
  - destruct (find _ (districts st)); left; reflexivity.
Qed.

(** X24. createDistrict, updateDistrict and deleteDistrict keep district
    names unique (and district ids unique and below the id counter), for
    every request. *)
Theorem district_writes_keep_names_unique
  (req : Request DistrictBody) (st : Store) :
  districtsWellFormed st ->
  districtsWellFormed (snd (createDistrict req st)) /\
  districtsWellFormed (snd (updateDistrict req st)) /\
  districtsWellFormed (snd (deleteDistrict req st)).
Proof.
  intros W. pose proof W as [NI [NU F]].
  split; [|split].
  - unfold createDistrict, invalid, fail.
    destruct (req_errors req); [|exact W].
    destruct (match db_name (req_body req) with
              | Some s => District_findOne s None st
              | None => None
              end); [exact W|].
    destruct (District_create_store (db_name (req_body req)) st)
      as [-> | [d [-> [Hid Hex]]]]; [exact W|].
    unfold districtsWellFormed. cbn. rewrite !map_app. cbn.
    split; [|split].
    + apply NoDup_snoc; [exact NI|]. intros I.
      apply in_map_iff in I. destruct I as [x [E Ix]].
      pose proof (proj1 (Forall_forall _ _) F x Ix) as L. cbn in L. lia.
    + apply NoDup_snoc; [exact NU|]. intros I.
      apply in_map_iff in I. destruct I as [x [E Ix]].
      assert (T : existsb (fun x => d_name x =? d_name d)%string (districts st)
                  = true).
      { apply existsb_exists. exists x. split; [exact Ix|].
        apply String.eqb_eq. exact E. }
      rewrite T in Hex. discriminate.
    + apply Forall_app. split.
      * apply Forall_impl with (P := fun d => (d_id d < next_id (core st))%nat);
          [intros a Ha; lia | exact F].
      * constructor; [lia | constructor].
  - assert (K : districtsWellFormed
                  (snd (District_findByIdAndUpdate (req_params_id req)
                          (db_name (req_body req)) st))).
    { destruct (District_update_store (req_params_id req)
                  (db_name (req_body req)) st)
        as [-> | [d' [-> [Hid Hex]]]]; [exact W|].
      unfold districtsWellFormed. cbn.
      rewrite (map_key_replaceFirst d_id _ d' (districts st) Hid).
      split; [exact NI|]. split.
      - apply (names_replaceFirst d_id d_name); [exact NI | exact NU|].
        intros y Iy Ey.
        destruct (Nat.eq_dec (d_id y) (req_params_id req)) as [E|N]; [exact E|].
        exfalso.
        assert (T : existsb (fun x => (d_name x =? d_name d')%string &&
                                      negb (d_id x =? req_params_id req)%nat)
                            (districts st) = true).
        { apply existsb_exists. exists y. split; [exact Iy|].
          rewrite Ey, String.eqb_refl. apply negb_true_iff, Nat.eqb_neq.
          exact N. }
        rewrite T in Hex. discriminate.
      - apply Forall_map with (f := d_id)
                              (P := fun n => (n < next_id (core st))%nat).
        rewrite (map_key_replaceFirst d_id _ d' (districts st) Hid).
        apply Forall_map. exact F. }
    unfold updateDistrict, invalid, fail.
    destruct (req_errors req); [|exact W].
    destruct (match db_name (req_body req) with
              | Some s => District_findOne s (Some (req_params_id req)) st
              | None => None
              end); [exact W|].
    destruct (District_findByIdAndUpdate (req_params_id req)
                (db_name (req_body req)) st) as [[[d|]|r] st']; exact K.
  - unfold deleteDistrict, fail, District_findById.
    destruct (find _ (districts st)) as [d|]; [|exact W].
    unfold districtsWellFormed. cbn.
    split; [apply removeFirst_NoDup_map; exact NI|].
    split; [apply removeFirst_NoDup_map; exact NU|].
    apply Forall_forall. intros x Ix.
    exact (proj1 (Forall_forall _ _) F x (removeFirst_incl _ _ _ Ix)).
Qed.


Lemma NoDup_map_same {A B} (f : A -> B) (l : list A) (x y : A) :
  NoDup (map f l) -> In x l -> In y l -> f x = f y -> x = y.
Proof.
  induction l as [|z l IH]; [contradiction|].
  simpl. intros ND Ix Iy E. inversion ND as [|? ? Hz ND']; subst.
  destruct Ix as [<- | Ix], Iy as [<- | Iy].
  - reflexivity.
  - exfalso. apply Hz. rewrite E. apply in_map. exact Iy.
  - exfalso. apply Hz. rewrite <- E. apply in_map. exact Ix.
  - exact (IH ND' Ix Iy E).
Qed.

Lemma replaceFirst_has {A} (p : A -> bool) (x y : A) (l : list A) :
  find p l = Some y -> In x (replaceFirst p x l).
Proof.
  induction l as [|z l IH]; [discriminate|].
  unfold replaceFirst; fold (@replaceFirst A). simpl.
  destruct (p z); [intros _; left; reflexivity|].
  intros F. right. exact (IH F).
Qed.


(** X27. Deleting a district removes that district only and does not touch
    the venues: every venue that carried the district's id is still stored
    with it, while GET /api/districts/:id and GET /api/districts/:id/venues
    for that id answer 404 "District not found" from then on. *)
Theorem deleteDistrict_leaves_venues
  (req : Request DistrictBody) (st : Store) (d : District) :
  NoDup (map d_id (districts st)) ->
  District_findById (req_params_id req) st = Some d ->
  exists st',
    deleteDistrict req st = (Continue "District removed", st') /\
    core st' = core st /\
    (forall x, In x (districts st') <-> In x (districts st) /\ x <> d) /\
    (forall req', req_params_id req' = req_params_id req ->
       getDistrictById req' st'
       = (Respond (Next (AppError "District not found" 404)), st') /\
       getDistrictVenues req' st'
       = (Respond (Next (AppError "District not found" 404)), st')).
Proof.
  intros ND Fid.
  pose proof Fid as Fid'. unfold District_findById in Fid'.
  pose proof (find_some _ _ Fid') as [Hd Pid]. apply Nat.eqb_eq in Pid.
  eexists. split; [|split; [|split]].
  - unfold deleteDistrict. rewrite Fid. reflexivity.
  - reflexivity.
  - intros x. cbn [districts]. split.
    + intros I. split; [exact (removeFirst_incl _ _ _ I)|].
      intros ->.
      exact (removeFirst_key d_id (d_id d) (districts st) d ND I eq_refl).
    + intros [I N]. apply removeFirst_keeps; [exact I|].
      apply Nat.eqb_neq. intros E. apply N.
      exact (NoDup_map_same d_id (districts st) x d ND I Hd E).
  - intros req' Hid.
    assert (G : District_findById (req_params_id req')
                  (mkStore (core st)
                     (removeFirst (fun x => d_id x =? d_id d)%nat
                                  (districts st)))
                = None).
    { unfold District_findById. cbn [districts]. rewrite Hid, <- Pid.
      exact (find_removeFirst d_id (d_id d) (districts st) ND). }
    unfold getDistrictById, getDistrictVenues. rewrite G.
    split; reflexivity.
Qed.

(** X28. A venue that is not approved is absent from its district's venue
    list; once the approval handler has run on it, the list shows it, with
    status "tasdiqlangan" and its images, and is otherwise as before. *)
Theorem approval_publishes_venue_in_district
  (reqV : Request VenueBody) (reqD : Request DistrictBody) (st : Store)
  (v : Venue) (d : District) :
  NoDup (map v_id (venues (core st))) ->
  District_findById (req_params_id reqD) st = Some d ->
  find (fun x => v_id x =? req_params_id reqV)%nat (venues (core st)) = Some v ->
  district_id v = d_id d ->
  v_status v <> "tasdiqlangan" ->
  exists l l' st',
    st' = mkStore (snd (run (approveVenue reqV) (core st))) (districts st) /\
    getDistrictVenues reqD st = (Continue l, st) /\
    getDistrictVenues reqD st' = (Continue l', st') /\
    ~ In (v_id v) (map (fun p => v_id (fst p)) l) /\
    In (approved v,
        filter (fun i => i_venue_id i =? v_id v)%nat (images (core st))) l' /\
    (forall p, In p l -> In p l') /\
    (forall p, In p l' -> v_id (fst p) <> v_id v -> In p l).
Proof.
  intros ND Fd Fv Hdis Hst.
  pose proof (find_some _ _ Fv) as [Iv Pv]. apply Nat.eqb_eq in Pv.
  do 3 eexists. split; [reflexivity|].
  rewrite (approveVenue_found reqV (core st) v Fv). cbn [snd].
  unfold getDistrictVenues, District_findById in *. cbn [districts core].
  rewrite Fd. cbn [images set_venues venues].
  split; [reflexivity|]. split; [reflexivity|].
  split; [|split; [|split]].
  - intros I. apply in_map_iff in I. destruct I as [p [Ep Ip]].
    apply in_map_iff in Ip. destruct Ip as [x [<- Ix]]. cbn in Ep.
    apply filter_In in Ix. destruct Ix as [Ix Qx].
    apply andb_true_iff in Qx. destruct Qx as [_ Sx].
    apply String.eqb_eq in Sx.
    rewrite (NoDup_map_same v_id _ x v ND Ix Iv Ep) in Sx.
    exact (Hst Sx).
  - apply in_map_iff. exists (approved v). split; [reflexivity|].
    apply filter_In. split; [exact (replaceFirst_has _ _ _ _ Fv)|].
    cbn. rewrite Hdis, Nat.eqb_refl. reflexivity.
  - intros p Ip. apply in_map_iff in Ip. destruct Ip as [x [<- Ix]].
    apply in_map_iff. exists x. split; [reflexivity|].
    apply filter_In in Ix. destruct Ix as [Ix Qx].
    apply filter_In. split; [|exact Qx].
    apply replaceFirst_others; [exact Ix|].
    apply Nat.eqb_neq. intros E.
    apply andb_true_iff in Qx. destruct Qx as [_ Sx].
    apply String.eqb_eq in Sx. apply Hst.
    rewrite <- (NoDup_map_same v_id _ x v ND Ix Iv); [exact Sx|].
    rewrite E, Pv. reflexivity.
  - intros p Ip Np. apply in_map_iff in Ip. destruct Ip as [x [<- Ix]].
    cbn in Np. apply in_map_iff. exists x. split; [reflexivity|].
    apply filter_In in Ix. destruct Ix as [Ix Qx].
    apply filter_In. split; [|exact Qx].
    destruct (replaceFirst_incl _ _ _ _ Ix) as [-> | I]; [|exact I].
    exfalso. apply Np. reflexivity.
Qed.

Lemma protect_cases {B} (req : Request B) (db : DB) :
  protect req db
  = (Respond (Next (AppError "Not authorized to access this route" 401)), db)
  \/ exists u, authenticated req db u.
Proof.
  unfold authenticated, protect, notAuthenticated. unfold_rest.
  destruct (bearerToken (req_authorization req)) as [t|]; cbn;
    [|left; reflexivity].
  destruct (t =? "")%string; cbn; [left; reflexivity|].
  destruct (jwt_verify t) as [id|]; cbn; [|left; reflexivity].
  destruct (find (fun u => u_id u =? id)%nat (users db)) as [u|]; cbn;
    [|left; reflexivity].
  right. exists u. reflexivity.
Qed.

(** X29. The district write routes (POST, PUT and DELETE /api/districts)
    are refused to every request that protect does not resolve to an admin:
    401 without a valid token of a stored user, 403 for any other role; the
    controller does not run and the store is left as it was. *)
Theorem district_writes_admin_only
  (req : Request DistrictBody) (st : Store) :
  (forall u, authenticated req (core st) u -> role u <> "admin") ->
  let refusal : Response -> Prop := fun r =>
    r = Next (AppError "Not authorized to access this route" 401) \/
    exists u, authenticated req (core st) u /\ r = roleRefused u in
  (exists r, POST_districts req st = (Respond r, st) /\ refusal r) /\
  (exists r, PUT_districts_id req st = (Respond r, st) /\ refusal r) /\
  (exists r, DELETE_districts_id req st = (Respond r, st) /\ refusal r).
Proof.
  intros NoAdmin refusal. subst refusal. destruct st as [c ds].
  cbn [core] in *.
  unfold POST_districts, PUT_districts_id, DELETE_districts_id, behind, onCore.
  cbn [chain core districts]. unfold bind.
  destruct (protect_cases req c) as [P | [u Auth]].
  - rewrite P.
    split; [|split]; eexists; (split; [reflexivity | left; reflexivity]).
  - pose proof (NoAdmin u Auth) as Hr. apply String.eqb_neq in Hr.
    pose proof Auth as Auth'. unfold authenticated in Auth'. rewrite Auth'.
    unfold roleRefused. unfold_rest. cbn. rewrite Hr. cbn.
    split; [|split]; eexists;
      (split; [reflexivity | right; exists u; split; [exact Auth | reflexivity]]).
Qed.

End Backend.

(** ** The properties on the sample data *)

(** *** Bookings *)

(** C1, as stated, fails: the venue is already booked for 2025-06-01, yet a
    request for the same venue and date with 150 guests is refused by the
    capacity check, which comes first, and not with the "already booked"
    error. *)
Lemma createBooking_conflict_counterexample :
  let req := arriving "token-4" 0 (bookingFor 10 "2025-06-01" 150) in
  let r := fst (POST_bookings sample_isISO8601 sample_Date_parse sample_verify
                              req sample_db) in
  In wedding (bookings sample_db) /\
  venue_id wedding = 10%nat /\
  sample_Date_parse "2025-06-01" = Some (reservation_date wedding) /\
  r = Next (AppError "Guest count exceeds venue capacity of 100" 400) /\
  r <> Next (AppError "Venue is already booked for this date" 400).
Proof.
  cbv zeta. repeat split; try (left; reflexivity).
  vm_compute. discriminate.
Qed.

(** The conflict check at work: same venue, same date, 50 guests. *)
Lemma createBooking_conflict_witness :
  run (createBooking sample_Date_parse
         (asUser umida 0 (bookingFor 10 "2025-06-01" 50))) sample_db
  = (Next (AppError "Venue is already booked for this date" 400), sample_db).
Proof.
  apply (proj1 (createBooking_conflict sample_Date_parse
                  (asUser umida 0 (bookingFor 10 "2025-06-01" 50)) sample_db)
               10%nat "2025-06-01" 1748736000000 wedding hall);
    try reflexivity.
  left; reflexivity.
Defined.

(** A booking request against the pending venue. *)
Lemma createBooking_unapproved_venue_witness :
  statusOf (fst (run (createBooking sample_Date_parse
                        (asUser umida 0 (bookingFor 11 "2025-06-02" 50)))
                     sample_db)) = Some 400 /\
  snd (run (createBooking sample_Date_parse
              (asUser umida 0 (bookingFor 11 "2025-06-02" 50))) sample_db)
  = sample_db.
Proof.
  apply (createBooking_unapproved_venue sample_Date_parse
           (asUser umida 0 (bookingFor 11 "2025-06-02" 50)) sample_db
           11%nat garden); [reflexivity | reflexivity | discriminate].
Defined.

(** C6, as stated, fails: 150 guests exceed the capacity (100) of the
    pending venue, but the request is refused by the status check, whose
    message does not cite the capacity. *)
Lemma capacity_exceeded_counterexample :
  let req := arriving "token-4" 0 (bookingFor 11 "2025-06-02" 150) in
  let r := fst (POST_bookings sample_isISO8601 sample_Date_parse sample_verify
                              req sample_db) in
  gtNum (bb_guest_count (req_body req)) (capacity garden) = true /\
  r = Next (AppError "Venue is not approved for bookings" 400) /\
  forall m, messageOf r = Some m ->
            includes m (numToString (capacity garden)) = false.
Proof.
  cbv zeta. repeat split.
  intros m H. vm_compute in H. inversion H. reflexivity.
Qed.

(** The capacity check at work, on creation and on update. *)
Lemma capacity_exceeded_witness :
  run (createBooking sample_Date_parse
         (asUser umida 0 (bookingFor 10 "2025-06-02" 150))) sample_db
  = (Next (AppError (capacityMessage 100) 400), sample_db) /\
  run (updateBooking sample_Date_parse sample_toISOString
         (asUser umida 20
                 (mkBookingBody None None (Some 150) None None None)))
      sample_db
  = (Next (AppError (capacityMessage 100) 400), sample_db).
Proof.
  split.
  - apply (proj1 (capacity_exceeded sample_Date_parse sample_toISOString
                    (asUser umida 0 (bookingFor 10 "2025-06-02" 150))
                    sample_db) 10%nat hall); reflexivity.
  - apply (proj2 (capacity_exceeded sample_Date_parse sample_toISOString
                    (asUser umida 20
                       (mkBookingBody None None (Some 150) None None None))
                    sample_db) wedding umida hall 150); try reflexivity.
    + left; reflexivity.
    + cbn; lia.
Defined.

(** C2 fails on the code: the booking's creator, who is neither an admin
    nor the owner of the venue, sends the status in the body of an ordinary
    update (PUT /api/bookings/20) and the stored booking moves to
    "bo'lib o'tgan"; the dedicated route refuses the same principal with
    403. *)
Lemma updateBooking_creator_changes_status :
  let body := mkBookingBody None None None None None (Some "bo'lib o'tgan") in
  let req := arriving "token-4" 20 body in
  let past := mkBooking 20 10 1748736000000 50 "+998935556677" 4
                        "bo'lib o'tgan" in
  user_id wedding = u_id umida /\ role umida = "user" /\
  owner_id hall <> u_id umida /\
  b_status wedding = "endi bo'ladigan" /\
  PUT_bookings_id sample_Date_parse sample_toISOString sample_verify
                  req sample_db
  = (Json 200 (BookingData (Some past)), set_bookings sample_db [past]) /\
  PUT_bookings_id_status sample_Date_parse sample_verify req sample_db
  = (Next (AppError "Not authorized to change booking status" 403), sample_db).
Proof.
  cbv zeta. repeat split; try discriminate.
Qed.

(** *** Venues *)

(** C3 fails on the code: an owner (not an admin) creates a venue with
    status "tasdiqlangan" in the body, and the venue is stored approved. *)
Lemma createVenue_owner_sets_status :
  let body := mkVenueBody (Some "Lola") (Some 7%nat) (Some "Yunusobod 3")
                          (Some 200) (Some 30000) (Some "+998907778899")
                          (Some "tasdiqlangan") None in
  let req := arriving "token-3" 0 body in
  let lola := mkVenue 21 "Lola" 7 "Yunusobod 3" 200 30000 "+998907778899"
                      "tasdiqlangan" 3 in
  role bobur = "owner" /\
  POST_venues sample_verify req sample_db
  = (Json 201 (VenueData (Some lola)),
     bump_id (set_venues sample_db [hall; garden; lola])) /\
  v_status lola = "tasdiqlangan".
Proof.
  cbv zeta. repeat split.
Qed.

(** C4, as stated, fails: [bobur] is neither the owner of the venue nor an
    admin, but his update, whose body lacks most required fields, is
    answered 400 by the validation step, which comes first. *)
Lemma updateVenue_guard_counterexample :
  let body := mkVenueBody None None (Some "Chilanzar 6") None None None
                          None None in
  let req := arriving "token-3" 10 body in
  authenticated sample_verify req sample_db bobur /\
  role bobur <> "admin" /\ owner_id hall <> u_id bobur /\
  statusOf (fst (PUT_venues_id sample_verify req sample_db)) = Some 400 /\
  statusOf (fst (PUT_venues_id sample_verify req sample_db)) <> Some 403.
Proof.
  cbv zeta. repeat split; try discriminate.
Qed.

(** The same principal with a complete body is refused with 403. *)
Lemma updateVenue_guard_witness :
  let body := mkVenueBody (Some "Navruz") (Some 7%nat) (Some "Chilanzar 6")
                          (Some 100) (Some 50000) (Some "+998901112233")
                          None None in
  PUT_venues_id sample_verify (arriving "token-3" 10 body) sample_db
  = (Next (AppError "Not authorized to update this venue" 403), sample_db).
Proof.
  cbv zeta.
  apply (proj1 (updateVenue_guard sample_verify
                  (arriving "token-3" 10
                     (mkVenueBody (Some "Navruz") (Some 7%nat)
                        (Some "Chilanzar 6") (Some 100) (Some 50000)
                        (Some "+998901112233") None None))
                  sample_db bobur hall eq_refl eq_refl eq_refl));
    discriminate.
Defined.

(** The admin approves the pending venue, twice. *)
Lemma approveVenue_idempotent_witness :
  let req := arriving "token-1" 11 noVenueBody in
  let r := fst (PUT_venues_id_approve sample_verify req sample_db) in
  let db' := snd (PUT_venues_id_approve sample_verify req sample_db) in
  r = Json 200 (VenueData (Some (approved garden))) /\
  find (fun x => v_id x =? 11)%nat (venues db') = Some (approved garden) /\
  v_status (approved garden) = "tasdiqlangan" /\
  PUT_venues_id_approve sample_verify req db' = (r, db').
Proof.
  apply (approveVenue_idempotent sample_verify
           (arriving "token-1" 11 noVenueBody) sample_db aziz garden);
    reflexivity.
Defined.

(** *** Users *)

(** C7, as stated, fails: the admin's update of [umida] carries a new
    password; the update is answered 200, but the stored digest is the old
    one: it is not the digest of the supplied password, and the supplied
    password does not match it. *)
Lemma updateUser_password_counterexample :
  let body := mkUserBody None None None (Some "newsecret") None in
  let req := arriving "token-1" 4 body in
  let out := PUT_users_id sample_hash sample_verify "s4lt" req sample_db in
  role aziz = "admin" /\
  fst out = Json 200 (UserData umida) /\
  find (fun x => u_id x =? 4)%nat (users (snd out)) = Some umida /\
  password umida <> sample_hash "newsecret" "s4lt" /\
  sample_compare "newsecret" (password umida) = false /\
  sample_compare "umida-pass" (password umida) = true.
Proof.
  cbv zeta. repeat split. vm_compute. discriminate.
Qed.

(** The profile route, by contrast, does send a new password through the
    hashing hook: [umida] changes her own. *)
Example updateProfile_hashes_password :
  let body := mkUserBody None None None (Some "newsecret") None in
  let req := arriving "token-4" 0 body in
  let out := PUT_auth_profile sample_hash sample_verify "s4lt" req sample_db in
  exists u,
    find (fun x => u_id x =? 4)%nat (users (snd out)) = Some u /\
    password u = sample_hash "newsecret" "s4lt" /\
    sample_compare "newsecret" (password u) = true.
Proof.
  cbv zeta. eexists. repeat split.
Qed.



(** ** The rest of the controllers on the sample data *)

Lemma sample_uniqueSlots : uniqueSlots (bookings sample_db).
Proof.
  intros v d. unfold slotCount. cbn [bookings sample_db filter].
  destruct (sameSlot v d wedding); cbn; lia.
Qed.

Lemma sample_booking_ids : NoDup (map b_id (bookings sample_db)).
Proof. cbn. repeat constructor. intros []. Qed.

Lemma sample_venue_ids : NoDup (map v_id (venues sample_db)).
Proof. cbn. repeat constructor; cbn; lia. Qed.

Lemma sample_user_ids : NoDup (map u_id (users sample_db)).
Proof. cbn. repeat constructor; cbn; lia. Qed.

Lemma sample_usersWellFormed : usersWellFormed sample_db.
Proof.
  split; [exact sample_user_ids|]. split.
  - cbn. repeat constructor; cbn; intuition discriminate.
  - cbn. repeat constructor; cbn; lia.
Qed.

(** *** Bookings *)

(** The owner of the booked venue may not delete the booking. *)
Lemma deleteBooking_guard_witness :
  deleteBooking (asUser olim 20 noBookingBody) sample_db
  = (Respond (Next (AppError "Not authorized to delete this booking" 403)),
     sample_db).
Proof.
  apply (deleteBooking_guard (asUser olim 20 noBookingBody) sample_db
           wedding olim); try reflexivity; discriminate.
Defined.

(** The creator deletes the booking. *)
Lemma deleteBooking_removes_witness :
  fst (deleteBooking (asUser umida 20 noBookingBody) sample_db)
  = Continue "Booking removed" /\
  find (fun b => b_id b =? 20)%nat
       (bookings (snd (deleteBooking (asUser umida 20 noBookingBody)
                                     sample_db))) = None.
Proof.
  destruct (deleteBooking_removes (asUser umida 20 noBookingBody) sample_db
              wedding umida eq_refl eq_refl (or_introl eq_refl)
              sample_booking_ids) as [A [B _]].
  split; [exact A | exact B].
Defined.

(** [bobur] wants the hall for 2025-06-01: refused while [umida]'s booking
    stands, accepted once she has deleted it. *)
Lemma deleteBooking_frees_slot_witness :
  let reqC := asUser bobur 0 (bookingFor 10 "2025-06-01" 60) in
  let db1 := snd (deleteBooking (asUser umida 20 noBookingBody) sample_db) in
  run (createBooking sample_Date_parse reqC) sample_db
  = (Next (AppError "Venue is already booked for this date" 400), sample_db) /\
  fst (run (createBooking sample_Date_parse reqC) db1)
  = Json 201 (BookingData (Some (mkBooking 21 10 1748736000000 60
                                           "+998931234567" 3
                                           "endi bo'ladigan"))).
Proof.
  cbv zeta.
  destruct (deleteBooking_frees_slot sample_Date_parse
              (asUser umida 20 noBookingBody)
              (asUser bobur 0 (bookingFor 10 "2025-06-01" 60))
              sample_db wedding umida bobur hall
              "2025-06-01" "+998931234567" 60 None None
              sample_uniqueSlots eq_refl eq_refl (or_introl eq_refl)
              eq_refl eq_refl eq_refl) as [A B];
    try reflexivity; try discriminate.
  - cbn; lia.
  - split; [exact A | rewrite B; reflexivity].
Defined.

(** The owner of the venue reads [umida]'s booking. *)
Lemma getBookingById_visibility_witness :
  getBookingById (asUser olim 20 noBookingBody) sample_db
  = (Continue wedding, sample_db).
Proof.
  exact (getBookingById_visibility (asUser olim 20 noBookingBody) sample_db
           wedding olim eq_refl eq_refl).
Defined.

Lemma getUserBookings_own_sorted_witness :
  exists l,
    getUserBookings (asUser umida 0 noBookingBody) sample_db
    = (Continue l, sample_db) /\
    (forall b, In b l <-> In b (bookings sample_db) /\ user_id b = 4%nat) /\
    StronglySorted latestFirst l.
Proof.
  destruct (getUserBookings_own_sorted (asUser umida 0 noBookingBody)
              sample_db umida eq_refl) as [l [A [_ [B C]]]].
  exists l. split; [exact A | split; [exact B | exact C]].
Defined.

Lemma getVenueBookings_guard_and_listing_witness :
  getVenueBookings (asUser bobur 10 noBookingBody) sample_db
  = (Respond (Next (AppError "Not authorized to view bookings for this venue"
                             403)), sample_db).
Proof.
  exact (getVenueBookings_guard_and_listing (asUser bobur 10 noBookingBody)
           sample_db bobur eq_refl).
Defined.

(** The owner of the hall marks the booking as past. *)
Lemma changeBookingStatus_sets_status_witness :
  let past := mkBooking 20 10 1748736000000 50 "+998935556677" 4
                        "bo'lib o'tgan" in
  run (changeBookingStatus sample_Date_parse
         (asUser olim 20 (statusBody "bo'lib o'tgan"))) sample_db
  = (Json 200 (BookingData (Some past)), set_bookings sample_db [past]).
Proof.
  cbv zeta.
  apply (changeBookingStatus_sets_status sample_Date_parse
           (asUser olim 20 (statusBody "bo'lib o'tgan")) sample_db
           wedding olim "bo'lib o'tgan"); try reflexivity.
  - right. exists hall. split; reflexivity.
  - cbn. auto.
  - exact sample_uniqueSlots.
Defined.

Lemma booking_writes_keep_uniqueSlots_witness :
  let req := asUser umida 20 (bookingFor 10 "2025-06-02" 60) in
  uniqueSlots (bookings (snd (run (updateBooking sample_Date_parse
                                     sample_toISOString req) sample_db))) /\
  uniqueSlots (bookings (snd (run (changeBookingStatus sample_Date_parse req)
                                  sample_db))) /\
  uniqueSlots (bookings (snd (deleteBooking req sample_db))).
Proof.
  exact (booking_writes_keep_uniqueSlots sample_Date_parse sample_toISOString
           (asUser umida 20 (bookingFor 10 "2025-06-02" 60)) sample_db
           sample_booking_ids sample_uniqueSlots).
Defined.

(** [umida]'s booking leaves the page of the hall once it is past. *)
Lemma past_booking_leaves_venue_page_witness :
  let reqG := asUser umida 10 noVenueBody in
  let db' := snd (run (changeBookingStatus sample_Date_parse
                         (asUser olim 20 (statusBody "bo'lib o'tgan")))
                      sample_db) in
  exists view view',
    getVenueById reqG sample_db = (Continue view, sample_db) /\
    In wedding (view_bookings view) /\
    getVenueById reqG db' = (Continue view', db') /\
    forall b, In b (view_bookings view') -> b_id b <> 20%nat.
Proof.
  cbv zeta.
  destruct (past_booking_leaves_venue_page sample_Date_parse
              (asUser olim 20 (statusBody "bo'lib o'tgan"))
              (asUser umida 10 noVenueBody) sample_db wedding hall olim
              eq_refl eq_refl eq_refl eq_refl (or_intror eq_refl) eq_refl
              sample_uniqueSlots sample_booking_ids eq_refl eq_refl)
    as [view [view' [A [B [_ [C D]]]]]].
  exists view, view'. repeat split; assumption.
Defined.

(** *** Venues *)




(** The owner of the pending venue tries to approve it. *)
Lemma admin_only_routes_witness :
  PUT_venues_id_approve sample_verify (arriving "token-2" 11 noVenueBody)
                        sample_db
  = (roleRefused olim, sample_db).
Proof.
  refine (proj1 (admin_only_routes sample_hash sample_verify sample_db olim
                   "s4lt" (arriving "token-2" 11 noVenueBody)
                   (arriving "token-2" 0 noBookingBody)
                   (arriving "token-2" 4 noUserBody) _) eq_refl).
  discriminate.
Defined.

(** The owner deletes the pending venue. *)
Lemma deleteVenue_cascade_witness :
  fst (deleteVenue (asUser olim 11 noVenueBody) sample_db)
  = Continue "Venue removed" /\
  find (fun v => v_id v =? 11)%nat
       (venues (snd (deleteVenue (asUser olim 11 noVenueBody) sample_db)))
  = None.
Proof.
  destruct (deleteVenue_cascade (asUser olim 11 noVenueBody) sample_db
              garden olim eq_refl eq_refl sample_venue_ids) as [A [B _]].
  split; [exact A | exact B].
Defined.

(** The hall is deleted while [umida]'s booking of it stands. *)
Lemma deleteVenue_orphans_bookings_witness :
  let db' := snd (deleteVenue (asUser olim 10 noVenueBody) sample_db) in
  bookings db' = [wedding] /\
  run (createBooking sample_Date_parse
         (asUser umida 0 (bookingFor 10 "2025-06-02" 50))) db'
  = (Next (AppError "Venue not found" 404), db') /\
  run (updateBooking sample_Date_parse sample_toISOString
         (asUser umida 20 (mkBookingBody None None (Some 60) None None None)))
      db'
  = (Next TypeError, db').
Proof.
  cbv zeta.
  destruct (deleteVenue_orphans_bookings sample_Date_parse sample_toISOString
              (asUser olim 10 noVenueBody) sample_db hall olim
              eq_refl eq_refl (or_introl eq_refl) sample_venue_ids)
    as [A [B C]].
  split; [exact A|]. split.
  - apply B; reflexivity.
  - apply (C _ wedding umida 60); try reflexivity.
    + left; reflexivity.
    + discriminate.
Defined.

(** Approved venues of district 7 with at least 50 seats, at most 60000 a
    seat. *)
Lemma getVenues_filter_witness :
  let q := mkVenueQuery (Some 7%nat) (Some "tasdiqlangan") (Some "50") None
                        None (Some "60000") in
  exists l,
    getVenues sample_Number q sample_db = (Continue l, sample_db) /\
    forall v, In v l -> v_status v = "tasdiqlangan" /\ 50 <= capacity v.
Proof.
  cbv zeta.
  destruct (getVenues_filter sample_Number
              (mkVenueQuery (Some 7%nat) (Some "tasdiqlangan") (Some "50")
                            None None (Some "60000")) sample_db)
    as [l [A [B _]]].
  - intros s [E | [E | [E | [E | []]]]] _; inversion E; subst; discriminate.
  - exists l. split; [exact A|].
    intros v I. apply B in I. destruct I as [_ [_ [S [M _]]]]. split.
    + apply (S _ eq_refl). discriminate.
    + apply (M "50" 50 eq_refl); [discriminate | reflexivity].
Defined.

(** *** Users *)

Lemma user_writes_keep_usernames_unique_witness :
  let req := asUser aziz 4 (mkUserBody (Some "Umida") (Some "Rashidova")
                                       (Some "olim") (Some "secret1") None) in
  usersWellFormed (snd (run (register sample_hash sample_sign "s4lt" req)
                            sample_db)) /\
  usersWellFormed (snd (run (createUser sample_hash "s4lt" req) sample_db)) /\
  usersWellFormed (snd (run (updateUser sample_hash "s4lt" req) sample_db)) /\
  usersWellFormed (snd (run (updateProfile sample_hash "s4lt" req)
                            sample_db)) /\
  usersWellFormed (snd (deleteUser req sample_db)).
Proof.
  exact (user_writes_keep_usernames_unique sample_hash sample_sign "s4lt"
           (asUser aziz 4 (mkUserBody (Some "Umida") (Some "Rashidova")
                                      (Some "olim") (Some "secret1") None))
           sample_db sample_usersWellFormed).
Defined.


(** [umida] asks for the admin role through her profile. *)
Lemma updateProfile_only_self_witness :
  let req := asUser umida 0 (mkUserBody None None (Some "umida2") None
                                        (Some "admin")) in
  map role (users (snd (run (updateProfile sample_hash "s4lt" req)
                            sample_db)))
  = ["admin"; "owner"; "owner"; "user"].
Proof.
  cbv zeta.
  exact (proj1 (updateProfile_only_self sample_hash "s4lt"
                  (asUser umida 0 (mkUserBody None None (Some "umida2") None
                                              (Some "admin")))
                  sample_db umida eq_refl)).
Defined.

(** The admin deletes [umida]; her token is then refused. *)
Lemma deleted_user_locked_out_witness :
  let db' := snd (deleteUser (asUser aziz 4 noUserBody) sample_db) in
  fst (deleteUser (asUser aziz 4 noUserBody) sample_db)
  = Continue "User removed" /\
  bookings db' = [wedding] /\
  protect sample_verify (arriving "token-4" 20 noBookingBody) db'
  = (Respond (Next (AppError "Not authorized to access this route" 401)),
     db').
Proof.
  cbv zeta.
  destruct (deleted_user_locked_out sample_verify (asUser aziz 4 noUserBody)
              sample_db umida eq_refl sample_user_ids) as [A [_ [_ [B C]]]].
  split; [exact A|]. split; [exact B|].
  apply (C _ _ "token-4"); reflexivity.
Defined.

(** *** Images *)

(** [bobur] adds an image to [olim]'s hall. *)
Lemma image_writes_guarded_witness :
  createImage (asUser bobur 0
                 (mkImageBody (Some 10%nat) (Some "https://cdn.uz/hall.jpg")))
              sample_db
  = (Respond (Next (AppError "Not authorized to add images to this venue"
                             403)), sample_db).
Proof.
  refine (proj1 (image_writes_guarded
                   (asUser bobur 0
                      (mkImageBody (Some 10%nat)
                                   (Some "https://cdn.uz/hall.jpg")))
                   sample_db bobur eq_refl)
            10%nat hall "https://cdn.uz/hall.jpg" eq_refl eq_refl _ eq_refl).
  discriminate.
Defined.

(** [olim] adds an image to the hall and then deletes the hall. *)
Lemma image_listing_round_trip_witness :
  let reqI := asUser olim 0 (mkImageBody (Some 10%nat)
                                         (Some "https://cdn.uz/hall.jpg")) in
  let reqL := asUser umida 10 (mkImageBody None None) in
  let db1 := snd (createImage reqI sample_db) in
  let db2 := snd (deleteVenue (asUser olim 10 noVenueBody) db1) in
  getImagesByVenue reqL db1
  = (Continue [mkImage 21 10 "https://cdn.uz/hall.jpg"], db1) /\
  getImagesByVenue reqL db2
  = (Respond (Next (AppError "Venue not found" 404)), db2).
Proof.
  cbv zeta.
  apply (image_listing_round_trip
           (asUser olim 0 (mkImageBody (Some 10%nat)
                                       (Some "https://cdn.uz/hall.jpg")))
           (asUser olim 10 noVenueBody) sample_db olim hall
           "https://cdn.uz/hall.jpg"); try reflexivity.
  - discriminate.
  - left; reflexivity.
  - exact sample_venue_ids.
Defined.

(** *** Districts *)

Lemma sample_districtsWellFormed :
  districtsWellFormed
    (mkStore sample_db [mkDistrict 7 "Chilanzar"; mkDistrict 8 "Yunusobod"]).
Proof.
  split; [|split]; cbn.
  - repeat constructor; cbn; lia.
  - repeat constructor; cbn; intuition discriminate.
  - repeat constructor; cbn; lia.
Qed.

Lemma district_writes_keep_names_unique_witness :
  let st := mkStore sample_db
                    [mkDistrict 7 "Chilanzar"; mkDistrict 8 "Yunusobod"] in
  let req := asUser aziz 8 (mkDistrictBody (Some "Chilanzar")) in
  districtsWellFormed (snd (createDistrict req st)) /\
  districtsWellFormed (snd (updateDistrict req st)) /\
  districtsWellFormed (snd (deleteDistrict req st)).
Proof.
  exact (district_writes_keep_names_unique
           (asUser aziz 8 (mkDistrictBody (Some "Chilanzar")))
           (mkStore sample_db
                    [mkDistrict 7 "Chilanzar"; mkDistrict 8 "Yunusobod"])
           sample_districtsWellFormed).
Defined.



(** District 7 is deleted; the venues that carry its id stay. *)
Lemma deleteDistrict_leaves_venues_witness :
  let st := mkStore sample_db
                    [mkDistrict 7 "Chilanzar"; mkDistrict 8 "Yunusobod"] in
  let req := asUser aziz 7 (mkDistrictBody None) in
  exists st',
    deleteDistrict req st = (Continue "District removed", st') /\
    venues (core st') = [hall; garden] /\
    getDistrictVenues req st'
    = (Respond (Next (AppError "District not found" 404)), st').
Proof.
  cbv zeta.
  destruct (deleteDistrict_leaves_venues
              (asUser aziz 7 (mkDistrictBody None))
              (mkStore sample_db
                       [mkDistrict 7 "Chilanzar"; mkDistrict 8 "Yunusobod"])
              (mkDistrict 7 "Chilanzar")) as [st' [A [B [_ C]]]].
  - cbn. repeat constructor; cbn; lia.
  - reflexivity.
  - exists st'. split; [exact A|]. split; [rewrite B; reflexivity|].
    exact (proj2 (C _ eq_refl)).
Defined.

(** The pending venue of district 7 is approved. *)
Lemma approval_publishes_venue_in_district_witness :
  let st := mkStore sample_db
                    [mkDistrict 7 "Chilanzar"; mkDistrict 8 "Yunusobod"] in
  let reqD := asUser umida 7 (mkDistrictBody None) in
  exists l l' st',
    st' = mkStore (snd (run (approveVenue (asUser aziz 11 noVenueBody))
                            sample_db))
                  [mkDistrict 7 "Chilanzar"; mkDistrict 8 "Yunusobod"] /\
    getDistrictVenues reqD st = (Continue l, st) /\
    getDistrictVenues reqD st' = (Continue l', st') /\
    ~ In 11%nat (map (fun p => v_id (fst p)) l) /\
    In (approved garden, []) l'.
Proof.
  cbv zeta.
  destruct (approval_publishes_venue_in_district
              (asUser aziz 11 noVenueBody)
              (asUser umida 7 (mkDistrictBody None))
              (mkStore sample_db
                       [mkDistrict 7 "Chilanzar"; mkDistrict 8 "Yunusobod"])
              garden (mkDistrict 7 "Chilanzar")
              sample_venue_ids eq_refl eq_refl eq_refl)
    as [l [l' [st' [A [B [C [D [E _]]]]]]]].
  - discriminate.
  - exists l, l', st'. repeat split; assumption.
Defined.

(** A venue owner posts a district. *)
Lemma district_writes_admin_only_witness :
  let st := mkStore sample_db
                    [mkDistrict 7 "Chilanzar"; mkDistrict 8 "Yunusobod"] in
  exists r,
    POST_districts sample_verify
                   (arriving "token-2" 0 (mkDistrictBody (Some "Sergeli"))) st
    = (Respond r, st).
Proof.
  cbv zeta.
  destruct (district_writes_admin_only sample_verify
              (arriving "token-2" 0 (mkDistrictBody (Some "Sergeli")))
              (mkStore sample_db
                       [mkDistrict 7 "Chilanzar"; mkDistrict 8 "Yunusobod"]))
    as [[r [A _]] _].
  - intros u A. unfold authenticated in A. vm_compute in A.
    inversion A. discriminate.
  - exists r. exact A.
Defined.
